(** * The data-state engine of the inventory table editor (app_logic.py)

    A shallow embedding of class [AppLogic]: the canonical DataFrame, the
    undo and redo stacks of serialised states, the four view criteria and
    the filtered and sorted view derived from them.

    AppLogic is written against pandas.  The pandas and Python library
    functions it calls are not part of the program; they are collected in
    the interface [Pandas] below, each with the part of its documented
    behaviour the program relies on.  The semantics is that of pandas 1.x
    and 2.x, the versions on which [pd.read_json] accepts the literal JSON
    string that [undo] and [redo] hand to it.

    Conventions of the embedding:
    - Python [str] values are ASCII strings;
    - a cell holds a string, a finite number (the rational it denotes),
      NaN or None;
    - a method of AppLogic is a computation [M A]: it takes the object's
      state and gives back an outcome (a returned value or a raised
      exception) together with the state it leaves behind, so that what a
      method did before raising is kept, as in Python. *)

From Stdlib Require Import List String Ascii Bool ZArith QArith Lia
  Permutation Sorted DecimalString.
Import ListNotations.
Close Scope Q_scope.
Open Scope string_scope.
Open Scope list_scope.
Open Scope nat_scope.

(** ** Strings *)

Module Str.

(** [c in string.whitespace] for the ASCII range, as [str.strip] sees it. *)
Definition is_space (c : ascii) : bool :=
  let n := nat_of_ascii c in
  ((9 <=? n) && (n <=? 13)) || ((28 <=? n) && (n <=? 32)).

Definition lower_char (c : ascii) : ascii :=
  let n := nat_of_ascii c in
  if (65 <=? n) && (n <=? 90) then ascii_of_nat (n + 32) else c.

(** [s.lower()] *)
Fixpoint lower (s : string) : string :=
  match s with
  | EmptyString => EmptyString
  | String c s' => String (lower_char c) (lower s')
  end.

Fixpoint lstrip (s : string) : string :=
  match s with
  | String c s' => if is_space c then lstrip s' else s
  | EmptyString => EmptyString
  end.

Fixpoint rstrip (s : string) : string :=
  match s with
  | EmptyString => EmptyString
  | String c s' =>
      match rstrip s' with
      | EmptyString => if is_space c then EmptyString else String c EmptyString
      | r => String c r
      end
  end.

(** [s.strip()] *)
Definition strip (s : string) : string := rstrip (lstrip s).

(** [bool(s)]: a string is true when it is not empty. *)
Definition truthy (s : string) : bool :=
  match s with EmptyString => false | _ => true end.

(** [pat in s] *)
Fixpoint contains (pat s : string) : bool :=
  match s with
  | EmptyString => String.prefix pat EmptyString
  | String _ s' => String.prefix pat s || contains pat s'
  end.

Fixpoint forallb (p : ascii -> bool) (s : string) : bool :=
  match s with
  | EmptyString => true
  | String c s' => p c && forallb p s'
  end.

Fixpoint existsb (p : ascii -> bool) (s : string) : bool :=
  match s with
  | EmptyString => false
  | String c s' => p c || existsb p s'
  end.

Definition is_digit (c : ascii) : bool :=
  let n := nat_of_ascii c in (48 <=? n) && (n <=? 57).

(** The characters with a special meaning in a regular expression of
    Python's [re]. *)
Definition is_meta (c : ascii) : bool :=
  existsb (Ascii.eqb c) ".^$*+?{}[]\|()".

(** A pattern without special characters: [re] matches it literally. *)
Definition plain (pat : string) : bool :=
  forallb (fun c => negb (is_meta c)) pat.

(** The spellings of an infinity that a conversion to a number accepts:
    "inf" or "infinity" in any case, with or without a sign, blanks
    around it. *)
Definition names_infinity (s : string) : bool :=
  let t := lower (strip s) in
  let t :=
    match t with
    | String "+"%char t' | String "-"%char t' => t'
    | _ => t
    end in
  String.eqb t "inf" || String.eqb t "infinity".

End Str.

(** ** Cells and DataFrames *)

(** A cell: a Python [str], a finite number, NaN or [None]. *)
Inductive value : Type :=
| VStr (s : string)
| VNum (q : Q)
| VNaN
| VNone.

(** A row of a DataFrame: its index label and its cells, one per column. *)
Definition row : Type := Z * list value.

Record DataFrame : Type := mkDataFrame {
  columns : list string;
  rows : list row
}.

(** [pd.DataFrame()] *)
Definition DataFrame_new : DataFrame := mkDataFrame [] [].

(** [df.empty]: one of the two axes has length 0. *)
Definition empty (d : DataFrame) : bool :=
  match columns d, rows d with
  | [], _ | _, [] => true
  | _, _ => false
  end.

(** Position of the column called [name]. *)
Fixpoint col_pos (cols : list string) (name : string) : option nat :=
  match cols with
  | [] => None
  | c :: cols' =>
      if String.eqb c name then Some 0
      else option_map S (col_pos cols' name)
  end.

(** The cell of row [r] at position [j]. *)
Definition cell (j : nat) (r : row) : value := nth j (snd r) VNaN.

(** The values of the column at position [j], top to bottom. *)
Definition column_values (j : nat) (d : DataFrame) : list value :=
  map (cell j) (rows d).

(** The index of a DataFrame: the labels of its rows. *)
Definition index (d : DataFrame) : list Z := map fst (rows d).

Fixpoint set_nth {A} (j : nat) (x : A) (l : list A) : list A :=
  match j, l with
  | _, [] => []
  | O, _ :: l' => x :: l'
  | S j', y :: l' => y :: set_nth j' x l'
  end.

(** [df[col] = f(df[col])], cell by cell. *)
Definition map_column (j : nat) (f : value -> value) (d : DataFrame)
  : DataFrame :=
  mkDataFrame (columns d)
    (map (fun r => (fst r, set_nth j (f (cell j r)) (snd r))) (rows d)).

(** ** Outcomes of calls that may raise *)

Definition exn : Type := string.

Inductive outcome (A : Type) : Type :=
| Returned (a : A)
| Raised (e : exn).
Arguments Returned {A} a.
Arguments Raised {A} e.

(** ** The library interface *)

(** The order in which a sorted list runs: keys that are present first,
    ascending or descending under [leb], then the missing keys
    ([na_position='last']). *)
Definition key_ord {K} (leb : K -> K -> bool) (ascending : bool)
  (a b : option K) : Prop :=
  match a, b with
  | Some x, Some y => (if ascending then leb x y else leb y x) = true
  | _, None => True
  | None, Some _ => False
  end.

Class Pandas : Type := {
  (** [df.to_json(orient='split', date_format='iso')]: a Python string,
      compared with [!=]; the call may raise. *)
  token : Type;
  token_eq_dec : forall a b : token, {a = b} + {a <> b};
  to_json : DataFrame -> outcome token;
  (** [pd.read_json(token, orient='split')] *)
  read_json : token -> DataFrame;

  (** [str(x)] for a number [x]. *)
  str_num : Q -> string;

  (** [pd.to_numeric] on one string, [None] where [errors='coerce'] gives
      NaN.  A string without a digit is not a number, unless it spells an
      infinity; of those spellings the interface says nothing, a cell of
      the embedding being a finite number or no number. *)
  to_numeric_str : string -> option Q;
  to_numeric_str_none : forall s,
    Str.existsb Str.is_digit s = false -> Str.names_infinity s = false ->
    to_numeric_str s = None;

  (** [re.compile(pat)], which [Series.str.contains] calls before it looks
      at any element: the [re.error] it raises when [pat] is not a regular
      expression.  A pattern without special characters compiles. *)
  re_error : string -> option exn;
  re_error_plain : forall pat, Str.plain pat = true -> re_error pat = None;

  (** [re.search(pat, s) is not None] for a pattern that compiles, the test
      behind [Series.str.contains]; a pattern without special characters
      is searched for literally. *)
  re_search : string -> string -> bool;
  re_search_plain : forall pat s,
    Str.plain pat = true -> re_search pat s = Str.contains pat s;

  (** [DataFrame.sort_values(by=col, ascending=.., na_position='last')] on
      the rows, with the sort key of each row ([None] when it is missing)
      computed by [key].  AppLogic passes no [kind], so pandas sorts with
      its default, 'quicksort': the result is the rows in key order, and
      nothing is promised about rows with equal keys. *)
  sort_values : forall K : Type,
    (K -> K -> bool) -> (row -> option K) -> bool -> list row -> list row;
  sort_values_perm : forall K leb key asc rs,
    Permutation (sort_values K leb key asc rs) rs;
  sort_values_sorted : forall K (leb : K -> K -> bool) key asc rs,
    (forall a b, leb a b = true \/ leb b a = true) ->
    (forall a b c, leb a b = true -> leb b c = true -> leb a c = true) ->
    StronglySorted (fun r1 r2 => key_ord leb asc (key r1) (key r2))
      (sort_values K leb key asc rs)
}.

(** ** The state of an AppLogic object *)

Section Engine.

Context {lib : Pandas}.

Record AppLogic : Type := mkAppLogic {
  df : DataFrame;
  _current_view_df : DataFrame;
  undo_stack : list token;
  redo_stack : list token;
  max_undo_steps : Z;
  _active_filter_col : option string;
  _active_filter_text : string;
  _active_sort_col : option string;
  _active_sort_type : option string;
  (** what the object has printed *)
  stdout : list string
}.

Definition set_df (d : DataFrame) (s : AppLogic) : AppLogic :=
  mkAppLogic d (_current_view_df s) (undo_stack s) (redo_stack s)
    (max_undo_steps s) (_active_filter_col s) (_active_filter_text s)
    (_active_sort_col s) (_active_sort_type s) (stdout s).

Definition set_current_view_df (d : DataFrame) (s : AppLogic) : AppLogic :=
  mkAppLogic (df s) d (undo_stack s) (redo_stack s)
    (max_undo_steps s) (_active_filter_col s) (_active_filter_text s)
    (_active_sort_col s) (_active_sort_type s) (stdout s).

Definition set_undo_stack (l : list token) (s : AppLogic) : AppLogic :=
  mkAppLogic (df s) (_current_view_df s) l (redo_stack s)
    (max_undo_steps s) (_active_filter_col s) (_active_filter_text s)
    (_active_sort_col s) (_active_sort_type s) (stdout s).

Definition set_redo_stack (l : list token) (s : AppLogic) : AppLogic :=
  mkAppLogic (df s) (_current_view_df s) (undo_stack s) l
    (max_undo_steps s) (_active_filter_col s) (_active_filter_text s)
    (_active_sort_col s) (_active_sort_type s) (stdout s).

Definition set_active_filter_col (c : option string) (s : AppLogic)
  : AppLogic :=
  mkAppLogic (df s) (_current_view_df s) (undo_stack s) (redo_stack s)
    (max_undo_steps s) c (_active_filter_text s)
    (_active_sort_col s) (_active_sort_type s) (stdout s).

Definition set_active_filter_text (t : string) (s : AppLogic) : AppLogic :=
  mkAppLogic (df s) (_current_view_df s) (undo_stack s) (redo_stack s)
    (max_undo_steps s) (_active_filter_col s) t
    (_active_sort_col s) (_active_sort_type s) (stdout s).

Definition set_active_sort_col (c : option string) (s : AppLogic)
  : AppLogic :=
  mkAppLogic (df s) (_current_view_df s) (undo_stack s) (redo_stack s)
    (max_undo_steps s) (_active_filter_col s) (_active_filter_text s)
    c (_active_sort_type s) (stdout s).

Definition set_active_sort_type (t : option string) (s : AppLogic)
  : AppLogic :=
  mkAppLogic (df s) (_current_view_df s) (undo_stack s) (redo_stack s)
    (max_undo_steps s) (_active_filter_col s) (_active_filter_text s)
    (_active_sort_col s) t (stdout s).

Definition set_stdout (out : list string) (s : AppLogic) : AppLogic :=
  mkAppLogic (df s) (_current_view_df s) (undo_stack s) (redo_stack s)
    (max_undo_steps s) (_active_filter_col s) (_active_filter_text s)
    (_active_sort_col s) (_active_sort_type s) out.

(** The four view criteria, in the order filter column, filter text, sort
    column, sort type. *)
Definition criteria (s : AppLogic)
  : option string * string * option string * option string :=
  (_active_filter_col s, _active_filter_text s,
   _active_sort_col s, _active_sort_type s).

(** ** Methods as computations on the state *)

Definition M (A : Type) : Type := AppLogic -> outcome A * AppLogic.

Definition ret {A} (a : A) : M A := fun s => (Returned a, s).

Definition bind {A B} (m : M A) (k : A -> M B) : M B :=
  fun s =>
    match m s with
    | (Returned a, s') => k a s'
    | (Raised e, s') => (Raised e, s')
    end.

Definition get : M AppLogic := fun s => (Returned s, s).

Definition modify (f : AppLogic -> AppLogic) : M unit :=
  fun s => (Returned tt, f s).

(** The outcome of a library call. *)
Definition call {A} (o : outcome A) : M A := fun s => (o, s).

(** [try: body except Exception as e: handler(e)] *)
Definition try_except {A} (body : M A) (handler : exn -> M A) : M A :=
  fun s =>
    match body s with
    | (Returned a, s') => (Returned a, s')
    | (Raised e, s') => handler e s'
    end.

(** [print(msg)] *)
Definition print (msg : string) : M unit :=
  modify (fun s => set_stdout (stdout s ++ [msg]) s).

(** The state a call leaves and the outcome it has. *)
Definition exec {A} (m : M A) (s : AppLogic) : AppLogic := snd (m s).
Definition result {A} (m : M A) (s : AppLogic) : outcome A := fst (m s).

(** A call [m] and, whatever its outcome, the call [k] after it: the
    object is called again after a call that raised. *)
Definition and_then {A B} (m : M A) (k : M B) : M B :=
  fun s => k (exec m s).

End Engine.

Notation "x <- m ;; k" := (bind m (fun x => k))
  (at level 61, m at next level, right associativity).
Notation "m ;; k" := (bind m (fun _ => k))
  (at level 61, right associativity).

(** ** Python lists used as stacks *)

Module PyList.

(** [l[-1]] *)
Definition last {A} (l : list A) : outcome A :=
  match rev l with
  | [] => Raised "IndexError: list index out of range"
  | x :: _ => Returned x
  end.

(** [l.pop()]: the element taken and the list that is left. *)
Definition pop {A} (l : list A) : outcome (A * list A) :=
  match rev l with
  | [] => Raised "IndexError: pop from empty list"
  | x :: l' => Returned (x, rev l')
  end.

(** [l.pop(0)] *)
Definition pop0 {A} (l : list A) : outcome (A * list A) :=
  match l with
  | [] => Raised "IndexError: pop from empty list"
  | x :: l' => Returned (x, l')
  end.

(** [x in l] for an optional string [x] and a list of strings. *)
Definition mem (x : option string) (l : list string) : bool :=
  match x with
  | Some s => List.existsb (String.eqb s) l
  | None => false
  end.

End PyList.

(** ** The view: filter, then sort *)

Section View.

Context {lib : Pandas}.

(** [str(v)] for a cell. *)
Definition py_str (v : value) : string :=
  match v with
  | VStr s => s
  | VNum q => str_num q
  | VNaN => "nan"
  | VNone => "None"
  end.

(** An element of a Series of strings; [None] is a missing element. *)
Definition str_elem : Type := option string.

(** [Series.astype(str)], per element: every cell is replaced by its
    [str], a missing cell too. *)
Definition astype_str (v : value) : str_elem := Some (py_str v).

(** [Series.str.lower()], per element. *)
Definition str_lower (x : str_elem) : str_elem := option_map Str.lower x.

(** [Series.str.contains(pat, na=na)], per element. *)
Definition str_contains (pat : string) (na : bool) (x : str_elem) : bool :=
  match x with
  | Some s => re_search pat s
  | None => na
  end.

(** [pd.to_numeric(.., errors='coerce')], per cell. *)
Definition to_numeric (v : value) : value :=
  match v with
  | VNum q => VNum q
  | VStr s =>
      match to_numeric_str s with
      | Some q => VNum q
      | None => VNaN
      end
  | VNaN | VNone => VNaN
  end.

(** [c and c in temp_df.columns]: the position of column [c] when the
    criterion is set and names a column. *)
Definition active_column (c : option string) (temp_df : DataFrame)
  : option nat :=
  match c with
  | Some name =>
      if Str.truthy name then col_pos (columns temp_df) name else None
  | None => None
  end.

(** The row mask of the filter. *)
Definition filter_mask (filter_col : option string) (search_term : string)
  (temp_df : DataFrame) (r : row) : bool :=
  match active_column filter_col temp_df with
  | Some j =>
      str_contains search_term false (str_lower (astype_str (cell j r)))
  | None =>
      List.existsb
        (fun v => str_contains search_term false (str_lower (astype_str v)))
        (snd r)
  end.

(** Step 1 of [apply_filters_and_sort]: the rows it keeps when the search
    term compiles. *)
Definition filter_step (filter_col : option string) (filter_text : string)
  (temp_df : DataFrame) : DataFrame :=
  if Str.truthy filter_text then
    let search_term := Str.lower (Str.strip filter_text) in
    if Str.truthy search_term then
      mkDataFrame (columns temp_df)
        (filter (filter_mask filter_col search_term temp_df) (rows temp_df))
    else temp_df
  else temp_df.

(** The exception of step 1: where [str.contains] is reached, on one
    column or row by row, it compiles the search term first. *)
Definition filter_error (filter_text : string) : option exn :=
  if Str.truthy filter_text then
    let search_term := Str.lower (Str.strip filter_text) in
    if Str.truthy search_term then re_error search_term else None
  else None.

(** Step 1 as it runs on a dataset that is not empty. *)
Definition run_filter_step (filter_col : option string)
  (filter_text : string) (temp_df : DataFrame) : outcome DataFrame :=
  match filter_error filter_text with
  | Some e => Raised e
  | None => Returned (filter_step filter_col filter_text temp_df)
  end.

(** The sort key of a numeric sort: the number in the cell, if any. *)
Definition num_key (j : nat) (r : row) : option Q :=
  match cell j r with
  | VNum q => Some q
  | _ => None
  end.

(** The sort key of a text sort: [col.astype(str).str.lower()]. *)
Definition text_key (j : nat) (r : row) : option string :=
  str_lower (astype_str (cell j r)).

(** Step 2 of [apply_filters_and_sort]. *)
Definition sort_step (sort_col sort_type : option string)
  (temp_df : DataFrame) : DataFrame :=
  match active_column sort_col temp_df with
  | Some column_to_sort =>
      let ascending := negb (PyList.mem sort_type ["za"; "num_desc"]) in
      let is_numeric_sort := PyList.mem sort_type ["num_asc"; "num_desc"] in
      if is_numeric_sort then
        let temp_df := map_column column_to_sort to_numeric temp_df in
        mkDataFrame (columns temp_df)
          (sort_values Q Qle_bool (num_key column_to_sort) ascending
             (rows temp_df))
      else
        mkDataFrame (columns temp_df)
          (sort_values string String.leb (text_key column_to_sort) ascending
             (rows temp_df))
  | None => temp_df
  end.

(** The view that [apply_filters_and_sort] stores for dataset [d] under
    the given criteria, when it gets as far as storing one. *)
Definition compute_view (d : DataFrame)
  (c : option string * string * option string * option string)
  : DataFrame :=
  let '(filter_col, filter_text, sort_col, sort_type) := c in
  if empty d then mkDataFrame (columns d) []
  else sort_step sort_col sort_type (filter_step filter_col filter_text d).

(** ** The methods of AppLogic *)

(** [AppLogic()] *)
Definition __init__ : AppLogic :=
  mkAppLogic DataFrame_new DataFrame_new [] [] 50%Z None "" None None [].

Definition apply_filters_and_sort
  (filter_col filter_text sort_col sort_type : option string) : M unit :=
  match filter_col with
  | Some c => modify (set_active_filter_col (Some c))
  | None => ret tt
  end ;;
  match filter_text with
  | Some t => modify (set_active_filter_text t)
  | None => ret tt
  end ;;
  match sort_col with
  | Some c => modify (set_active_sort_col (Some c))
  | None => ret tt
  end ;;
  match sort_type with
  | Some t => modify (set_active_sort_type (Some t))
  | None => ret tt
  end ;;
  self <- get ;;
  if empty (df self) then
    modify (set_current_view_df (mkDataFrame (columns (df self)) []))
  else
    let temp_df := df self in
    temp_df <- call (run_filter_step (_active_filter_col self)
                       (_active_filter_text self) temp_df) ;;
    let temp_df :=
      sort_step (_active_sort_col self) (_active_sort_type self) temp_df in
    modify (set_current_view_df temp_df).

Definition token_eqb (a b : token) : bool :=
  if token_eq_dec a b then true else false.

(** [not self.undo_stack or self.undo_stack[-1] != current_df_json] *)
Definition differs_from_top (stack : list token) (current_df_json : token)
  : M bool :=
  match stack with
  | [] => ret true
  | _ =>
      top <- call (PyList.last stack) ;;
      ret (negb (token_eqb top current_df_json))
  end.

Definition push_state : M unit :=
  try_except
    (self <- get ;;
     current_df_json <- call (to_json (df self)) ;;
     changed <- differs_from_top (undo_stack self) current_df_json ;;
     if changed then
       modify (fun self =>
                 set_undo_stack (undo_stack self ++ [current_df_json]) self) ;;
       modify (set_redo_stack []) ;;
       self <- get ;;
       if (Z.of_nat (List.length (undo_stack self)) >? max_undo_steps self)%Z then
         popped <- call (PyList.pop0 (undo_stack self)) ;;
         modify (set_undo_stack (snd popped))
       else ret tt
     else ret tt)
    (fun e => print ("Fehler beim Speichern des Undo-Zustands: " ++ e)).

Definition load_new_sheet (dataframe : DataFrame) : M unit :=
  modify (set_df dataframe) ;;
  modify (set_undo_stack []) ;;
  modify (set_redo_stack []) ;;
  modify (set_active_filter_col None) ;;
  modify (set_active_filter_text "") ;;
  modify (set_active_sort_col None) ;;
  modify (set_active_sort_type None) ;;
  push_state ;;
  apply_filters_and_sort None None None None.

Definition get_current_view : M DataFrame :=
  self <- get ;; ret (_current_view_df self).

Definition undo : M bool :=
  self <- get ;;
  if 1 <? List.length (undo_stack self) then
    popped <- call (PyList.pop (undo_stack self)) ;;
    let current_state := fst popped in
    modify (set_undo_stack (snd popped)) ;;
    modify (fun self =>
              set_redo_stack (redo_stack self ++ [current_state]) self) ;;
    self <- get ;;
    previous_state_json <- call (PyList.last (undo_stack self)) ;;
    modify (set_df (read_json previous_state_json)) ;;
    apply_filters_and_sort None None None None ;;
    ret true
  else ret false.

Definition redo : M bool :=
  self <- get ;;
  match redo_stack self with
  | _ :: _ =>
      popped <- call (PyList.pop (redo_stack self)) ;;
      let state_to_restore := fst popped in
      modify (set_redo_stack (snd popped)) ;;
      modify (fun self =>
                set_undo_stack (undo_stack self ++ [state_to_restore]) self) ;;
      modify (set_df (read_json state_to_restore)) ;;
      apply_filters_and_sort None None None None ;;
      ret true
  | [] => ret false
  end.

Definition reset_filters_and_sort : M unit :=
  apply_filters_and_sort (Some "") (Some "") (Some "") (Some "").

(** ** Sequences of calls *)

(** What the window does with the object: the methods it calls and its
    writes into [self.logic.df], any change of the dataset in place. *)
Inductive op : Type :=
| OLoad (dataframe : DataFrame)
| OPush
| OUndo
| ORedo
| OApply (filter_col filter_text sort_col sort_type : option string)
| OReset
| OView
| OEdit (f : DataFrame -> DataFrame).

Definition run_op (o : op) : M unit :=
  match o with
  | OLoad d => load_new_sheet d
  | OPush => push_state
  | OUndo => undo ;; ret tt
  | ORedo => redo ;; ret tt
  | OApply fc ft sc st => apply_filters_and_sort fc ft sc st
  | OReset => reset_filters_and_sort
  | OView => get_current_view ;; ret tt
  | OEdit f => modify (fun self => set_df (f (df self)) self)
  end.

(** The calls of [os] one after the other, each of them made whatever the
    outcome of the one before. *)
Fixpoint run_ops (os : list op) : M unit :=
  match os with
  | [] => ret tt
  | o :: os' => and_then (run_op o) (run_ops os')
  end.

(** [n] calls of [m] in a row; the value is [true] when each of them
    returned [True]. *)
Fixpoint times (n : nat) (m : M bool) : M bool :=
  match n with
  | O => ret true
  | S n' => b <- m ;; bs <- times n' m ;; ret (b && bs)
  end.

End View.

(** ** A reference library

    An instance of the interface on which the model runs: a state is
    serialised as itself and read back with the types of its columns
    inferred anew, numbers are written and read in plain decimal
    notation, and [sort_values] is an insertion sort.  A second instance
    differs from it in [sort_values] alone, which is numpy's quicksort. *)

Module Ref.

Section InsertionSort.

Context {A : Type} (cmp : A -> A -> bool).

Fixpoint insert (x : A) (l : list A) : list A :=
  match l with
  | [] => [x]
  | y :: l' => if cmp x y then x :: l else y :: insert x l'
  end.

Fixpoint isort (l : list A) : list A :=
  match l with
  | [] => []
  | x :: l' => insert x (isort l')
  end.

Lemma insert_perm x l : Permutation (insert x l) (x :: l).
Proof.
  induction l as [|y l IH]; simpl; [reflexivity|].
  destruct (cmp x y); [reflexivity|].
  rewrite IH. apply perm_swap.
Qed.

Lemma isort_perm l : Permutation (isort l) l.
Proof.
  induction l as [|x l IH]; simpl; [constructor|].
  rewrite insert_perm. now constructor.
Qed.

Hypothesis cmp_total : forall a b, cmp a b = true \/ cmp b a = true.
Hypothesis cmp_trans :
  forall a b c, cmp a b = true -> cmp b c = true -> cmp a c = true.

Let R (a b : A) : Prop := cmp a b = true.

Lemma insert_sorted x l :
  StronglySorted R l -> StronglySorted R (insert x l).
Proof.
  induction 1 as [|y l Hs IH Hall]; simpl.
  - repeat constructor.
  - destruct (cmp x y) eqn:E.
    + constructor; [now constructor|].
      constructor; [exact E|].
      rewrite Forall_forall in *. intros z Hz.
      apply (cmp_trans x y z E). now apply Hall.
    + constructor; [exact IH|].
      rewrite Forall_forall in *. intros z Hz.
      apply (Permutation_in _ (insert_perm x l)) in Hz.
      destruct Hz as [<-|Hz]; [|now apply Hall].
      destruct (cmp_total x y) as [H|H]; [congruence|exact H].
Qed.

Lemma isort_sorted l : StronglySorted R (isort l).
Proof.
  induction l as [|x l IH]; simpl; [constructor|].
  now apply insert_sorted.
Qed.

End InsertionSort.

(** The order of [key_ord], as a test. *)
Definition key_ordb {K} (leb : K -> K -> bool) (ascending : bool)
  (a b : option K) : bool :=
  match a, b with
  | Some x, Some y => if ascending then leb x y else leb y x
  | _, None => true
  | None, Some _ => false
  end.

Lemma key_ordb_ord {K} (leb : K -> K -> bool) asc a b :
  key_ordb leb asc a b = true <-> key_ord leb asc a b.
Proof.
  destruct a, b; simpl; intuition congruence.
Qed.

Lemma key_ordb_total {K} (leb : K -> K -> bool) asc :
  (forall a b, leb a b = true \/ leb b a = true) ->
  forall a b, key_ordb leb asc a b = true \/ key_ordb leb asc b a = true.
Proof.
  intros T [x|] [y|]; simpl; auto.
  destruct asc; [apply T|]. destruct (T x y); auto.
Qed.

Lemma key_ordb_trans {K} (leb : K -> K -> bool) asc :
  (forall a b c, leb a b = true -> leb b c = true -> leb a c = true) ->
  forall a b c, key_ordb leb asc a b = true -> key_ordb leb asc b c = true ->
                key_ordb leb asc a c = true.
Proof.
  intros T [x|] [y|] [z|]; simpl; try congruence.
  destruct asc; eauto.
Qed.

(** Rows in key order, rows with equal keys in the order they had. *)
Definition ref_sort_values (K : Type) (leb : K -> K -> bool)
  (key : row -> option K) (ascending : bool) (rs : list row) : list row :=
  isort (fun r1 r2 => key_ordb leb ascending (key r1) (key r2)) rs.

Lemma ref_sort_values_perm K leb key asc rs :
  Permutation (ref_sort_values K leb key asc rs) rs.
Proof. apply isort_perm. Qed.

Lemma StronglySorted_impl {A} (R1 R2 : A -> A -> Prop) l :
  (forall a b, R1 a b -> R2 a b) ->
  StronglySorted R1 l -> StronglySorted R2 l.
Proof.
  intros HR. induction 1 as [|x l Hs IH Hall]; constructor; auto.
  eapply Forall_impl; [|exact Hall]. auto.
Qed.

Lemma ref_sort_values_sorted K (leb : K -> K -> bool) key asc rs :
  (forall a b, leb a b = true \/ leb b a = true) ->
  (forall a b c, leb a b = true -> leb b c = true -> leb a c = true) ->
  StronglySorted (fun r1 r2 => key_ord leb asc (key r1) (key r2))
    (ref_sort_values K leb key asc rs).
Proof.
  intros T Tr. unfold ref_sort_values.
  eapply StronglySorted_impl;
    [|apply isort_sorted with
        (cmp := fun r1 r2 => key_ordb leb asc (key r1) (key r2))].
  - intros a b. apply key_ordb_ord.
  - intros a b. apply key_ordb_total, T.
  - intros a b c. apply key_ordb_trans, Tr.
Qed.

(** Equality of serialised states. *)

Definition Q_eq_dec (a b : Q) : {a = b} + {a <> b}.
Proof. decide equality; [apply Pos.eq_dec | apply Z.eq_dec]. Defined.

Definition value_eq_dec (a b : value) : {a = b} + {a <> b}.
Proof. decide equality; [apply string_dec | apply Q_eq_dec]. Defined.

Definition row_eq_dec (a b : row) : {a = b} + {a <> b}.
Proof.
  decide equality; [apply (list_eq_dec value_eq_dec) | apply Z.eq_dec].
Defined.

Definition DataFrame_eq_dec (a b : DataFrame) : {a = b} + {a <> b}.
Proof.
  decide equality;
    [apply (list_eq_dec row_eq_dec) | apply (list_eq_dec string_dec)].
Defined.

(** [to_json] with [orient='split'] writes every DataFrame whose cells are
    strings, numbers and missing values; what is written stands for itself
    here. *)
Definition ref_to_json (d : DataFrame) : outcome DataFrame := Returned d.

(** Numbers in decimal notation: the integer part, a point, and the
    digits after it (17 at most, one at least). *)

Definition digit_char (z : Z) : ascii := ascii_of_nat (48 + Z.to_nat z).

Fixpoint frac_digits (fuel : nat) (r d : Z) : string :=
  match fuel with
  | O => EmptyString
  | S fuel' =>
      if (r =? 0)%Z then EmptyString
      else String (digit_char (10 * r / d)%Z)
             (frac_digits fuel' ((10 * r) mod d)%Z d)
  end.

Definition ref_str_num (q : Q) : string :=
  let n := Z.abs (Qnum q) in
  let d := Zpos (Qden q) in
  let sign := if (Qnum q <? 0)%Z then "-" else "" in
  let frac := frac_digits 17 (n mod d)%Z d in
  sign ++ NilZero.string_of_int (Z.to_int (n / d)%Z) ++ "."
    ++ (if Str.truthy frac then frac else "0").

(** Reads digits, with one point at most: the number without its point
    and the power of ten to divide it by. *)
Fixpoint read_digits (s : string) (acc : Z) (den : positive)
  (after_point : bool) : option (Z * positive) :=
  match s with
  | EmptyString => Some (acc, den)
  | String c s' =>
      if Str.is_digit c then
        read_digits s' (10 * acc + Z.of_nat (nat_of_ascii c - 48))%Z
          (if after_point then (10 * den)%positive else den) after_point
      else if Ascii.eqb c "."%char && negb after_point then
        read_digits s' acc den true
      else None
  end.

Definition ref_to_numeric_str (s : string) : option Q :=
  if Str.existsb Str.is_digit s then
    match s with
    | String "-"%char s' =>
        option_map (fun p => Qmake (- fst p) (snd p))
          (read_digits s' 0%Z 1%positive false)
    | _ =>
        option_map (fun p => Qmake (fst p) (snd p))
          (read_digits s 0%Z 1%positive false)
    end
  else None.

Lemma ref_to_numeric_str_none s :
  Str.existsb Str.is_digit s = false -> Str.names_infinity s = false ->
  ref_to_numeric_str s = None.
Proof. unfold ref_to_numeric_str. now intros ->. Qed.

(** [pd.read_json] infers the type of every column anew.  A column in
    which each cell is a number, a string that reads as a number or a
    missing value comes back as a column of numbers, with NaN for the
    missing values.  The cells of any other column come back as they were
    written, a missing value as [None], which is what JSON's null is read
    as there. *)
Definition ref_to_numeric (v : value) : value :=
  match v with
  | VNum q => VNum q
  | VStr s =>
      match ref_to_numeric_str s with
      | Some q => VNum q
      | None => VNaN
      end
  | VNaN | VNone => VNaN
  end.

Definition reads_as_number (v : value) : bool :=
  match v with
  | VStr s =>
      match ref_to_numeric_str s with
      | Some _ => true
      | None => false
      end
  | _ => true
  end.

Definition read_null (v : value) : value :=
  match v with
  | VNaN => VNone
  | _ => v
  end.

Definition read_column (d : DataFrame) (j : nat) : DataFrame :=
  if List.forallb reads_as_number (column_values j d)
  then map_column j ref_to_numeric d
  else map_column j read_null d.

Definition ref_read_json (t : DataFrame) : DataFrame :=
  fold_left read_column (seq 0 (List.length (columns t))) t.

(** [re.compile]: the reference library knows a pattern without special
    characters, which compiles, and the errors of a quantifier with
    nothing before it and of parentheses that do not match (in a pattern
    without backslash and bracket, where every parenthesis opens or closes
    a group).  Any other pattern it takes to compile, and it searches for
    every pattern literally. *)
Definition is_quantifier (c : ascii) : bool :=
  Str.existsb (Ascii.eqb c) "*+?".

Definition nat_str (n : nat) : string :=
  NilZero.string_of_uint (Nat.to_uint n).

Fixpoint parentheses (s : string) (pos : nat) (opened : list nat)
  : option exn :=
  match s with
  | EmptyString =>
      match opened with
      | [] => None
      | p :: _ =>
          Some ("re.error: missing ), unterminated subpattern at position "
                ++ nat_str p)%string
      end
  | String c s' =>
      if Ascii.eqb c "("%char then parentheses s' (S pos) (pos :: opened)
      else if Ascii.eqb c ")"%char then
        match opened with
        | [] =>
            Some ("re.error: unbalanced parenthesis at position "
                  ++ nat_str pos)%string
        | _ :: opened' => parentheses s' (S pos) opened'
        end
      else parentheses s' (S pos) opened
  end.

Definition ref_re_error (pat : string) : option exn :=
  if Str.plain pat then None
  else
    match pat with
    | EmptyString => None
    | String c _ =>
        if is_quantifier c
        then Some "re.error: nothing to repeat at position 0"
        else if Str.existsb
                  (fun c => Ascii.eqb c "\"%char || Ascii.eqb c "["%char) pat
        then None
        else parentheses pat 0 []
    end.

Lemma ref_re_error_plain (pat : string) :
  Str.plain pat = true -> ref_re_error pat = None.
Proof. unfold ref_re_error. now intros ->. Qed.

Lemma ref_re_search_plain (pat s : string) :
  Str.plain pat = true -> Str.contains pat s = Str.contains pat s.
Proof. reflexivity. Qed.

(** The reference library. *)
Definition lib : Pandas :=
  {| token := DataFrame;
     token_eq_dec := DataFrame_eq_dec;
     to_json := ref_to_json;
     read_json := ref_read_json;
     str_num := ref_str_num;
     to_numeric_str := ref_to_numeric_str;
     to_numeric_str_none := ref_to_numeric_str_none;
     re_error := ref_re_error;
     re_error_plain := ref_re_error_plain;
     re_search := Str.contains;
     re_search_plain := ref_re_search_plain;
     sort_values := ref_sort_values;
     sort_values_perm := ref_sort_values_perm;
     sort_values_sorted := ref_sort_values_sorted |}.

(** A library in which [to_json] raises.  pandas writes every cell the
    embedding has; it raises on a cell that holds some other Python
    object, one that refers to itself for instance, and says so with an
    OverflowError.  In this library every dataset stands for one with
    such a cell. *)
Definition lib_to_json_raises : Pandas :=
  {| token := DataFrame;
     token_eq_dec := DataFrame_eq_dec;
     to_json := fun _ => Raised "Maximum recursion level reached";
     read_json := ref_read_json;
     str_num := ref_str_num;
     to_numeric_str := ref_to_numeric_str;
     to_numeric_str_none := ref_to_numeric_str_none;
     re_error := ref_re_error;
     re_error_plain := ref_re_error_plain;
     re_search := Str.contains;
     re_search_plain := ref_re_search_plain;
     sort_values := ref_sort_values;
     sort_values_perm := ref_sort_values_perm;
     sort_values_sorted := ref_sort_values_sorted |}.

(** *** A library that sorts as numpy does

    Behind [sort_values] pandas calls numpy's [argsort(kind='quicksort')]:
    a segment of more than 17 elements is partitioned around the median of
    its first, middle and last element, a shorter one is sorted by
    insertion.  The functions below follow that loop on a list used as an
    array; [lt] is the comparison [<] of the elements and [d] stands for an
    element outside the array. *)

Section Quicksort.

Context {T : Type} (lt : T -> T -> bool) (d : T).

Definition swap (i j : nat) (a : list T) : list T :=
  set_nth i (nth j a d) (set_nth j (nth i a d) a).

(** One step of the insertion sort: [x] moves left past the elements
    greater than it. *)
Fixpoint insert_after (x : T) (l : list T) : list T :=
  match l with
  | [] => [x]
  | y :: l' => if lt x y then x :: l else y :: insert_after x l'
  end.

(** Insertion sort of the segment from [pl] to [pr]. *)
Definition insertion_range (a : list T) (pl pr : nat) : list T :=
  firstn pl a
  ++ fold_left (fun acc x => insert_after x acc)
       (firstn (pr + 1 - pl) (skipn pl a)) []
  ++ skipn (pr + 1) a.

(** [while (LT(v[*pi], vp)) ++pi] *)
Fixpoint scan_up (fuel : nat) (vp : T) (a : list T) (i : nat) : nat :=
  match fuel with
  | O => i
  | S fuel' => if lt (nth i a d) vp then scan_up fuel' vp a (S i) else i
  end.

(** [while (LT(vp, v[*pj])) --pj] *)
Fixpoint scan_down (fuel : nat) (vp : T) (a : list T) (j : nat) : nat :=
  match fuel with
  | O => j
  | S fuel' => if lt vp (nth j a d) then scan_down fuel' vp a (pred j) else j
  end.

Fixpoint partition_loop (fuel : nat) (vp : T) (a : list T) (i j : nat)
  : list T * nat :=
  match fuel with
  | O => (a, i)
  | S fuel' =>
      let i := scan_up (List.length a) vp a (S i) in
      let j := scan_down (List.length a) vp a (pred j) in
      if j <=? i then (a, i) else partition_loop fuel' vp (swap i j a) i j
  end.

Definition partition (a : list T) (pl pr : nat) : list T * nat :=
  let pm := pl + (pr - pl) / 2 in
  let a := if lt (nth pm a d) (nth pl a d) then swap pm pl a else a in
  let a := if lt (nth pr a d) (nth pm a d) then swap pr pm a else a in
  let a := if lt (nth pm a d) (nth pl a d) then swap pm pl a else a in
  let vp := nth pm a d in
  let a := swap pm (pr - 1) a in
  let '(a, i) := partition_loop (List.length a) vp a pl (pr - 1) in
  (swap i (pr - 1) a, i).

(** The sort of the segment from [pl] to [pr].  Where [depth] runs out
    numpy sorts the segment with a heap sort; an insertion sort stands in
    for it here. *)
Fixpoint quicksort_range (depth : nat) (a : list T) (pl pr : nat) : list T :=
  match depth with
  | O => insertion_range a pl pr
  | S depth' =>
      if 16 <? pr - pl then
        let '(a, i) := partition a pl pr in
        let a := quicksort_range depth' a pl (i - 1) in
        quicksort_range depth' a (i + 1) pr
      else insertion_range a pl pr
  end.

Definition quicksort (a : list T) : list T :=
  quicksort_range (2 * Nat.log2 (List.length a) + 1) a 0 (List.length a - 1).

End Quicksort.

Definition has_key {K} (key : row -> option K) (r : row) : bool :=
  match key r with Some _ => true | None => false end.

(** [nargsort] of pandas: the rows with a key are sorted in ascending
    order, reversed before and after for a descending sort, and the rows
    without a key follow. *)
Definition nargsort (K : Type) (leb : K -> K -> bool)
  (key : row -> option K) (ascending : bool) (rs : list row) : list row :=
  let lt r1 r2 :=
    match key r1, key r2 with
    | Some x, Some y => negb (leb y x)
    | _, _ => false
    end in
  let non_nans := filter (has_key key) rs in
  let nans := filter (fun r => negb (has_key key r)) rs in
  let non_nans := if ascending then non_nans else rev non_nans in
  let sorted := quicksort lt (0%Z, []) non_nans in
  (if ascending then sorted else rev sorted) ++ nans.

(** Whether [l] runs in the order [cmp]. *)
Fixpoint sortedb {A} (cmp : A -> A -> bool) (l : list A) : bool :=
  match l with
  | [] => true
  | x :: l' => List.forallb (cmp x) l' && sortedb cmp l'
  end.

Lemma sortedb_sound {A} (cmp : A -> A -> bool) l :
  sortedb cmp l = true -> StronglySorted (fun a b => cmp a b = true) l.
Proof.
  induction l as [|x l IH]; cbn; [constructor|].
  rewrite andb_true_iff, forallb_forall. intros [F S].
  constructor; [now apply IH|]. now apply Forall_forall.
Qed.

Fixpoint remove_first (x : row) (l : list row) : option (list row) :=
  match l with
  | [] => None
  | y :: l' =>
      if row_eq_dec y x then Some l'
      else option_map (cons y) (remove_first x l')
  end.

(** Whether [l1] holds the rows of [l2], each as often. *)
Fixpoint same_rows (l1 l2 : list row) : bool :=
  match l1 with
  | [] => match l2 with [] => true | _ => false end
  | x :: l1' =>
      match remove_first x l2 with
      | Some l2' => same_rows l1' l2'
      | None => false
      end
  end.

Lemma remove_first_perm x l : forall l',
  remove_first x l = Some l' -> Permutation l (x :: l').
Proof.
  induction l as [|y l IH]; intros l'; cbn; [discriminate|].
  destruct (row_eq_dec y x) as [->|N].
  - intros [= ->]. reflexivity.
  - destruct (remove_first x l) as [l0|]; [|discriminate].
    intros [= <-]. rewrite (IH l0 eq_refl). apply perm_swap.
Qed.

Lemma same_rows_sound l1 : forall l2,
  same_rows l1 l2 = true -> Permutation l1 l2.
Proof.
  induction l1 as [|x l1 IH]; intros l2; cbn.
  - destruct l2; [constructor|discriminate].
  - destruct (remove_first x l2) as [l2'|] eqn:E; [|discriminate].
    intros H. rewrite (remove_first_perm x l2 l2' E).
    constructor. now apply IH.
Qed.

(** [sort_values] by way of numpy's quicksort.  Its result is checked, and
    the insertion sort takes over should the check fail; so the contract
    of [sort_values] holds for it whatever the quicksort does. *)
Definition quick_sort_values (K : Type) (leb : K -> K -> bool)
  (key : row -> option K) (ascending : bool) (rs : list row) : list row :=
  let out := nargsort K leb key ascending rs in
  if same_rows out rs
     && sortedb (fun r1 r2 => key_ordb leb ascending (key r1) (key r2)) out
  then out
  else ref_sort_values K leb key ascending rs.

Lemma quick_sort_values_perm K leb key asc rs :
  Permutation (quick_sort_values K leb key asc rs) rs.
Proof.
  unfold quick_sort_values.
  destruct (same_rows _ rs) eqn:P; cbn [andb].
  - destruct (sortedb _ _); [|apply ref_sort_values_perm].
    now apply same_rows_sound.
  - apply ref_sort_values_perm.
Qed.

Lemma quick_sort_values_sorted K (leb : K -> K -> bool) key asc rs :
  (forall a b, leb a b = true \/ leb b a = true) ->
  (forall a b c, leb a b = true -> leb b c = true -> leb a c = true) ->
  StronglySorted (fun r1 r2 => key_ord leb asc (key r1) (key r2))
    (quick_sort_values K leb key asc rs).
Proof.
  intros T Tr. unfold quick_sort_values.
  destruct (same_rows _ rs); cbn [andb];
    [|now apply ref_sort_values_sorted].
  destruct (sortedb _ _) eqn:S; [|now apply ref_sort_values_sorted].
  apply sortedb_sound in S.
  eapply StronglySorted_impl; [|exact S].
  intros a b. apply key_ordb_ord.
Qed.

Definition lib_quicksort : Pandas :=
  {| token := DataFrame;
     token_eq_dec := DataFrame_eq_dec;
     to_json := ref_to_json;
     read_json := ref_read_json;
     str_num := ref_str_num;
     to_numeric_str := ref_to_numeric_str;
     to_numeric_str_none := ref_to_numeric_str_none;
     re_error := ref_re_error;
     re_error_plain := ref_re_error_plain;
     re_search := Str.contains;
     re_search_plain := ref_re_search_plain;
     sort_values := quick_sort_values;
     sort_values_perm := quick_sort_values_perm;
     sort_values_sorted := quick_sort_values_sorted |}.

End Ref.

(** ** What each method does to the state *)

Section Effects.

Context {lib : Pandas}.

(** The top of a stack, if it has one. *)
Definition top {A} (stack : list A) : option A :=
  match rev stack with
  | [] => None
  | x :: _ => Some x
  end.

(** The state with its view recomputed from its dataset and criteria. *)
Definition refresh (s : AppLogic) : AppLogic :=
  set_current_view_df (compute_view (df s) (criteria s)) s.

Definition or_else {A} (new : option A) (old : A) : A :=
  match new with
  | Some x => x
  | None => old
  end.

(** The state with the criteria that were passed put in place. *)
Definition update_criteria
  (filter_col filter_text sort_col sort_type : option string)
  (s : AppLogic) : AppLogic :=
  mkAppLogic (df s) (_current_view_df s) (undo_stack s) (redo_stack s)
    (max_undo_steps s)
    (match filter_col with Some c => Some c | None => _active_filter_col s end)
    (or_else filter_text (_active_filter_text s))
    (match sort_col with Some c => Some c | None => _active_sort_col s end)
    (match sort_type with Some t => Some t | None => _active_sort_type s end)
    (stdout s).

(** The undo stack after [t] has been appended under the bound [bound]. *)
Definition pushed (stack : list token) (t : token) (bound : Z)
  : list token :=
  if (Z.of_nat (List.length (stack ++ [t])) >? bound)%Z
  then tl (stack ++ [t]) else stack ++ [t].

(** Whether [push_state] appends [t]. *)
Definition push_appends (stack : list token) (t : token) : bool :=
  match top stack with
  | None => true
  | Some x => negb (token_eqb x t)
  end.

Definition push_state_effect (s : AppLogic) : AppLogic :=
  match to_json (df s) with
  | Returned t =>
      if push_appends (undo_stack s) t then
        set_undo_stack (pushed (undo_stack s) t (max_undo_steps s))
          (set_redo_stack [] s)
      else s
  | Raised e =>
      set_stdout
        (stdout s ++ [("Fehler beim Speichern des Undo-Zustands: " ++ e)%string])
        s
  end.

(** The exception, if there is one, of computing the view of dataset [d]
    under the filter text [filter_text]. *)
Definition view_error (d : DataFrame) (filter_text : string) : option exn :=
  if empty d then None else filter_error filter_text.

(** Recomputing the view of [s] under its own criteria: the view is
    replaced, or an exception is raised and the view stays. *)
Definition refreshed (s : AppLogic) : outcome unit * AppLogic :=
  match view_error (df s) (_active_filter_text s) with
  | None => (Returned tt, refresh s)
  | Some e => (Raised e, s)
  end.

(** [m] and then [return True]. *)
Definition and_true (r : outcome unit * AppLogic) : outcome bool * AppLogic :=
  match r with
  | (Returned _, s) => (Returned true, s)
  | (Raised e, s) => (Raised e, s)
  end.

Definition undo_effect (s : AppLogic) : outcome bool * AppLogic :=
  match rev (undo_stack s) with
  | current_state :: previous_state_json :: below =>
      and_true
        (refreshed
           (set_df (read_json previous_state_json)
              (set_redo_stack (redo_stack s ++ [current_state])
                 (set_undo_stack (rev (previous_state_json :: below)) s))))
  | _ => (Returned false, s)
  end.

Definition redo_effect (s : AppLogic) : outcome bool * AppLogic :=
  match rev (redo_stack s) with
  | state_to_restore :: below =>
      and_true
        (refreshed
           (set_df (read_json state_to_restore)
              (set_undo_stack (undo_stack s ++ [state_to_restore])
                 (set_redo_stack (rev below) s))))
  | [] => (Returned false, s)
  end.

Definition load_effect (dataframe : DataFrame) (s : AppLogic) : AppLogic :=
  refresh
    (push_state_effect
       (mkAppLogic dataframe (_current_view_df s) [] [] (max_undo_steps s)
          None "" None None (stdout s))).

Lemma state_eta (s : AppLogic) :
  mkAppLogic (df s) (_current_view_df s) (undo_stack s) (redo_stack s)
    (max_undo_steps s) (_active_filter_col s) (_active_filter_text s)
    (_active_sort_col s) (_active_sort_type s) (stdout s) = s.
Proof. now destruct s. Qed.

Lemma apply_filters_and_sort_eq fc ft sc st s :
  apply_filters_and_sort fc ft sc st s
  = refreshed (update_criteria fc ft sc st s).
Proof.
  unfold apply_filters_and_sort, bind, modify, get, ret, call, refreshed,
    view_error, run_filter_step, refresh, compute_view, criteria.
  destruct s, fc, ft, sc, st; cbn;
    match goal with |- context [empty ?d] => destruct (empty d) end;
    try reflexivity;
    match goal with |- context [filter_error ?t] =>
      destruct (filter_error t) end;
    reflexivity.
Qed.

Lemma recompute_eq s :
  apply_filters_and_sort None None None None s = refreshed s.
Proof.
  rewrite apply_filters_and_sort_eq. f_equal.
  unfold update_criteria; cbn. apply state_eta.
Qed.

(** A view under an empty filter text is computed without an exception. *)
Lemma refreshed_no_text s :
  _active_filter_text s = "" -> refreshed s = (Returned tt, refresh s).
Proof.
  intros E. unfold refreshed, view_error. rewrite E.
  now destruct (empty (df s)).
Qed.

(** What [refreshed] leaves is the state itself or the state with a new
    view. *)
Lemma refreshed_cases s :
  (view_error (df s) (_active_filter_text s) = None
   /\ refreshed s = (Returned tt, refresh s))
  \/ (exists e, view_error (df s) (_active_filter_text s) = Some e
                /\ refreshed s = (Raised e, s)).
Proof.
  unfold refreshed.
  destruct (view_error (df s) (_active_filter_text s)) as [e|];
    [right; now exists e|now left].
Qed.

(** [refreshed] changes the view and nothing else. *)
Lemma refreshed_frame s :
  let s' := snd (refreshed s) in
  df s' = df s /\ undo_stack s' = undo_stack s
  /\ redo_stack s' = redo_stack s /\ max_undo_steps s' = max_undo_steps s
  /\ criteria s' = criteria s /\ stdout s' = stdout s.
Proof.
  destruct (refreshed_cases s) as [[_ ->]|(e & _ & ->)]; cbn; auto 10.
Qed.

Lemma refreshed_df s : df (snd (refreshed s)) = df s.
Proof. apply refreshed_frame. Qed.

Lemma refreshed_undo_stack s :
  undo_stack (snd (refreshed s)) = undo_stack s.
Proof. apply refreshed_frame. Qed.

Lemma refreshed_redo_stack s :
  redo_stack (snd (refreshed s)) = redo_stack s.
Proof. apply refreshed_frame. Qed.

Lemma refreshed_max s :
  max_undo_steps (snd (refreshed s)) = max_undo_steps s.
Proof. apply refreshed_frame. Qed.


Lemma and_true_state r : snd (and_true r) = snd r.
Proof. now destruct r as [[[]|e] s]. Qed.

Lemma push_state_effect_text s :
  _active_filter_text (push_state_effect s) = _active_filter_text s.
Proof.
  unfold push_state_effect.
  destruct (to_json (df s)) as [t|e]; [|reflexivity].
  now destruct (push_appends (undo_stack s) t).
Qed.

Lemma rev_cons_not_nil {A} (x : A) l : rev (x :: l) <> [].
Proof.
  intros E. apply (f_equal (@List.length A)) in E.
  rewrite length_rev in E. discriminate.
Qed.

Lemma differs_from_top_eq stack t s :
  differs_from_top stack t s = (Returned (push_appends stack t), s).
Proof.
  unfold differs_from_top, push_appends, top, PyList.last, bind, call, ret.
  destruct stack as [|x stack]; [reflexivity|].
  destruct (rev (x :: stack)) eqn:E; [|reflexivity].
  now apply rev_cons_not_nil in E.
Qed.

Lemma pop0_pushed stack (t : token) :
  PyList.pop0 (stack ++ [t]) = Returned (hd t (stack ++ [t]), tl (stack ++ [t])).
Proof. now destruct stack. Qed.

Lemma push_state_eq s :
  push_state s = (Returned tt, push_state_effect s).
Proof.
  unfold push_state, push_state_effect, try_except, bind, get, call.
  destruct (to_json (df s)) as [t|e]; [|reflexivity].
  rewrite differs_from_top_eq.
  destruct (push_appends (undo_stack s) t); [|reflexivity].
  unfold modify, pushed; cbn.
  destruct (_ >? _)%Z; [|reflexivity].
  unfold ret; rewrite pop0_pushed; reflexivity.
Qed.

Lemma undo_eq s : undo s = undo_effect s.
Proof.
  unfold undo, undo_effect, bind, get.
  rewrite <- (length_rev (undo_stack s)).
  unfold call at 1, PyList.pop.
  destruct (rev (undo_stack s)) as [|x [|y below]] eqn:E; try reflexivity.
  cbn -[rev apply_filters_and_sort].
  unfold PyList.last. rewrite rev_involutive.
  cbn -[rev apply_filters_and_sort].
  rewrite recompute_eq. unfold and_true.
  now destruct (refreshed _) as [[[]|e] s'].
Qed.

Lemma redo_eq s : redo s = redo_effect s.
Proof.
  unfold redo, redo_effect, bind, get.
  destruct (redo_stack s) as [|x R] eqn:ER; [reflexivity|].
  unfold call, PyList.pop.
  destruct (rev (x :: R)) as [|y below] eqn:E.
  - now apply rev_cons_not_nil in E.
  - cbn -[rev apply_filters_and_sort].
    rewrite recompute_eq. unfold and_true.
    now destruct (refreshed _) as [[[]|e] s'].
Qed.

Lemma load_new_sheet_eq d s :
  load_new_sheet d s = (Returned tt, load_effect d s).
Proof.
  unfold load_new_sheet, load_effect, bind, modify.
  cbn -[push_state apply_filters_and_sort].
  rewrite push_state_eq, recompute_eq.
  apply refreshed_no_text. now rewrite push_state_effect_text.
Qed.

End Effects.

(** ** The history: push, undo and redo *)

Section History.

Context {lib : Pandas}.

Lemma top_app_last {A} (l : list A) (x : A) : top (l ++ [x]) = Some x.
Proof. unfold top. now rewrite rev_unit. Qed.

Lemma token_eqb_eq (a b : token) : token_eqb a b = true <-> a = b.
Proof.
  unfold token_eqb. destruct (token_eq_dec a b); intuition congruence.
Qed.

Lemma push_appends_false stack (t : token) :
  push_appends stack t = false <-> top stack = Some t.
Proof.
  unfold push_appends. destruct (top stack) as [x|].
  - rewrite negb_false_iff, token_eqb_eq. intuition congruence.
  - intuition congruence.
Qed.

Lemma top_pushed stack (t : token) bound :
  pushed stack t bound = [] \/ top (pushed stack t bound) = Some t.
Proof.
  unfold pushed. destruct (_ >? _)%Z; [|right; apply top_app_last].
  destruct stack as [|x stack]; [now left|right].
  cbn. apply top_app_last.
Qed.

Lemma pushed_nil_again stack (t : token) bound :
  pushed stack t bound = [] -> pushed [] t bound = [].
Proof.
  unfold pushed. destruct stack as [|x stack].
  - trivial.
  - destruct (_ >? _)%Z; cbn; [|discriminate].
    destruct stack; discriminate.
Qed.

(** C7. [push_state] called a second time, the dataset not having changed
    in between, leaves the undo stack as the first call left it; and a
    call made while the top of the undo stack is the serialised dataset
    appends nothing. *)
Theorem push_state_idempotent (s : AppLogic) :
  undo_stack (exec push_state (exec push_state s))
  = undo_stack (exec push_state s)
  /\ (forall t, to_json (df s) = Returned t ->
                top (undo_stack s) = Some t ->
                undo_stack (exec push_state s) = undo_stack s).
Proof.
  unfold exec. rewrite !push_state_eq. cbn [snd]. split.
  - unfold push_state_effect at 2 3.
    destruct (to_json (df s)) as [t|e] eqn:E.
    + destruct (push_appends (undo_stack s) t) eqn:P.
      * unfold push_state_effect; cbn. rewrite E.
        destruct (top_pushed (undo_stack s) t (max_undo_steps s)) as [N|T].
        -- rewrite N. cbn. now apply pushed_nil_again in N.
        -- apply push_appends_false in T. now rewrite T.
      * unfold push_state_effect. now rewrite E, P.
    + unfold push_state_effect; cbn. now rewrite E.
  - intros t E T. unfold push_state_effect. rewrite E.
    apply push_appends_false in T. now rewrite T.
Qed.

(** C8. A call of [push_state] that appends (the serialised dataset is
    not the top of the undo stack) leaves the redo stack empty, whatever
    it held before; a call that appends nothing leaves the redo stack as
    it was. *)
Theorem push_state_redo_stack (s : AppLogic) (t : token) :
  to_json (df s) = Returned t ->
  (top (undo_stack s) <> Some t -> redo_stack (exec push_state s) = [])
  /\ (top (undo_stack s) = Some t ->
      redo_stack (exec push_state s) = redo_stack s
      /\ undo_stack (exec push_state s) = undo_stack s).
Proof.
  intros E. unfold exec. rewrite push_state_eq. cbn [snd].
  unfold push_state_effect. rewrite E. split.
  - intros T. destruct (push_appends (undo_stack s) t) eqn:P; [reflexivity|].
    now apply push_appends_false in P.
  - intros T. apply push_appends_false in T. now rewrite T.
Qed.

(** C9. When serialising the dataset raises, [push_state] returns to its
    caller all the same, having printed the error; the undo stack, the
    redo stack and the dataset are as they were. *)
Theorem push_state_serialization_failure (s : AppLogic) (e : exn) :
  to_json (df s) = Raised e ->
  result push_state s = Returned tt
  /\ undo_stack (exec push_state s) = undo_stack s
  /\ redo_stack (exec push_state s) = redo_stack s
  /\ df (exec push_state s) = df s
  /\ stdout (exec push_state s)
     = stdout s
         ++ [("Fehler beim Speichern des Undo-Zustands: " ++ e)%string].
Proof.
  intros E. unfold exec, result. rewrite push_state_eq. cbn [fst snd].
  unfold push_state_effect. rewrite E. cbn. auto.
Qed.


End History.

(** ** The bound on the undo stack *)

Section Bound.

Context {lib : Pandas}.

Definition op_effect (o : op) (s : AppLogic) : AppLogic :=
  match o with
  | OLoad d => load_effect d s
  | OPush => push_state_effect s
  | OUndo => snd (undo_effect s)
  | ORedo => snd (redo_effect s)
  | OApply fc ft sc st => snd (refreshed (update_criteria fc ft sc st s))
  | OReset =>
      refresh (update_criteria (Some "") (Some "") (Some "") (Some "") s)
  | OView => s
  | OEdit f => set_df (f (df s)) s
  end.

Lemma reset_filters_and_sort_eq s :
  reset_filters_and_sort s
  = (Returned tt,
     refresh (update_criteria (Some "") (Some "") (Some "") (Some "") s)).
Proof.
  unfold reset_filters_and_sort. rewrite apply_filters_and_sort_eq.
  now apply refreshed_no_text.
Qed.

Lemma run_op_eq o s : exec (run_op o) s = op_effect o s.
Proof.
  destruct o; unfold exec, run_op, op_effect, bind.
  - now rewrite load_new_sheet_eq.
  - now rewrite push_state_eq.
  - rewrite undo_eq. now destruct (undo_effect s) as [[b|e] s'].
  - rewrite redo_eq. now destruct (redo_effect s) as [[b|e] s'].
  - now rewrite apply_filters_and_sort_eq.
  - now rewrite reset_filters_and_sort_eq.
  - reflexivity.
  - reflexivity.
Qed.

Lemma run_ops_eq os s :
  exec (run_ops os) s = fold_left (fun s o => op_effect o s) os s.
Proof.
  revert s. induction os as [|o os IH]; intros s; [reflexivity|].
  cbn [run_ops fold_left]. unfold and_then.
  change (exec (run_ops os) (exec (run_op o) s)
          = fold_left (fun s o => op_effect o s) os (op_effect o s)).
  now rewrite run_op_eq, IH.
Qed.

(** Both stacks together hold no more states than the bound allows. *)
Definition within_bound (s : AppLogic) : Prop :=
  (Z.of_nat (List.length (undo_stack s) + List.length (redo_stack s))
   <= max_undo_steps s)%Z.

Lemma length_pushed stack (t : token) bound :
  (Z.of_nat (List.length stack) <= bound)%Z ->
  (Z.of_nat (List.length (pushed stack t bound)) <= bound)%Z.
Proof.
  unfold pushed. intros H.
  destruct (_ >? _)%Z eqn:E.
  - destruct stack; cbn in *; [lia|]. rewrite length_app in *. cbn. lia.
  - rewrite Z.gtb_ltb in E. apply Z.ltb_ge in E. exact E.
Qed.

Lemma push_state_within_bound s :
  (0 <= max_undo_steps s)%Z ->
  (Z.of_nat (List.length (undo_stack s)) <= max_undo_steps s)%Z ->
  (redo_stack s = [] \/ within_bound s) ->
  within_bound (push_state_effect s).
Proof.
  intros H0 HU HR. unfold push_state_effect.
  assert (within_bound s) as W.
  { destruct HR as [N|W]; [|exact W].
    unfold within_bound. rewrite N. cbn. now rewrite Nat.add_0_r. }
  destruct (to_json (df s)) as [t|e]; [|exact W].
  destruct (push_appends (undo_stack s) t); [|exact W].
  unfold within_bound; cbn. rewrite Nat.add_0_r.
  now apply length_pushed.
Qed.

Lemma rev_eq_inv {A} (l l' : list A) : rev l = l' -> l = rev l'.
Proof. intros <-. now rewrite rev_involutive. Qed.

Lemma undo_effect_lengths s :
  List.length (undo_stack (snd (undo_effect s)))
  + List.length (redo_stack (snd (undo_effect s)))
  = List.length (undo_stack s) + List.length (redo_stack s).
Proof.
  unfold undo_effect.
  destruct (rev (undo_stack s)) as [|x [|y below]] eqn:E; try reflexivity.
  rewrite and_true_state, refreshed_undo_stack, refreshed_redo_stack.
  apply rev_eq_inv in E. rewrite E.
  cbn -[rev]. rewrite !length_rev, length_app. cbn. lia.
Qed.

Lemma redo_effect_lengths s :
  List.length (undo_stack (snd (redo_effect s)))
  + List.length (redo_stack (snd (redo_effect s)))
  = List.length (undo_stack s) + List.length (redo_stack s).
Proof.
  unfold redo_effect.
  destruct (rev (redo_stack s)) as [|x below] eqn:E; try reflexivity.
  rewrite and_true_state, refreshed_undo_stack, refreshed_redo_stack.
  apply rev_eq_inv in E. rewrite E.
  cbn -[rev]. rewrite !length_rev, length_app. cbn. lia.
Qed.

Lemma push_state_effect_max s :
  max_undo_steps (push_state_effect s) = max_undo_steps s.
Proof.
  unfold push_state_effect.
  destruct (to_json (df s)) as [t|e]; [|reflexivity].
  now destruct (push_appends (undo_stack s) t).
Qed.

Lemma op_effect_max o s :
  max_undo_steps (op_effect o s) = max_undo_steps s.
Proof.
  destruct o; cbn [op_effect]; try reflexivity.
  - unfold load_effect.
    match goal with |- max_undo_steps (refresh ?x) = _ =>
      change (max_undo_steps x = max_undo_steps s) end.
    now rewrite push_state_effect_max.
  - apply push_state_effect_max.
  - unfold undo_effect.
    destruct (rev (undo_stack s)) as [|x [|y below]]; try reflexivity.
    now rewrite and_true_state, refreshed_max.
  - unfold redo_effect.
    destruct (rev (redo_stack s)) as [|x below]; try reflexivity.
    now rewrite and_true_state, refreshed_max.
  - now rewrite refreshed_max.
Qed.

Lemma op_effect_within_bound o s :
  (0 <= max_undo_steps s)%Z ->
  (exists d, o = OLoad d) \/ within_bound s ->
  within_bound (op_effect o s).
Proof.
  intros H0 W.
  destruct o; cbn [op_effect];
    try (destruct W as [[d W]|W]; [discriminate W|]).
  - unfold load_effect.
    match goal with |- within_bound (refresh ?x) =>
      change (within_bound x) end.
    apply push_state_within_bound; cbn; auto.
  - apply push_state_within_bound; auto.
    unfold within_bound in W. lia.
  - unfold within_bound. rewrite undo_effect_lengths.
    fold (op_effect OUndo s). now rewrite op_effect_max.
  - unfold within_bound. rewrite redo_effect_lengths.
    fold (op_effect ORedo s). now rewrite op_effect_max.
  - unfold within_bound.
    now rewrite refreshed_undo_stack, refreshed_redo_stack, refreshed_max.
  - exact W.
  - exact W.
  - exact W.
Qed.

Lemma ops_within_bound os s :
  (0 <= max_undo_steps s)%Z -> within_bound s ->
  within_bound (fold_left (fun s o => op_effect o s) os s)
  /\ max_undo_steps (fold_left (fun s o => op_effect o s) os s)
     = max_undo_steps s.
Proof.
  revert s. induction os as [|o os IH]; intros s H0 W; [now split|].
  cbn [fold_left].
  destruct (IH (op_effect o s)) as [W' M'].
  - now rewrite op_effect_max.
  - apply op_effect_within_bound; auto.
  - split; [exact W'|]. now rewrite M', op_effect_max.
Qed.

(** C6. After [load_new_sheet] and any calls that follow it, whether
    they return or raise, the undo stack is no longer than
    [max_undo_steps], provided that bound is not negative ([AppLogic()]
    sets it to 50).  A [push_state] that follows with a dataset whose
    serialised form is not the top of the undo stack puts that form on
    top; where the stack then exceeds the bound, the entry at the front
    is dropped and the others stay, and where it does not, nothing is
    dropped. *)
Theorem undo_stack_bounded (s0 : AppLogic) (dataframe : DataFrame)
  (ops : list op) :
  (0 <= max_undo_steps s0)%Z ->
  let s := exec (run_ops (OLoad dataframe :: ops)) s0 in
  max_undo_steps s = max_undo_steps s0
  /\ (Z.of_nat (List.length (undo_stack s)) <= max_undo_steps s0)%Z
  /\ (forall t,
        to_json (df s) = Returned t ->
        top (undo_stack s) <> Some t ->
        undo_stack (exec push_state s)
        = if (max_undo_steps s0 <? Z.of_nat (List.length (undo_stack s ++ [t])))%Z
          then tl (undo_stack s ++ [t])
          else undo_stack s ++ [t]).
Proof.
  intros H0 s. subst s. rewrite run_ops_eq. cbn [fold_left].
  destruct (ops_within_bound ops (op_effect (OLoad dataframe) s0)) as [W Mx].
  - now rewrite op_effect_max.
  - apply op_effect_within_bound; eauto.
  - rewrite op_effect_max in Mx.
    set (s := fold_left _ ops _) in *.
    split; [exact Mx|]. split.
    + unfold within_bound in W. lia.
    + intros t E T. unfold exec. rewrite push_state_eq. cbn [snd].
      unfold push_state_effect. rewrite E.
      destruct (push_appends (undo_stack s) t) eqn:P.
      * cbn. unfold pushed. rewrite Mx. now rewrite Z.gtb_ltb.
      * now apply push_appends_false in P.
Qed.

End Bound.

(** ** Undo followed by redo *)

Section RoundTrip.

Context {lib : Pandas}.

Lemma times_S n (m : M bool) s :
  times (S n) m s
  = match m s with
    | (Returned b, s') =>
        match times n m s' with
        | (Returned bs, s'') => (Returned (b && bs), s'')
        | (Raised e, s'') => (Raised e, s'')
        end
    | (Raised e, s') => (Raised e, s')
    end.
Proof.
  cbn [times]. unfold bind, ret.
  destruct (m s) as [[b|e] s']; [|reflexivity].
  now destruct (times n m s') as [[bs|e] s''].
Qed.

Lemma top_cons {A} (x : A) l : l <> [] -> top (x :: l) = top l.
Proof.
  intros N. unfold top. cbn.
  destruct (rev l) eqn:E; [|reflexivity].
  apply rev_eq_inv in E. contradiction.
Qed.

Lemma top_app {A} (l1 l2 : list A) : l2 <> [] -> top (l1 ++ l2) = top l2.
Proof.
  intros N. unfold top. rewrite rev_app_distr.
  destruct (rev l2) eqn:E; [|reflexivity].
  apply rev_eq_inv in E. contradiction.
Qed.

(** The filter text of [s] is one the filter compiles, so that the view
    of any dataset is computed without an exception. *)
Definition filter_compiles (s : AppLogic) : Prop :=
  filter_error (_active_filter_text s) = None.

Lemma filter_compiles_refreshed s :
  filter_compiles s -> refreshed s = (Returned tt, refresh s).
Proof.
  unfold filter_compiles, refreshed, view_error. intros ->.
  now destruct (empty (df s)).
Qed.

Lemma undo_effect_pop s below (x : token) :
  filter_compiles s ->
  undo_stack s = below ++ [x] -> below <> [] ->
  fst (undo_effect s) = Returned true
  /\ undo_stack (snd (undo_effect s)) = below
  /\ redo_stack (snd (undo_effect s)) = redo_stack s ++ [x]
  /\ filter_compiles (snd (undo_effect s)).
Proof.
  intros F E N. unfold undo_effect. rewrite E, rev_unit.
  destruct (rev below) as [|y rest] eqn:Eb.
  - apply rev_eq_inv in Eb. contradiction.
  - apply rev_eq_inv in Eb. rewrite filter_compiles_refreshed by exact F.
    cbn -[rev]. rewrite <- Eb. auto.
Qed.

Lemma redo_effect_pop s below (x : token) :
  filter_compiles s ->
  redo_stack s = below ++ [x] ->
  fst (redo_effect s) = Returned true
  /\ undo_stack (snd (redo_effect s)) = undo_stack s ++ [x]
  /\ redo_stack (snd (redo_effect s)) = below
  /\ df (snd (redo_effect s)) = read_json x
  /\ filter_compiles (snd (redo_effect s)).
Proof.
  intros F E. unfold redo_effect. rewrite E, rev_unit.
  rewrite filter_compiles_refreshed by exact F.
  cbn -[rev]. rewrite rev_involutive. auto.
Qed.

(** Undoing as many times as [popped] is long moves these states, the
    top one first, from the undo stack to the redo stack. *)
Lemma undo_many popped : forall s below,
  filter_compiles s ->
  undo_stack s = below ++ rev popped -> below <> [] ->
  result (times (List.length popped) undo) s = Returned true
  /\ undo_stack (exec (times (List.length popped) undo) s) = below
  /\ redo_stack (exec (times (List.length popped) undo) s)
     = redo_stack s ++ popped
  /\ filter_compiles (exec (times (List.length popped) undo) s).
Proof.
  unfold result, exec.
  induction popped as [|x popped IH]; intros s below F E N.
  - cbn in *. rewrite !app_nil_r in *. auto.
  - cbn [List.length]. rewrite times_S, undo_eq.
    cbn [rev] in E. rewrite app_assoc in E.
    destruct (undo_effect_pop s _ x F E) as (B & U & R & F1).
    { intros H. apply app_eq_nil in H. now destruct H. }
    destruct (IH (snd (undo_effect s)) below F1 U N) as (B' & U' & R' & F').
    destruct (undo_effect s) as [[b|e] s1]; cbn [fst snd] in *;
      [|discriminate].
    destruct (times _ undo _) as [[bs|e] s'']; cbn [fst snd] in *;
      [|discriminate].
    inversion B; subst b. inversion B'; subst bs. cbn. repeat split; auto.
    rewrite R', R, <- app_assoc. reflexivity.
Qed.

(** Redoing as many times as [restored] is long moves these states back,
    and the dataset is then the last of them, read back. *)
Lemma redo_many restored : forall s below,
  filter_compiles s ->
  redo_stack s = below ++ rev restored ->
  result (times (List.length restored) redo) s = Returned true
  /\ undo_stack (exec (times (List.length restored) redo) s)
     = undo_stack s ++ restored
  /\ redo_stack (exec (times (List.length restored) redo) s) = below
  /\ (restored <> [] ->
      option_map read_json (top restored)
      = Some (df (exec (times (List.length restored) redo) s))).
Proof.
  unfold result, exec.
  induction restored as [|x restored IH]; intros s below F E.
  - cbn in *. rewrite !app_nil_r in *. repeat split; auto. congruence.
  - cbn [List.length]. rewrite times_S, redo_eq.
    cbn [rev] in E. rewrite app_assoc in E.
    destruct (redo_effect_pop s _ x F E) as (B & U & R & D & F1).
    destruct (IH (snd (redo_effect s)) below F1 R) as (B' & U' & R' & D').
    destruct (redo_effect s) as [[b|e] s1]; cbn [fst snd] in *;
      [|discriminate].
    inversion B; subst b.
    destruct restored as [|y restored].
    + cbn in *. repeat split; auto.
      intros _. unfold top; cbn. now rewrite D.
    + destruct (times _ redo _) as [[bs|e] s'']; cbn [fst snd] in *;
        [|discriminate].
      inversion B'; subst bs. cbn [andb]. repeat split; auto.
      * rewrite U', U, <- app_assoc. reflexivity.
      * intros _. rewrite top_cons by discriminate.
        apply D'. discriminate.
Qed.

(** X26. Let the dataset be the one read back from the top of the undo
    stack, and let the filter text in force be one the filter compiles.
    Then [N] calls of [undo], for [N] from 1 to the depth of the undo
    stack less one, all return [True]; the [N] calls of [redo] that
    follow do so as well, and they leave the dataset and both stacks as
    they were before the first [undo]. *)
Theorem undo_redo_round_trip (s : AppLogic) (N : nat) (t : token) :
  1 <= N -> N <= List.length (undo_stack s) - 1 ->
  top (undo_stack s) = Some t -> read_json t = df s ->
  filter_compiles s ->
  result (times N undo) s = Returned true
  /\ result (times N redo) (exec (times N undo) s) = Returned true
  /\ df (exec (times N redo) (exec (times N undo) s)) = df s
  /\ undo_stack (exec (times N redo) (exec (times N undo) s)) = undo_stack s
  /\ redo_stack (exec (times N redo) (exec (times N undo) s)) = redo_stack s.
Proof.
  intros H1 HN T D F.
  set (k := List.length (undo_stack s) - N).
  set (below := firstn k (undo_stack s)).
  set (moved := skipn k (undo_stack s)).
  assert (undo_stack s = below ++ moved) as E
    by (symmetry; apply firstn_skipn).
  assert (List.length moved = N) as LM
    by (unfold moved; rewrite length_skipn; lia).
  assert (below <> []) as NB.
  { intros Z. apply (f_equal (@List.length token)) in Z.
    unfold below in Z. rewrite length_firstn in Z. cbn in Z. lia. }
  assert (moved <> []) as NM.
  { intros Z. rewrite Z in LM. cbn in LM. lia. }
  destruct (undo_many (rev moved) s below) as (B & U & R & F'); auto.
  { now rewrite rev_involutive. }
  rewrite length_rev, LM in B, U, R, F'.
  destruct (redo_many moved (exec (times N undo) s) (redo_stack s))
    as (B' & U' & R' & D'); auto.
  rewrite LM in B', U', R', D'.
  repeat split; auto.
  - specialize (D' NM). rewrite <- (top_app below), <- E, T in D' by auto.
    cbn in D'. congruence.
  - now rewrite U', U, <- E.
Qed.

End RoundTrip.

(** ** The orders behind the two kinds of sort *)

Lemma string_compare_trans_le (a b c : string) :
  String.compare a b <> Gt -> String.compare b c <> Gt ->
  String.compare a c <> Gt.
Proof.
  revert b c. induction a as [|x a IH]; intros [|y b] [|z c]; cbn;
    try congruence.
  unfold Ascii.compare.
  destruct (N.compare_spec (N_of_ascii x) (N_of_ascii y)) as [E1|L1|G1];
    destruct (N.compare_spec (N_of_ascii y) (N_of_ascii z)) as [E2|L2|G2];
    destruct (N.compare_spec (N_of_ascii x) (N_of_ascii z)) as [E3|L3|G3];
    try congruence; try lia.
  apply IH.
Qed.

Lemma string_leb_trans (a b c : string) :
  String.leb a b = true -> String.leb b c = true -> String.leb a c = true.
Proof.
  unfold String.leb. intros H1 H2.
  pose proof (string_compare_trans_le a b c) as T.
  destruct (String.compare a b), (String.compare b c), (String.compare a c);
    try reflexivity; try discriminate;
    exfalso; apply T; congruence.
Qed.

Lemma Qle_bool_total (a b : Q) : Qle_bool a b = true \/ Qle_bool b a = true.
Proof.
  rewrite !Qle_bool_iff.
  destruct (Qlt_le_dec a b) as [H|H]; [left; now apply Qlt_le_weak|now right].
Qed.

Lemma Qle_bool_trans (a b c : Q) :
  Qle_bool a b = true -> Qle_bool b c = true -> Qle_bool a c = true.
Proof. rewrite !Qle_bool_iff. apply Qle_trans. Qed.

(** Two sorted arrangements of the same elements are one and the same
    when no two different elements are tied. *)
Lemma sorted_perm_unique {A} (R : A -> A -> Prop) (l1 : list A) :
  forall l2,
    (forall a b, In a l1 -> In b l1 -> R a b -> R b a -> a = b) ->
    StronglySorted R l1 -> StronglySorted R l2 -> Permutation l1 l2 ->
    l1 = l2.
Proof.
  induction l1 as [|x l1 IH]; intros l2 Anti S1 S2 P.
  - now apply Permutation_nil in P.
  - destruct l2 as [|y l2].
    + symmetry in P. now apply Permutation_nil in P.
    + inversion S1 as [|? ? S1' F1]; subst.
      inversion S2 as [|? ? S2' F2]; subst.
      rewrite Forall_forall in F1, F2.
      assert (x = y) as ->.
      { assert (In x (y :: l2)) as Hx
          by (apply (Permutation_in _ P); now left).
        assert (In y (x :: l1)) as Hy
          by (apply (Permutation_in _ (Permutation_sym P)); now left).
        destruct Hx as [Hx|Hx]; [now symmetry|].
        destruct Hy as [Hy|Hy]; [exact Hy|].
        apply Anti; [now left|now right|now apply F1|now apply F2]. }
      f_equal. apply Permutation_cons_inv in P.
      apply IH; auto.
      intros a b Ha Hb. apply Anti; now right.
Qed.

(** ** The filter and the sort *)

(** [a] occurs in [l], and [b] occurs after the first [a]. *)
Fixpoint precedes (a b : row) (l : list row) : bool :=
  match l with
  | [] => false
  | x :: l' =>
      if Ref.row_eq_dec x a
      then List.existsb (fun y => if Ref.row_eq_dec y b then true else false) l'
      else precedes a b l'
  end.

(** The stock list of the examples. *)
Definition inventory : DataFrame :=
  mkDataFrame ["Gegenstand"; "Preis"]
    [(0%Z, [VStr "Laptop"; VNum (120050 # 100)]);
     (1%Z, [VStr "Maus"; VNum (2500 # 100)]);
     (2%Z, [VStr "Tastatur"; VNum (7599 # 100)])].

(** A price list with one price that is not a number. *)
Definition prices : DataFrame :=
  mkDataFrame ["Preis"]
    [(0%Z, [VNum (120050 # 100)]);
     (1%Z, [VNum (2500 # 100)]);
     (2%Z, [VNum (7599 # 100)]);
     (3%Z, [VStr "n/a"])].

(** A stock list with an article whose name is missing. *)
Definition unnamed_article : DataFrame :=
  mkDataFrame ["Gegenstand"; "Preis"]
    [(0%Z, [VStr "Laptop"; VNum (120050 # 100)]);
     (1%Z, [VNaN; VNum (2500 # 100)])].

(** A stock list of eighteen mice, all of one name and each at its own
    price. *)
Definition mice : DataFrame :=
  mkDataFrame ["Gegenstand"; "Preis"]
    (map (fun i => (Z.of_nat i, [VStr "Maus"; VNum (Z.of_nat (1900 + i) # 100)]))
       (seq 0 18)).

Section ViewFacts.

Context {lib : Pandas}.

(** C2, as the code has it.  Where the sort column is set and exists,
    the rows after the sort step are the rows before it (with the sort
    column converted to numbers, in a numeric sort) in another order, and
    they run in the order of their sort keys, ascending or descending as
    the sort type says, missing keys last.  The order of rows whose keys
    are equal is left open. *)
Theorem sort_step_sorted (sort_col sort_type : option string)
  (temp_df : DataFrame) (j : nat) :
  active_column sort_col temp_df = Some j ->
  let ascending := negb (PyList.mem sort_type ["za"; "num_desc"]) in
  let sorted := rows (sort_step sort_col sort_type temp_df) in
  if PyList.mem sort_type ["num_asc"; "num_desc"] then
    Permutation sorted (rows (map_column j to_numeric temp_df))
    /\ StronglySorted
         (fun r1 r2 => key_ord Qle_bool ascending (num_key j r1) (num_key j r2))
         sorted
  else
    Permutation sorted (rows temp_df)
    /\ StronglySorted
         (fun r1 r2 =>
            key_ord String.leb ascending (text_key j r1) (text_key j r2))
         sorted.
Proof.
  intros E ascending sorted. subst sorted ascending.
  unfold sort_step. rewrite E.
  destruct (PyList.mem sort_type ["num_asc"; "num_desc"]); cbn [rows]; split.
  - apply sort_values_perm.
  - apply sort_values_sorted; [apply Qle_bool_total|apply Qle_bool_trans].
  - apply sort_values_perm.
  - apply sort_values_sorted; [apply String.leb_total|apply string_leb_trans].
Qed.

Lemma empty_false d name j r :
  col_pos (columns d) name = Some j -> In r (rows d) -> empty d = false.
Proof.
  intros C I. unfold empty.
  destruct (columns d); [discriminate|]. now destruct (rows d).
Qed.

(** C3, as the code has it.  On a dataset whose column Gegenstand holds
    "Laptop", "Maus" and "Tastatur", the filter text "ax" on that column
    gives a view without rows, as none of the three contains "ax" (the
    text "ap" gives the row of "Laptop" and no other); an empty filter
    text gives the dataset itself as the view. *)
Theorem filter_gegenstand (d : DataFrame) (j : nat)
  (sort_type : option string) :
  col_pos (columns d) "Gegenstand" = Some j ->
  column_values j d = [VStr "Laptop"; VStr "Maus"; VStr "Tastatur"] ->
  rows (compute_view d (Some "Gegenstand", "ax", None, sort_type)) = []
  /\ rows (compute_view d (Some "Gegenstand", "ap", None, sort_type))
     = firstn 1 (rows d)
  /\ compute_view d (Some "Gegenstand", "", None, sort_type) = d.
Proof.
  intros C V. unfold column_values in V.
  destruct (rows d) as [|r0 [|r1 [|r2 [|r3 rs]]]] eqn:R; try discriminate V.
  injection V as V0 V1 V2.
  assert (empty d = false) as NE
    by (apply (empty_false d "Gegenstand" j r0 C); rewrite R; now left).
  unfold compute_view. rewrite NE.
  unfold sort_step, filter_step, filter_mask, active_column.
  cbn -[col_pos Str.contains]. rewrite C, R. cbn -[Str.contains].
  rewrite V0, V1, V2. cbn -[Str.contains].
  rewrite !re_search_plain by reflexivity.
  repeat split.
Qed.

(** C4, on the code.  A row whose cell in the filter column is NaN is
    kept by the filter text "nan": [astype(str)] has turned the missing
    cell into the string "nan" before [str.contains] and its [na=False]
    get to see it. *)
Theorem filter_keeps_missing_value (d : DataFrame) (name : string)
  (j : nat) (r : row) :
  Str.truthy name = true -> col_pos (columns d) name = Some j ->
  In r (rows d) -> cell j r = VNaN ->
  In r (rows (compute_view d (Some name, "nan", None, None))).
Proof.
  intros T C I V. unfold compute_view.
  rewrite (empty_false d name j r C I).
  unfold sort_step, filter_step, filter_mask, active_column.
  cbn -[col_pos Str.contains]. rewrite T, C. cbn -[Str.contains].
  apply filter_In. split; [exact I|].
  rewrite V. cbn -[Str.contains]. now rewrite re_search_plain.
Qed.

Lemma to_numeric_not_a_number : to_numeric (VStr "n/a") = VNaN.
Proof.
  unfold to_numeric. now rewrite to_numeric_str_none.
Qed.

(** The numeric sort of [prices], ascending or descending, whatever the
    library does with equal keys: there are none. *)
Lemma sort_prices (ascending : bool) :
  sort_values Q Qle_bool (num_key 0) ascending
    (rows (map_column 0 to_numeric prices))
  = Ref.ref_sort_values Q Qle_bool (num_key 0) ascending
      [(0%Z, [VNum (120050 # 100)]); (1%Z, [VNum (2500 # 100)]);
       (2%Z, [VNum (7599 # 100)]); (3%Z, [VNaN])].
Proof.
  unfold map_column, prices. cbn [rows map fst snd cell nth set_nth].
  rewrite to_numeric_not_a_number. cbn [to_numeric].
  set (rs := [_; _; _; _]).
  apply sorted_perm_unique
    with (R := fun r1 r2 =>
                 key_ord Qle_bool ascending (num_key 0 r1) (num_key 0 r2)).
  - intros a b Ha Hb.
    pose proof
      (Permutation_in _ (sort_values_perm Q Qle_bool (num_key 0) ascending rs)
         Ha) as Ia.
    pose proof
      (Permutation_in _ (sort_values_perm Q Qle_bool (num_key 0) ascending rs)
         Hb) as Ib.
    clear Ha Hb. subst rs. cbn in Ia, Ib.
    destruct ascending;
      (destruct Ia as [<-|[<-|[<-|[<-|[]]]]];
       destruct Ib as [<-|[<-|[<-|[<-|[]]]]]; cbn;
       try reflexivity; try discriminate; try contradiction).
  - apply sort_values_sorted; [apply Qle_bool_total|apply Qle_bool_trans].
  - apply Ref.ref_sort_values_sorted;
      [apply Qle_bool_total|apply Qle_bool_trans].
  - rewrite sort_values_perm. symmetry. apply Ref.ref_sort_values_perm.
Qed.

(** C5, on the code.  The numeric sort of the prices 1200.50, 25.00,
    75.99 and "n/a" puts the rows in the order 25.00, 75.99, 1200.50,
    "n/a" when ascending and 1200.50, 75.99, 25.00, "n/a" when
    descending (the index of the view shows it); but the view holds
    the converted column, and where the dataset has "n/a" the view has
    NaN. *)
Theorem numeric_sort_prices :
  let loaded := exec (load_new_sheet prices) __init__ in
  let asc :=
    _current_view_df
      (exec (apply_filters_and_sort None None (Some "Preis") (Some "num_asc"))
         loaded) in
  let desc :=
    _current_view_df
      (exec (apply_filters_and_sort None None (Some "Preis") (Some "num_desc"))
         loaded) in
  index asc = [1%Z; 2%Z; 0%Z; 3%Z]
  /\ column_values 0 asc
     = [VNum (2500 # 100); VNum (7599 # 100); VNum (120050 # 100); VNaN]
  /\ index desc = [0%Z; 2%Z; 1%Z; 3%Z]
  /\ column_values 0 desc
     = [VNum (120050 # 100); VNum (7599 # 100); VNum (2500 # 100); VNaN]
  /\ column_values 0 (df loaded)
     = [VNum (120050 # 100); VNum (2500 # 100); VNum (7599 # 100);
        VStr "n/a"].
Proof.
  cbv zeta. unfold exec.
  rewrite load_new_sheet_eq. cbn [snd].
  assert (df (load_effect prices __init__) = prices) as D.
  { unfold load_effect, push_state_effect; cbn.
    destruct (to_json prices); [|reflexivity].
    now destruct (push_appends [] a). }
  assert (_active_filter_text (load_effect prices __init__) = "") as F.
  { unfold load_effect, push_state_effect; cbn.
    destruct (to_json prices); [|reflexivity].
    now destruct (push_appends [] a). }
  rewrite !apply_filters_and_sort_eq.
  rewrite !refreshed_no_text by exact F. cbn [snd].
  unfold refresh, update_criteria, criteria, compute_view.
  cbn [df _current_view_df _active_filter_col _active_filter_text
       _active_sort_col _active_sort_type set_current_view_df].
  rewrite D, F.
  unfold sort_step, filter_step, index, column_values.
  cbn [empty prices columns rows Str.truthy active_column col_pos String.eqb
       Ascii.eqb Bool.eqb PyList.mem List.existsb orb negb].
  cbn -[map_column sort_values to_numeric prices].
  change (col_pos (columns prices) "Preis") with (Some 0). cbn [rows].
  rewrite !sort_prices.
  repeat split.
Qed.

End ViewFacts.

(** ** The engine at work *)

(** [df.loc[label, name] = v] for a label and a column of the DataFrame,
    the write of [_handle_cell_changed] into [self.logic.df]. *)
Definition loc_set (label : Z) (name : string) (v : value) (d : DataFrame)
  : DataFrame :=
  match col_pos (columns d) name with
  | Some j =>
      mkDataFrame (columns d)
        (map (fun r => if (fst r =? label)%Z
                       then (fst r, set_nth j v (snd r)) else r)
           (rows d))
  | None => d
  end.

(** A stock list is opened and two cells are edited; the window calls
    [push_state] before each write. *)
Definition two_edits : list op :=
  [OLoad inventory;
   OPush; OEdit (loc_set 1 "Gegenstand" (VStr "Trackball"));
   OPush; OEdit (loc_set 1 "Preis" (VStr "30"))].

(** The same, with [push_state] called once more after the last write. *)
Definition two_edits_saved : list op := two_edits ++ [OPush].

(** Two names are edited, with [push_state] before each write and once
    more after the last, and the rows are then filtered and sorted. *)
Definition two_renames_saved : list op :=
  [OLoad inventory;
   OPush; OEdit (loc_set 1 "Gegenstand" (VStr "Trackball"));
   OPush; OEdit (loc_set 2 "Gegenstand" (VStr "Keyboard"));
   OPush;
   OApply (Some "Gegenstand") (Some "a") (Some "Preis") (Some "num_desc")].

(** [n] prices are written into one cell, one after the other, with
    [push_state] before each write. *)
Definition many_edits (n : nat) : list op :=
  flat_map
    (fun i => [OPush; OEdit (loc_set 1 "Preis" (VNum (Z.of_nat i # 1)))])
    (seq 0 n).

(** C1, on the code.  A stock list is opened and two cells are edited,
    [push_state] being called before each write as the window does.  One
    [undo] and one [redo] then both return [True], and the dataset is not
    the one from before the [undo]: the second edit is gone.  What [undo]
    moved to the redo stack was the top of the undo stack, the dataset as
    it was before the second edit, and not the dataset at the time of the
    call. *)
Lemma undo_redo_loses_edit :
  let s := exec (lib := Ref.lib) (run_ops two_edits) __init__ in
  let s' := exec (lib := Ref.lib) (times 1 redo)
              (exec (lib := Ref.lib) (times 1 undo) s) in
  1 <= List.length (undo_stack s) - 1
  /\ result (times 1 undo) s = Returned true
  /\ result (times 1 redo) (exec (times 1 undo) s) = Returned true
  /\ cell 1 (nth 1 (rows (df s)) (0%Z, [])) = VStr "30"
  /\ cell 1 (nth 1 (rows (df s')) (0%Z, [])) = VNum (2500 # 100)
  /\ df s' <> df s
  /\ redo_stack (exec (times 1 undo) s)
     = [loc_set 1 "Gegenstand" (VStr "Trackball") inventory]
  /\ @to_json Ref.lib (df s)
     <> Returned (loc_set 1 "Gegenstand" (VStr "Trackball") inventory).
Proof.
  vm_compute. repeat split; try constructor; intros H; discriminate H.
Qed.

Lemma undo_redo_round_trip_witness :
  let s := exec (lib := Ref.lib) (run_ops two_renames_saved) __init__ in
  result (times 2 undo) s = Returned true
  /\ result (times 2 redo) (exec (times 2 undo) s) = Returned true
  /\ df (exec (times 2 redo) (exec (times 2 undo) s)) = df s
  /\ undo_stack (exec (times 2 redo) (exec (times 2 undo) s)) = undo_stack s
  /\ redo_stack (exec (times 2 redo) (exec (times 2 undo) s)) = redo_stack s.
Proof.
  intros s.
  apply (undo_redo_round_trip (lib := Ref.lib) s 2 (df s)).
  - lia.
  - vm_compute. lia.
  - reflexivity.
  - reflexivity.
  - reflexivity.
Defined.

Lemma undo_stack_bounded_witness :
  let s := exec (lib := Ref.lib) (run_ops (OLoad inventory :: many_edits 60))
             __init__ in
  Z.of_nat (List.length (undo_stack s)) = max_undo_steps s
  /\ max_undo_steps s = 50%Z
  /\ top (undo_stack s) <> Some (df s)
  /\ undo_stack (exec push_state s) = tl (undo_stack s) ++ [df s]
  /\ hd_error (undo_stack s)
     = Some (loc_set 1 "Preis" (VNum (9 # 1)) inventory)
  /\ hd_error (undo_stack (exec push_state s))
     = Some (loc_set 1 "Preis" (VNum (10 # 1)) inventory).
Proof.
  intros s.
  destruct (undo_stack_bounded (lib := Ref.lib) __init__ inventory
              (many_edits 60)) as (M & B & P); [cbn; lia|].
  fold s in M, B, P.
  assert (top (undo_stack s) <> Some (df s)) as T
    by (vm_compute; intros H; discriminate H).
  specialize (P (df s) eq_refl T). rewrite P.
  split; [vm_compute; reflexivity|].
  split; [exact M|].
  split; [exact T|].
  split; [vm_compute; reflexivity|].
  split; vm_compute; reflexivity.
Defined.

Lemma push_state_redo_stack_witness :
  let s := exec (lib := Ref.lib) (run_ops (two_edits_saved ++ [OUndo]))
             __init__ in
  let t := loc_set 1 "Preis" (VStr "31") (df s) in
  let s := set_df t s in
  (top (undo_stack s) <> Some t -> redo_stack (exec push_state s) = [])
  /\ (top (undo_stack s) = Some t ->
      redo_stack (exec push_state s) = redo_stack s
      /\ undo_stack (exec push_state s) = undo_stack s).
Proof.
  intros s t s'.
  apply (push_state_redo_stack (lib := Ref.lib) s' t).
  reflexivity.
Defined.

Lemma push_state_serialization_failure_witness :
  let s := exec (lib := Ref.lib_to_json_raises) (run_ops two_edits) __init__ in
  let e := "Maximum recursion level reached" in
  result push_state s = Returned tt
  /\ undo_stack (exec push_state s) = undo_stack s
  /\ redo_stack (exec push_state s) = redo_stack s
  /\ df (exec push_state s) = df s
  /\ stdout (exec push_state s)
     = stdout s
         ++ [("Fehler beim Speichern des Undo-Zustands: " ++ e)%string].
Proof.
  intros s e.
  apply (push_state_serialization_failure (lib := Ref.lib_to_json_raises) s e).
  reflexivity.
Defined.


(** C2 fails as stated.  Eighteen rows with one and the same name are
    sorted by name; with the library that sorts as numpy does, the view
    has the rows 1 to 15 in the opposite order: row 15 comes before
    row 1, which it followed in the dataset. *)
Lemma sort_not_stable :
  let loaded :=
    exec (lib := Ref.lib_quicksort) (load_new_sheet mice) __init__ in
  let view :=
    _current_view_df
      (exec (lib := Ref.lib_quicksort)
         (apply_filters_and_sort None None (Some "Gegenstand") (Some "az"))
         loaded) in
  let r1 := (1%Z, [VStr "Maus"; VNum (1901 # 100)]) in
  let r15 := (15%Z, [VStr "Maus"; VNum (1915 # 100)]) in
  text_key (lib := Ref.lib_quicksort) 0 r1
  = text_key (lib := Ref.lib_quicksort) 0 r15
  /\ precedes r1 r15 (rows (df loaded)) = true
  /\ precedes r1 r15 (rows view) = false
  /\ index (df loaded)
     = [0; 1; 2; 3; 4; 5; 6; 7; 8; 9; 10; 11; 12; 13; 14; 15; 16; 17]%Z
  /\ index view
     = [0; 15; 14; 13; 12; 11; 10; 9; 8; 7; 6; 5; 4; 3; 2; 1; 16; 17]%Z.
Proof. vm_compute. repeat split. Qed.

Lemma sort_step_sorted_witness :
  Permutation
    (rows (sort_step (lib := Ref.lib) (Some "Preis") (Some "num_desc")
             inventory))
    (rows (map_column 1 (to_numeric (lib := Ref.lib)) inventory))
  /\ StronglySorted
       (fun r1 r2 =>
          key_ord Qle_bool false (num_key 1 r1) (num_key 1 r2))
       (rows (sort_step (lib := Ref.lib) (Some "Preis") (Some "num_desc")
                inventory)).
Proof.
  apply (sort_step_sorted (lib := Ref.lib) (Some "Preis") (Some "num_desc")
           inventory 1).
  reflexivity.
Defined.

(** C3 fails as stated: the filter text "ax" on Gegenstand leaves no row
    of the stock list, the row of "Laptop" included. *)
Lemma filter_ax_no_row :
  let loaded := exec (lib := Ref.lib) (load_new_sheet inventory) __init__ in
  let view :=
    _current_view_df
      (exec (lib := Ref.lib)
         (apply_filters_and_sort (Some "Gegenstand") (Some "ax") None None)
         loaded) in
  column_values 0 (df loaded) = [VStr "Laptop"; VStr "Maus"; VStr "Tastatur"]
  /\ rows view = []
  /\ rows view <> [(0%Z, [VStr "Laptop"; VNum (120050 # 100)])].
Proof. vm_compute. repeat split. intros H. discriminate H. Qed.

Lemma filter_gegenstand_witness :
  rows (compute_view (lib := Ref.lib) inventory
          (Some "Gegenstand", "ax", None, None)) = []
  /\ rows (compute_view (lib := Ref.lib) inventory
             (Some "Gegenstand", "ap", None, None))
     = firstn 1 (rows inventory)
  /\ compute_view (lib := Ref.lib) inventory
       (Some "Gegenstand", "", None, None) = inventory.
Proof.
  apply (filter_gegenstand (lib := Ref.lib) inventory 0 None); reflexivity.
Defined.

Lemma filter_keeps_missing_value_witness :
  In (1%Z, [VNaN; VNum (2500 # 100)])
    (rows (compute_view (lib := Ref.lib) unnamed_article
             (Some "Gegenstand", "nan", None, None))).
Proof.
  apply (filter_keeps_missing_value (lib := Ref.lib) unnamed_article
           "Gegenstand" 0 (1%Z, [VNaN; VNum (2500 # 100)]));
    try reflexivity.
  cbn. auto.
Defined.

(** ** Loading, resetting and applying criteria *)

Section Criteria.

Context {lib : Pandas}.

(** The view of a dataset under criteria that filter and sort nothing. *)
Definition plain_view (d : DataFrame) : DataFrame :=
  if empty d then mkDataFrame (columns d) [] else d.

Lemma compute_view_no_criteria d st :
  compute_view d (None, "", None, st) = plain_view d.
Proof. unfold compute_view, plain_view. now destruct (empty d). Qed.

Lemma compute_view_empty_criteria d st :
  compute_view d (Some "", "", Some "", st) = plain_view d.
Proof. unfold compute_view, plain_view. now destruct (empty d). Qed.

(** X1. [load_new_sheet] returns with the dataset it was given, no
    criteria, an empty redo stack and the whole dataset as the view (its
    columns alone when the dataset is empty).  The undo stack holds the
    serialised dataset and nothing else, or nothing at all when the
    dataset does not serialise. *)
Theorem load_new_sheet_resets (s : AppLogic) (dataframe : DataFrame) :
  let s' := exec (load_new_sheet dataframe) s in
  result (load_new_sheet dataframe) s = Returned tt
  /\ df s' = dataframe
  /\ criteria s' = (None, "", None, None)
  /\ redo_stack s' = []
  /\ _current_view_df s' = plain_view dataframe
  /\ (forall t, to_json dataframe = Returned t ->
                (1 <= max_undo_steps s)%Z -> undo_stack s' = [t])
  /\ (forall e, to_json dataframe = Raised e -> undo_stack s' = []).
Proof.
  cbv zeta. unfold exec, result. rewrite load_new_sheet_eq. cbn [fst snd].
  unfold load_effect, push_state_effect.
  cbn [df undo_stack redo_stack max_undo_steps stdout].
  destruct (to_json dataframe) as [t|e] eqn:E.
  - change (push_appends [] t) with true. cbn [negb].
    unfold refresh, criteria; cbn -[compute_view pushed].
    rewrite compute_view_no_criteria.
    repeat split; try discriminate.
    intros t' [= <-] M. unfold pushed. cbn.
    destruct (1 >? max_undo_steps s)%Z eqn:G; [|reflexivity].
    rewrite Z.gtb_ltb in G. apply Z.ltb_lt in G. lia.
  - unfold refresh, criteria; cbn -[compute_view].
    rewrite compute_view_no_criteria.
    repeat split; discriminate.
Qed.

(** X2. [reset_filters_and_sort] leaves the whole dataset as the view,
    whatever criteria were active, and touches neither the dataset nor
    the two stacks. *)
Theorem reset_filters_and_sort_shows_all (s : AppLogic) :
  let s' := exec reset_filters_and_sort s in
  result reset_filters_and_sort s = Returned tt
  /\ _current_view_df s' = plain_view (df s)
  /\ criteria s' = (Some "", "", Some "", Some "")
  /\ df s' = df s
  /\ undo_stack s' = undo_stack s
  /\ redo_stack s' = redo_stack s.
Proof.
  cbv zeta. unfold exec, result.
  rewrite reset_filters_and_sort_eq. cbn [fst snd].
  unfold refresh, update_criteria, criteria; cbn -[compute_view].
  rewrite compute_view_empty_criteria. repeat split.
Qed.

(** The later of two values of a criterion that may have been left out. *)
Definition later (new old : option string) : option string :=
  match new with
  | Some x => Some x
  | None => old
  end.

(** X3. [apply_filters_and_sort] changes neither the dataset, nor the
    stacks, nor the bound.  It replaces the criteria that were passed and
    keeps the others, and it has done so before anything can fail.  It
    then stores the view of the dataset under the criteria that result,
    and returns; unless the dataset is not empty and the filter text in
    force is no regular expression, in which case it raises the error of
    the pattern and the view is the one it found. *)
Theorem apply_filters_and_sort_frame
  (filter_col filter_text sort_col sort_type : option string)
  (s : AppLogic) :
  let call := apply_filters_and_sort filter_col filter_text sort_col sort_type in
  let s' := exec call s in
  df s' = df s
  /\ undo_stack s' = undo_stack s
  /\ redo_stack s' = redo_stack s
  /\ max_undo_steps s' = max_undo_steps s
  /\ criteria s'
     = (later filter_col (_active_filter_col s),
        or_else filter_text (_active_filter_text s),
        later sort_col (_active_sort_col s),
        later sort_type (_active_sort_type s))
  /\ match view_error (df s) (or_else filter_text (_active_filter_text s)) with
     | None =>
         result call s = Returned tt
         /\ _current_view_df s' = compute_view (df s) (criteria s')
     | Some e =>
         result call s = Raised e
         /\ _current_view_df s' = _current_view_df s
     end.
Proof.
  cbv zeta. unfold exec, result. rewrite apply_filters_and_sort_eq.
  unfold refreshed.
  cbn [df _active_filter_text update_criteria].
  destruct (view_error (df s) (or_else filter_text (_active_filter_text s)));
    unfold refresh, update_criteria, criteria, later; cbn -[compute_view];
    repeat split.
Qed.

(** X4. Two calls of [apply_filters_and_sort] in a row leave the state
    that one call leaves, made with the arguments of the second call and,
    where the second call left one out, that of the first; provided the
    view under the criteria that result is computed without an exception.
    The first of the two calls may have raised; the second returns, and
    the view is the one of the dataset under the criteria of both calls
    taken together. *)
Theorem apply_filters_and_sort_twice
  (fc1 ft1 sc1 st1 fc2 ft2 sc2 st2 : option string) (s : AppLogic) :
  view_error (df s) (or_else (later ft2 ft1) (_active_filter_text s)) = None ->
  let s1 := exec (apply_filters_and_sort fc1 ft1 sc1 st1) s in
  let s2 := exec (apply_filters_and_sort fc2 ft2 sc2 st2) s1 in
  s2 = exec (apply_filters_and_sort (later fc2 fc1) (later ft2 ft1)
               (later sc2 sc1) (later st2 st1)) s
  /\ result (apply_filters_and_sort fc2 ft2 sc2 st2) s1 = Returned tt
  /\ _current_view_df s2
     = compute_view (df s)
         (later (later fc2 fc1) (_active_filter_col s),
          or_else (later ft2 ft1) (_active_filter_text s),
          later (later sc2 sc1) (_active_sort_col s),
          later (later st2 st1) (_active_sort_type s)).
Proof.
  intros V. cbv zeta. unfold exec, result.
  rewrite !apply_filters_and_sort_eq.
  assert (forall x,
            df x = df s ->
            _active_filter_text x = or_else ft1 (_active_filter_text s) ->
            refreshed (update_criteria fc2 ft2 sc2 st2 x)
            = (Returned tt, refresh (update_criteria fc2 ft2 sc2 st2 x))) as R2.
  { intros x D T. unfold refreshed.
    cbn [df _active_filter_text update_criteria]. rewrite D, T.
    replace (or_else ft2 (or_else ft1 (_active_filter_text s)))
      with (or_else (later ft2 ft1) (_active_filter_text s))
      by (now destruct ft1, ft2).
    now rewrite V. }
  assert (refreshed (update_criteria (later fc2 fc1) (later ft2 ft1)
                       (later sc2 sc1) (later st2 st1) s)
          = (Returned tt,
             refresh (update_criteria (later fc2 fc1) (later ft2 ft1)
                        (later sc2 sc1) (later st2 st1) s))) as R.
  { unfold refreshed. cbn [df _active_filter_text update_criteria].
    now rewrite V. }
  rewrite R. cbn [snd].
  destruct (refreshed_cases (update_criteria fc1 ft1 sc1 st1 s))
    as [[_ ->]|(e & _ & ->)]; cbn [snd]; rewrite R2 by reflexivity;
    cbn [fst snd]; unfold refresh, update_criteria, criteria, later, or_else;
    cbn -[compute_view];
    destruct fc1, ft1, sc1, st1, fc2, ft2, sc2, st2; repeat split.
Qed.

End Criteria.

Lemma apply_filters_and_sort_frame_witness :
  let s := exec (lib := Ref.lib) (load_new_sheet inventory) __init__ in
  let call :=
    apply_filters_and_sort (lib := Ref.lib) (Some "Gegenstand") (Some " * ")
      None None in
  result call s = Raised "re.error: nothing to repeat at position 0"
  /\ criteria (exec call s) = (Some "Gegenstand", " * ", None, None)
  /\ _current_view_df (exec call s) = _current_view_df s
  /\ df (exec call s) = df s.
Proof.
  intros s call.
  destruct (apply_filters_and_sort_frame (lib := Ref.lib) (Some "Gegenstand")
              (Some " * ") None None s) as (D & _ & _ & _ & C & V).
  hnf in V. destruct V as [R V].
  auto.
Defined.

Lemma apply_filters_and_sort_twice_witness :
  let s := exec (lib := Ref.lib) (load_new_sheet inventory) __init__ in
  let s1 :=
    exec (apply_filters_and_sort (lib := Ref.lib) (Some "Gegenstand")
            (Some "(") None None) s in
  let s2 :=
    exec (apply_filters_and_sort None (Some "a") (Some "Preis")
            (Some "num_asc")) s1 in
  result (apply_filters_and_sort (Some "Gegenstand") (Some "(") None None) s
  = Raised "re.error: missing ), unterminated subpattern at position 0"
  /\ s2 = exec (apply_filters_and_sort (Some "Gegenstand") (Some "a")
                 (Some "Preis") (Some "num_asc")) s
  /\ result (apply_filters_and_sort None (Some "a") (Some "Preis")
               (Some "num_asc")) s1 = Returned tt
  /\ _current_view_df s2
     = compute_view (lib := Ref.lib) inventory
         (Some "Gegenstand", "a", Some "Preis", Some "num_asc").
Proof.
  intros s s1 s2. split; [reflexivity|].
  apply (apply_filters_and_sort_twice (lib := Ref.lib) (Some "Gegenstand")
           (Some "(") None None None (Some "a") (Some "Preis")
           (Some "num_asc") s).
  reflexivity.
Defined.

(** ** The filter text *)

Lemma is_space_lower_char c : Str.is_space (Str.lower_char c) = Str.is_space c.
Proof. destruct c as [[] [] [] [] [] [] [] []]; reflexivity. Qed.

Lemma lower_char_idem c : Str.lower_char (Str.lower_char c) = Str.lower_char c.
Proof. destruct c as [[] [] [] [] [] [] [] []]; reflexivity. Qed.

Lemma lower_idem s : Str.lower (Str.lower s) = Str.lower s.
Proof.
  induction s as [|c s IH]; cbn; [reflexivity|].
  now rewrite lower_char_idem, IH.
Qed.

Lemma lstrip_lower s : Str.lstrip (Str.lower s) = Str.lower (Str.lstrip s).
Proof.
  induction s as [|c s IH]; cbn; [reflexivity|].
  rewrite is_space_lower_char. now destruct (Str.is_space c).
Qed.

Lemma rstrip_lower s : Str.rstrip (Str.lower s) = Str.lower (Str.rstrip s).
Proof.
  induction s as [|c s IH]; cbn; [reflexivity|].
  rewrite IH, is_space_lower_char.
  destruct (Str.rstrip s); cbn; [|reflexivity].
  now destruct (Str.is_space c).
Qed.

Lemma strip_lower s : Str.strip (Str.lower s) = Str.lower (Str.strip s).
Proof. unfold Str.strip. now rewrite lstrip_lower, rstrip_lower. Qed.

(** A string that does not begin with a blank. *)
Definition no_leading_space (s : string) : Prop :=
  match s with
  | EmptyString => True
  | String c _ => Str.is_space c = false
  end.

Lemma lstrip_no_leading_space s : no_leading_space (Str.lstrip s).
Proof.
  induction s as [|c s IH]; cbn; [exact I|].
  destruct (Str.is_space c) eqn:E; [exact IH|exact E].
Qed.

Lemma lstrip_fixed s : no_leading_space s -> Str.lstrip s = s.
Proof. destruct s as [|c s]; cbn; [reflexivity|]. now intros ->. Qed.

Lemma rstrip_no_leading_space s :
  no_leading_space s -> no_leading_space (Str.rstrip s).
Proof.
  destruct s as [|c s]; cbn; [trivial|]. intros E.
  destruct (Str.rstrip s); cbn; [now rewrite E|exact E].
Qed.

Lemma rstrip_idem s : Str.rstrip (Str.rstrip s) = Str.rstrip s.
Proof.
  induction s as [|c s IH]; cbn; [reflexivity|].
  destruct (Str.rstrip s) as [|c' r] eqn:R.
  - destruct (Str.is_space c) eqn:E; cbn; [reflexivity|]. now rewrite E.
  - cbn. cbn in IH. now rewrite IH.
Qed.

Lemma strip_idem s : Str.strip (Str.strip s) = Str.strip s.
Proof.
  unfold Str.strip.
  rewrite (lstrip_fixed (Str.rstrip (Str.lstrip s))).
  - apply rstrip_idem.
  - apply rstrip_no_leading_space, lstrip_no_leading_space.
Qed.

Lemma truthy_lower s : Str.truthy (Str.lower s) = Str.truthy s.
Proof. now destruct s. Qed.

Section FilterText.

Context {lib : Pandas}.

(** The search term that [filter_step] makes of a filter text. *)
Definition search_term_of (filter_text : string) : string :=
  Str.lower (Str.strip filter_text).

Lemma search_term_of_idem t :
  search_term_of (search_term_of t) = search_term_of t.
Proof.
  unfold search_term_of. now rewrite strip_lower, strip_idem, lower_idem.
Qed.

Lemma filter_step_search_term filter_col filter_text d :
  filter_step filter_col filter_text d
  = filter_step filter_col (search_term_of filter_text) d.
Proof.
  unfold filter_step.
  fold (search_term_of filter_text).
  fold (search_term_of (search_term_of filter_text)).
  rewrite search_term_of_idem.
  destruct (Str.truthy filter_text) eqn:T.
  - now destruct (Str.truthy (search_term_of filter_text)).
  - destruct filter_text; [reflexivity|discriminate].
Qed.

(** X5. Two filter texts that differ in upper and lower case and in the
    blanks around them, and in nothing else, give the same view. *)
Theorem filter_text_case_and_blanks (d : DataFrame)
  (filter_col : option string) (text1 text2 : string)
  (sort_col sort_type : option string) :
  Str.lower (Str.strip text1) = Str.lower (Str.strip text2) ->
  compute_view d (filter_col, text1, sort_col, sort_type)
  = compute_view d (filter_col, text2, sort_col, sort_type).
Proof.
  intros E. unfold compute_view.
  rewrite (filter_step_search_term filter_col text1),
    (filter_step_search_term filter_col text2).
  unfold search_term_of. now rewrite E.
Qed.

(** X6. A filter text of blanks alone filters nothing: the view is the
    dataset, sorted as the sort criteria say. *)
Theorem filter_text_blank (d : DataFrame) (filter_col : option string)
  (filter_text : string) (sort_col sort_type : option string) :
  Str.forallb Str.is_space filter_text = true ->
  compute_view d (filter_col, filter_text, sort_col, sort_type)
  = if empty d then mkDataFrame (columns d) []
    else sort_step sort_col sort_type d.
Proof.
  intros B. unfold compute_view.
  assert (Str.lstrip filter_text = "") as L.
  { induction filter_text as [|c t IH]; [reflexivity|].
    cbn in B. apply andb_true_iff in B as [Bc Bt].
    cbn. rewrite Bc. now apply IH. }
  unfold filter_step, Str.strip. rewrite L. cbn.
  now destruct (Str.truthy filter_text).
Qed.

End FilterText.

Lemma filter_text_case_and_blanks_witness :
  compute_view (lib := Ref.lib) inventory
    (Some "Gegenstand", "  TASTA ", None, None)
  = compute_view (lib := Ref.lib) inventory
      (Some "Gegenstand", "tasta", None, None).
Proof.
  apply (filter_text_case_and_blanks (lib := Ref.lib)). reflexivity.
Defined.

Lemma filter_text_blank_witness :
  compute_view (lib := Ref.lib) inventory
    (Some "Gegenstand", "   ", Some "Preis", Some "num_asc")
  = if empty inventory then mkDataFrame (columns inventory) []
    else sort_step (lib := Ref.lib) (Some "Preis") (Some "num_asc") inventory.
Proof.
  apply (filter_text_blank (lib := Ref.lib)). reflexivity.
Defined.

(** ** The rows of the view *)

Lemma filter_complement {A} (f : A -> bool) (l : list A) :
  Permutation (filter f l ++ filter (fun x => negb (f x)) l) l.
Proof.
  induction l as [|x l IH]; cbn; [constructor|].
  destruct (f x); cbn.
  - now constructor.
  - rewrite <- Permutation_middle. now constructor.
Qed.

Lemma strongly_sorted_pair {A} (R : A -> A -> Prop) above x between y below :
  StronglySorted R (above ++ x :: between ++ y :: below) -> R x y.
Proof.
  induction above as [|a above IH]; cbn; intros S.
  - inversion S as [|? ? _ F]; subst.
    rewrite Forall_forall in F. apply F.
    apply in_or_app. right. now left.
  - inversion S; subst. now apply IH.
Qed.

Lemma nth_set_nth {A} (j : nat) (x d : A) (l : list A) :
  nth j (set_nth j x l) d = if j <? List.length l then x else d.
Proof.
  revert j. induction l as [|y l IH]; intros [|j]; cbn; try reflexivity.
  apply IH.
Qed.

Section ViewRows.

Context {lib : Pandas}.

Lemma filter_step_columns fc ft d : columns (filter_step fc ft d) = columns d.
Proof.
  unfold filter_step. destruct (Str.truthy ft); [|reflexivity].
  now destruct (Str.truthy _).
Qed.

Lemma filter_step_rows fc ft d :
  exists hidden, Permutation (rows (filter_step fc ft d) ++ hidden) (rows d).
Proof.
  unfold filter_step.
  destruct (Str.truthy ft);
    [|exists []; now rewrite app_nil_r].
  destruct (Str.truthy _);
    [|exists []; now rewrite app_nil_r].
  eexists. cbn [rows]. apply filter_complement.
Qed.

Lemma sort_step_columns sc st d : columns (sort_step sc st d) = columns d.
Proof.
  unfold sort_step. destruct (active_column sc d); [|reflexivity].
  now destruct (PyList.mem st _).
Qed.

Lemma map_column_index j f d : index (map_column j f d) = index d.
Proof.
  unfold index, map_column. cbn [rows]. rewrite map_map. reflexivity.
Qed.

Lemma sort_step_index sc st d :
  Permutation (index (sort_step sc st d)) (index d).
Proof.
  unfold sort_step. destruct (active_column sc d) as [j|]; [|reflexivity].
  destruct (PyList.mem st _); unfold index at 1; cbn [rows].
  - rewrite sort_values_perm. fold (index (map_column j to_numeric d)).
    now rewrite map_column_index.
  - now rewrite sort_values_perm.
Qed.

Lemma sort_step_text_rows sc st d :
  PyList.mem st ["num_asc"; "num_desc"] = false ->
  Permutation (rows (sort_step sc st d)) (rows d).
Proof.
  intros N. unfold sort_step.
  destruct (active_column sc d) as [j|]; [|reflexivity].
  rewrite N. cbn [rows]. apply sort_values_perm.
Qed.

(** X7. The view has the columns of the dataset, and the index labels of
    its rows are labels of the dataset, none more often than there: with
    the labels the view does not show they make up the index of the
    dataset.  Unless the sort is numeric the same holds of the rows
    themselves. *)
Theorem view_rows_from_dataset (d : DataFrame) (filter_col : option string)
  (filter_text : string) (sort_col sort_type : option string) :
  let view := compute_view d (filter_col, filter_text, sort_col, sort_type) in
  columns view = columns d
  /\ (exists hidden, Permutation (index view ++ hidden) (index d))
  /\ (NoDup (index d) -> NoDup (index view))
  /\ (PyList.mem sort_type ["num_asc"; "num_desc"] = false ->
      exists hidden, Permutation (rows view ++ hidden) (rows d)).
Proof.
  cbv zeta. unfold compute_view.
  assert (forall v,
             (exists hidden, Permutation (index v ++ hidden) (index d)) ->
             NoDup (index d) -> NoDup (index v)) as ND.
  { intros v [hidden P] N.
    apply (Permutation_NoDup (Permutation_sym P)) in N.
    now apply NoDup_app_remove_r in N. }
  destruct (empty d).
  - cbn [columns rows]. split; [reflexivity|].
    assert (exists hidden,
               Permutation (index (mkDataFrame (columns d) []) ++ hidden)
                 (index d)) as P by (exists (index d); reflexivity).
    split; [exact P|]. split; [now apply ND|].
    intros _. exists (rows d). reflexivity.
  - rewrite sort_step_columns, filter_step_columns.
    split; [reflexivity|].
    destruct (filter_step_rows filter_col filter_text d) as [hidden P].
    assert (exists hidden,
               Permutation
                 (index (sort_step sort_col sort_type
                           (filter_step filter_col filter_text d)) ++ hidden)
                 (index d)) as PI.
    { exists (map fst hidden). rewrite sort_step_index.
      unfold index. rewrite <- map_app. now apply Permutation_map. }
    split; [exact PI|]. split; [now apply ND|].
    intros N. exists hidden. now rewrite sort_step_text_rows.
Qed.

Lemma to_numeric_number_or_nan v :
  (exists q, to_numeric v = VNum q) \/ to_numeric v = VNaN.
Proof.
  destruct v as [s|q| |]; cbn; eauto.
  destruct (to_numeric_str s); eauto.
Qed.

Lemma map_column_to_numeric_cell j d r :
  In r (rows (map_column j to_numeric d)) ->
  (exists q, cell j r = VNum q) \/ cell j r = VNaN.
Proof.
  unfold map_column. cbn [rows]. rewrite in_map_iff.
  intros [r0 [<- _]]. unfold cell at 1 3. cbn [snd].
  rewrite nth_set_nth. destruct (j <? _); [|now right].
  apply to_numeric_number_or_nan.
Qed.

(** X8. In the view of a numeric sort every cell of the sort column is a
    number or NaN, the cells that did not convert being NaN; and below a
    row with NaN there are only rows with NaN, in an ascending as in a
    descending sort, while of two numbers the upper one is the smaller
    (ascending) or the greater (descending) or equal. *)
Theorem numeric_sort_view (d : DataFrame) (filter_col : option string)
  (filter_text : string) (sort_col sort_type : option string) (j : nat)
  (above between below : list row) (r1 r2 : row) :
  active_column sort_col d = Some j ->
  PyList.mem sort_type ["num_asc"; "num_desc"] = true ->
  rows (compute_view d (filter_col, filter_text, sort_col, sort_type))
  = above ++ r1 :: between ++ r2 :: below ->
  match cell j r1, cell j r2 with
  | VNum a, VNum b =>
      if PyList.mem sort_type ["za"; "num_desc"] then (b <= a)%Q
      else (a <= b)%Q
  | VNum _, VNaN => True
  | VNaN, VNaN => True
  | _, _ => False
  end.
Proof.
  intros A N E. unfold compute_view in E.
  destruct (empty d); [now destruct above|].
  set (t := filter_step filter_col filter_text d) in *.
  assert (active_column sort_col t = Some j) as At.
  { unfold active_column in *. subst t. now rewrite filter_step_columns. }
  unfold sort_step in E. rewrite At, N in E. cbn [rows] in E.
  pose proof (sort_values_sorted Q Qle_bool (num_key j)
                (negb (PyList.mem sort_type ["za"; "num_desc"]))
                (rows (map_column j to_numeric t))
                Qle_bool_total Qle_bool_trans) as S.
  pose proof (sort_values_perm Q Qle_bool (num_key j)
                (negb (PyList.mem sort_type ["za"; "num_desc"]))
                (rows (map_column j to_numeric t))) as P.
  rewrite E in S, P. apply strongly_sorted_pair in S.
  assert (forall r, In r [r1; r2] ->
                    (exists q, cell j r = VNum q) \/ cell j r = VNaN) as C.
  { intros r I. apply (map_column_to_numeric_cell j t).
    apply (Permutation_in _ P). apply in_or_app. right.
    destruct I as [<-|[<-|[]]]; [now left|].
    right. apply in_or_app. right. now left. }
  unfold num_key in S.
  pose proof (C r1 (or_introl eq_refl)) as C1.
  pose proof (C r2 (or_intror (or_introl eq_refl))) as C2.
  destruct C1 as [[a E1] | E1]; destruct C2 as [[b E2] | E2];
    rewrite E1, E2 in *; cbn in S; try exact I; try contradiction.
  destruct (PyList.mem sort_type ["za"; "num_desc"]); cbn in S;
    now apply Qle_bool_iff.
Qed.

End ViewRows.

Lemma numeric_sort_view_witness :
  match cell 0 (2%Z, [VNum (7599 # 100)]), cell 0 (3%Z, [VNaN]) with
  | VNum a, VNum b =>
      if PyList.mem (Some "num_desc") ["za"; "num_desc"] then (b <= a)%Q
      else (a <= b)%Q
  | VNum _, VNaN => True
  | VNaN, VNaN => True
  | _, _ => False
  end.
Proof.
  apply (numeric_sort_view (lib := Ref.lib) prices None "" (Some "Preis")
           (Some "num_desc") 0 [(0%Z, [VNum (120050 # 100)])]
           [(1%Z, [VNum (2500 # 100)])] []
           (2%Z, [VNum (7599 # 100)]) (3%Z, [VNaN])); reflexivity.
Defined.

(** ** More on the history *)

Section Timeline.

Context {lib : Pandas}.

(** X9. [undo] returns [False] and leaves the object as it was when the
    undo stack holds no state below its top, and so does [redo] when the
    redo stack is empty.  Otherwise the state on top is moved to the other
    stack and the dataset is replaced by the one read back, and only then
    is the view computed: the call returns [True] with the new view, or,
    the restored dataset not being empty and the filter text in force
    being no regular expression, it raises the error of the pattern; the
    stacks and the dataset have then changed all the same, and the view
    is the one from before the call. *)
Theorem undo_redo_outcome (s : AppLogic) :
  (List.length (undo_stack s) <= 1 -> undo s = (Returned false, s))
  /\ (redo_stack s = [] -> redo s = (Returned false, s))
  /\ (forall current previous below,
        undo_stack s = below ++ [previous; current] ->
        let s' := exec undo s in
        undo_stack s' = below ++ [previous]
        /\ redo_stack s' = redo_stack s ++ [current]
        /\ df s' = read_json previous
        /\ match view_error (read_json previous) (_active_filter_text s) with
           | None =>
               result undo s = Returned true
               /\ _current_view_df s'
                  = compute_view (read_json previous) (criteria s)
           | Some e =>
               result undo s = Raised e
               /\ _current_view_df s' = _current_view_df s
           end)
  /\ (forall state below,
        redo_stack s = below ++ [state] ->
        let s' := exec redo s in
        undo_stack s' = undo_stack s ++ [state]
        /\ redo_stack s' = below
        /\ df s' = read_json state
        /\ match view_error (read_json state) (_active_filter_text s) with
           | None =>
               result redo s = Returned true
               /\ _current_view_df s'
                  = compute_view (read_json state) (criteria s)
           | Some e =>
               result redo s = Raised e
               /\ _current_view_df s' = _current_view_df s
           end).
Proof.
  unfold result, exec. rewrite undo_eq, redo_eq.
  unfold undo_effect, redo_effect.
  split; [|split; [|split]].
  - rewrite <- (length_rev (undo_stack s)).
    destruct (rev (undo_stack s)) as [|x [|y below]]; cbn; try reflexivity.
    lia.
  - now intros ->.
  - intros current previous below E.
    rewrite E, rev_app_distr. cbn [rev app].
    unfold refreshed.
    cbn [df _active_filter_text set_df set_redo_stack set_undo_stack].
    destruct (view_error (read_json previous) (_active_filter_text s));
      cbn -[compute_view]; rewrite rev_involutive;
      repeat split.
  - intros state below E.
    rewrite E, rev_app_distr. cbn [rev app].
    unfold refreshed.
    cbn [df _active_filter_text set_df set_redo_stack set_undo_stack].
    destruct (view_error (read_json state) (_active_filter_text s));
      cbn -[compute_view]; rewrite rev_involutive;
      repeat split.
Qed.

(** The states the history holds, oldest first: the undo stack, then the
    redo stack from its top down. *)
Definition timeline (s : AppLogic) : list token :=
  undo_stack s ++ rev (redo_stack s).

(** The calls that neither load a dataset nor push a state. *)
Definition keeps_history (o : op) : Prop :=
  match o with
  | OLoad _ | OPush => False
  | _ => True
  end.

Lemma undo_effect_timeline s : timeline (snd (undo_effect s)) = timeline s.
Proof.
  unfold timeline, undo_effect.
  destruct (rev (undo_stack s)) as [|x [|y below]] eqn:E; try reflexivity.
  rewrite and_true_state, refreshed_undo_stack, refreshed_redo_stack.
  apply rev_eq_inv in E. rewrite E. cbn -[rev].
  rewrite rev_unit. cbn. rewrite <- !app_assoc. reflexivity.
Qed.

Lemma redo_effect_timeline s : timeline (snd (redo_effect s)) = timeline s.
Proof.
  unfold timeline, redo_effect.
  destruct (rev (redo_stack s)) as [|x below] eqn:E.
  - cbn. now rewrite E.
  - rewrite and_true_state, refreshed_undo_stack, refreshed_redo_stack.
    cbn -[rev]. rewrite rev_involutive, <- app_assoc. reflexivity.
Qed.

(** X10. [undo] and [redo], and with them the calls that set criteria,
    read the view or write into the dataset, never drop a state from the
    history nor change the order of its states: the undo stack followed
    by the redo stack read from its top down is the same list of states
    after any number of such calls. *)
Theorem history_preserved (ops : list op) (s : AppLogic) :
  Forall keeps_history ops ->
  timeline (exec (run_ops ops) s) = timeline s.
Proof.
  rewrite run_ops_eq.
  intros F. revert s. induction F as [|o ops K F IH]; intros s;
    [reflexivity|].
  cbn [fold_left]. rewrite IH.
  destruct o; cbn [op_effect]; try contradiction; try reflexivity.
  - apply undo_effect_timeline.
  - apply redo_effect_timeline.
  - unfold timeline.
    now rewrite refreshed_undo_stack, refreshed_redo_stack.
Qed.

(** X11. When the dataset serialises and the bound is 1 or more, the
    serialised dataset is the top of the undo stack after [push_state],
    whether the call appended it or found it there. *)
Theorem push_state_top (s : AppLogic) (t : token) :
  to_json (df s) = Returned t -> (1 <= max_undo_steps s)%Z ->
  top (undo_stack (exec push_state s)) = Some t.
Proof.
  intros E M. unfold exec. rewrite push_state_eq. cbn [snd].
  unfold push_state_effect. rewrite E.
  destruct (push_appends (undo_stack s) t) eqn:P.
  - cbn. unfold pushed. destruct (_ >? _)%Z eqn:G.
    + destruct (undo_stack s) as [|x U]; cbn in *.
      * rewrite Z.gtb_ltb in G. apply Z.ltb_lt in G. lia.
      * apply top_app_last.
    + apply top_app_last.
  - now apply push_appends_false in P.
Qed.

(** The calls that do not load a dataset. *)
Definition keeps_dataset_loaded (o : op) : Prop :=
  match o with
  | OLoad _ => False
  | _ => True
  end.

Lemma push_state_effect_nonempty s :
  (1 <= max_undo_steps s)%Z -> undo_stack s <> [] ->
  undo_stack (push_state_effect s) <> [].
Proof.
  intros M N. unfold push_state_effect.
  destruct (to_json (df s)) as [t|e]; [|exact N].
  destruct (push_appends (undo_stack s) t); [|exact N].
  cbn. unfold pushed. destruct (undo_stack s) as [|x U]; [contradiction|].
  destruct (_ >? _)%Z; cbn; [|discriminate].
  destruct U; discriminate.
Qed.

Lemma undo_effect_nonempty s :
  undo_stack s <> [] -> undo_stack (snd (undo_effect s)) <> [].
Proof.
  intros N. unfold undo_effect.
  destruct (rev (undo_stack s)) as [|x [|y below]]; try exact N.
  rewrite and_true_state, refreshed_undo_stack.
  cbn -[rev]. intros E. now apply rev_cons_not_nil in E.
Qed.

Lemma redo_effect_nonempty s :
  undo_stack s <> [] -> undo_stack (snd (redo_effect s)) <> [].
Proof.
  intros N. unfold redo_effect.
  destruct (rev (redo_stack s)) as [|x below]; try exact N.
  rewrite and_true_state, refreshed_undo_stack.
  cbn -[rev]. intros E. apply app_eq_nil in E. now destruct E.
Qed.

(** X12. Once the undo stack holds a state it holds one after every
    later call, up to the next [load_new_sheet], provided the bound is 1
    or more: [undo] stops at the last state and [push_state] drops the
    front state only from a stack of two or more. *)
Theorem undo_stack_stays_nonempty (ops : list op) (s : AppLogic) :
  Forall keeps_dataset_loaded ops ->
  (1 <= max_undo_steps s)%Z -> undo_stack s <> [] ->
  undo_stack (exec (run_ops ops) s) <> [].
Proof.
  rewrite run_ops_eq.
  intros F. revert s. induction F as [|o ops K F IH]; intros s M N;
    [exact N|].
  cbn [fold_left]. apply IH.
  - now rewrite op_effect_max.
  - destruct o; cbn [op_effect]; try contradiction; try exact N.
    + now apply push_state_effect_nonempty.
    + now apply undo_effect_nonempty.
    + now apply redo_effect_nonempty.
    + now rewrite refreshed_undo_stack.
Qed.

End Timeline.

Lemma undo_redo_outcome_witness :
  let s :=
    exec (lib := Ref.lib)
      (run_ops (two_edits_saved ++ [OApply None (Some "(") None None]))
      __init__ in
  let s' := exec (lib := Ref.lib) undo s in
  result undo s
  = Raised "re.error: missing ), unterminated subpattern at position 0"
  /\ undo_stack s' = firstn 2 (undo_stack s)
  /\ redo_stack s' = skipn 2 (undo_stack s)
  /\ df s' = loc_set 1 "Gegenstand" (VStr "Trackball") inventory
  /\ df s' <> df s
  /\ _current_view_df s' = _current_view_df s.
Proof.
  intros s s'.
  destruct (undo_redo_outcome (lib := Ref.lib) s) as (_ & _ & U & _).
  destruct (U (nth 2 (undo_stack s) inventory) (nth 1 (undo_stack s) inventory)
              (firstn 1 (undo_stack s)) eq_refl) as (A & B & C & D).
  hnf in D. destruct D as [R V]. fold s' in A, B, C, V.
  split; [exact R|]. split; [exact A|]. split; [exact B|].
  split; [rewrite C; reflexivity|]. split; [|exact V].
  rewrite C. vm_compute. intros H. discriminate H.
Defined.

Lemma history_preserved_witness :
  let s := exec (lib := Ref.lib) (run_ops two_edits_saved) __init__ in
  timeline
    (exec (run_ops [OUndo; OUndo; ORedo; OApply None (Some "maus") None None;
                    OUndo; OUndo])
       s)
  = timeline s.
Proof.
  intros s. apply (history_preserved (lib := Ref.lib)).
  repeat constructor.
Defined.

Lemma push_state_top_witness :
  let s := exec (lib := Ref.lib) (run_ops two_edits) __init__ in
  top (undo_stack (exec push_state s)) = Some (df s).
Proof.
  intros s. apply (push_state_top (lib := Ref.lib) s (df s)).
  - reflexivity.
  - vm_compute. discriminate.
Defined.

Lemma undo_stack_stays_nonempty_witness :
  let s := exec (lib := Ref.lib) (load_new_sheet inventory) __init__ in
  undo_stack (exec (run_ops (tl two_edits ++ [OUndo; OUndo; OUndo])) s) <> [].
Proof.
  intros s. apply (undo_stack_stays_nonempty (lib := Ref.lib)).
  - repeat constructor.
  - vm_compute. discriminate.
  - vm_compute. discriminate.
Defined.

(** ** The window: editing a cell (main_window.py) *)

(** [idx[i]] for a pandas Index and a position that is not negative. *)
Definition Index_getitem {A} (idx : list A) (i : nat) : outcome A :=
  match nth_error idx i with
  | Some x => Returned x
  | None => Raised "IndexError: index is out of bounds"
  end.

(** [isinstance(e, IndexError)] *)
Definition is_IndexError (e : exn) : bool := String.prefix "IndexError" e.

(** [f"{n}"] for a number that is not negative. *)
Definition str_nat (n : nat) : string := NilZero.string_of_uint (Nat.to_uint n).

Section CellChanged.

Context {lib : Pandas}.

(** [try: body except IndexError: handler] *)
Definition try_except_IndexError {A} (body : M A) (handler : M A) : M A :=
  fun s =>
    match body s with
    | (Returned a, s') => (Returned a, s')
    | (Raised e, s') => if is_IndexError e then handler s' else (Raised e, s')
    end.

(** [MainWindow._handle_cell_changed], on the object [self.logic]; the
    text of the table item is passed as [new_text]. *)
Definition _handle_cell_changed (row column : nat) (new_text : string)
  : M unit :=
  try_except_IndexError
    (view <- get_current_view ;;
     original_index <- call (Index_getitem (index view) row) ;;
     self <- get ;;
     column_name <- call (Index_getitem (columns (df self)) column) ;;
     push_state ;;
     modify (fun self =>
               set_df (loc_set original_index column_name (VStr new_text)
                         (df self)) self))
    (print ("Warnung: Änderung in Zeile " ++ str_nat row
            ++ " konnte nicht zugeordnet werden.")).

(** The write of [new_text] into the cells at position [column] of the
    rows labelled [label]. *)
Definition overwrite (label : Z) (column : nat) (new_text : string)
  (rs : list row) : list row :=
  map (fun r => if (fst r =? label)%Z
                then (fst r, set_nth column (VStr new_text) (snd r)) else r)
    rs.

Lemma col_pos_nth_error cols : forall column name,
  NoDup cols -> nth_error cols column = Some name ->
  col_pos cols name = Some column.
Proof.
  induction cols as [|c cols IH]; intros [|column] name N E; cbn in *;
    try discriminate.
  - injection E as ->. now rewrite String.eqb_refl.
  - inversion N as [|? ? Nc N']; subst.
    destruct (String.eqb c name) eqn:Q.
    + apply String.eqb_eq in Q. subst. apply nth_error_In in E. contradiction.
    + now rewrite (IH column name N' E).
Qed.

Lemma push_state_effect_frame s :
  df (push_state_effect s) = df s
  /\ _current_view_df (push_state_effect s) = _current_view_df s
  /\ criteria (push_state_effect s) = criteria s.
Proof.
  unfold push_state_effect.
  destruct (to_json (df s)) as [t|e]; [|now cbn].
  now destruct (push_appends (undo_stack s) t).
Qed.

Lemma _handle_cell_changed_in_range row column new_text s label name :
  nth_error (index (_current_view_df s)) row = Some label ->
  nth_error (columns (df s)) column = Some name ->
  _handle_cell_changed row column new_text s
  = (Returned tt,
     set_df (loc_set label name (VStr new_text) (df s))
       (push_state_effect s)).
Proof.
  intros R C.
  unfold _handle_cell_changed, try_except_IndexError, get_current_view, bind,
    get, ret, call, Index_getitem.
  cbv beta iota. rewrite R. cbv beta iota. rewrite C. cbv beta iota.
  rewrite push_state_eq. unfold modify.
  now destruct (push_state_effect_frame s) as (-> & _).
Qed.

Lemma _handle_cell_changed_out_of_range row column new_text s :
  nth_error (index (_current_view_df s)) row = None
  \/ nth_error (columns (df s)) column = None ->
  _handle_cell_changed row column new_text s
  = (Returned tt,
     set_stdout
       (stdout s ++ [("Warnung: Änderung in Zeile " ++ str_nat row
                      ++ " konnte nicht zugeordnet werden.")%string]) s).
Proof.
  intros O.
  unfold _handle_cell_changed, try_except_IndexError, get_current_view, bind,
    get, ret, call, Index_getitem.
  cbv beta iota.
  destruct (nth_error (index (_current_view_df s)) row) as [label|].
  - destruct O as [O|O]; [discriminate|]. cbv beta iota. now rewrite O.
  - reflexivity.
Qed.

(** X13. An edit of the cell in row [row] and column [column] of the
    table, both within the view, first calls [push_state] and then writes
    the text into the dataset: into the cell at position [column] of the
    row whose index label the view has at [row] (of every row with that
    label), the column names being unique.  All other cells, the labels
    and the columns stay as they were; the view is not computed anew. *)
Theorem cell_edit_writes_labelled_row (row column : nat) (new_text : string)
  (s : AppLogic) (label : Z) :
  NoDup (columns (df s)) ->
  nth_error (index (_current_view_df s)) row = Some label ->
  column < List.length (columns (df s)) ->
  let s' := exec (_handle_cell_changed row column new_text) s in
  result (_handle_cell_changed row column new_text) s = Returned tt
  /\ rows (df s') = overwrite label column new_text (rows (df s))
  /\ columns (df s') = columns (df s)
  /\ index (df s') = index (df s)
  /\ _current_view_df s' = _current_view_df s
  /\ criteria s' = criteria s
  /\ undo_stack s' = undo_stack (exec push_state s)
  /\ redo_stack s' = redo_stack (exec push_state s).
Proof.
  intros N R C.
  destruct (nth_error (columns (df s)) column) as [name|] eqn:E;
    [|apply nth_error_None in E; lia].
  cbv zeta. unfold exec, result.
  rewrite (_handle_cell_changed_in_range row column new_text s label name R E).
  rewrite push_state_eq. cbn [fst snd].
  destruct (push_state_effect_frame s) as (D & V & K).
  unfold loc_set. rewrite (col_pos_nth_error _ column name N E).
  repeat split; cbn; auto.
  unfold index. cbn. rewrite map_map. apply map_ext.
  intros r. now destruct (fst r =? label)%Z.
Qed.

(** X14. An edit of a cell outside the view or outside the columns of the
    dataset changes nothing: the method prints a warning and returns,
    with the dataset, the view, the criteria and both stacks as they
    were, and without a call of [push_state]. *)
Theorem cell_edit_out_of_range (row column : nat) (new_text : string)
  (s : AppLogic) :
  List.length (rows (_current_view_df s)) <= row
  \/ List.length (columns (df s)) <= column ->
  let s' := exec (_handle_cell_changed row column new_text) s in
  result (_handle_cell_changed row column new_text) s = Returned tt
  /\ df s' = df s
  /\ _current_view_df s' = _current_view_df s
  /\ criteria s' = criteria s
  /\ undo_stack s' = undo_stack s
  /\ redo_stack s' = redo_stack s
  /\ stdout s'
     = stdout s ++ [("Warnung: Änderung in Zeile " ++ str_nat row
                     ++ " konnte nicht zugeordnet werden.")%string].
Proof.
  intros O. cbv zeta. unfold exec, result.
  rewrite _handle_cell_changed_out_of_range; [now cbn|].
  destruct O as [O|O]; [left|right]; apply nth_error_None; [|exact O].
  unfold index. now rewrite length_map.
Qed.

Lemma _handle_cell_changed_undo_stack row column new_text s :
  undo_stack (exec (_handle_cell_changed row column new_text) s)
  = undo_stack s
  \/ undo_stack (exec (_handle_cell_changed row column new_text) s)
     = undo_stack (push_state_effect s).
Proof.
  unfold exec.
  destruct (nth_error (index (_current_view_df s)) row) as [label|] eqn:R.
  - destruct (nth_error (columns (df s)) column) as [name|] eqn:C.
    + rewrite (_handle_cell_changed_in_range _ _ _ _ label name R C).
      now right.
    + rewrite _handle_cell_changed_out_of_range by auto. now left.
  - rewrite _handle_cell_changed_out_of_range by auto. now left.
Qed.

Lemma load_effect_stack d s t :
  to_json d = Returned t -> (1 <= max_undo_steps s)%Z ->
  undo_stack (load_effect d s) = [t] /\ df (load_effect d s) = d
  /\ max_undo_steps (load_effect d s) = max_undo_steps s.
Proof.
  intros E M. unfold load_effect, push_state_effect. cbn -[pushed].
  rewrite E. change (push_appends [] t) with true. cbn -[pushed].
  unfold pushed. cbn.
  destruct (1 >? max_undo_steps s)%Z eqn:G; [|auto].
  rewrite Z.gtb_ltb in G. apply Z.ltb_lt in G. lia.
Qed.

Lemma load_effect_no_stack d s e :
  to_json d = Raised e ->
  undo_stack (load_effect d s) = [] /\ df (load_effect d s) = d.
Proof.
  intros E. unfold load_effect, push_state_effect. cbn. now rewrite E.
Qed.

Lemma push_state_effect_same s t :
  to_json (df s) = Returned t -> undo_stack s = [t] ->
  undo_stack (push_state_effect s) = [t].
Proof.
  intros E U. unfold push_state_effect. rewrite E, U.
  unfold push_appends, top. cbn.
  unfold token_eqb. now destruct (token_eq_dec t t).
Qed.

(** X15. The first edit after a dataset has been loaded cannot be undone:
    [push_state], called before the write, finds the loaded state on the
    undo stack already, and [undo] returns [False]. *)
Theorem first_edit_not_undone (dataframe : DataFrame) (row column : nat)
  (new_text : string) :
  let loaded := exec (load_new_sheet dataframe) __init__ in
  let edited := exec (_handle_cell_changed row column new_text) loaded in
  result undo edited = Returned false /\ exec undo edited = edited.
Proof.
  cbv zeta.
  assert (List.length
            (undo_stack
               (exec (_handle_cell_changed row column new_text)
                  (exec (load_new_sheet dataframe) __init__))) <= 1) as L.
  { unfold exec at 2. rewrite load_new_sheet_eq. cbn [snd].
    destruct (to_json dataframe) as [t|e] eqn:E.
    - destruct (load_effect_stack dataframe __init__ t E) as (U & D & _);
        [cbn; lia|].
      destruct (_handle_cell_changed_undo_stack row column new_text
                  (load_effect dataframe __init__)) as [->| ->].
      + now rewrite U.
      + rewrite (push_state_effect_same _ t); [reflexivity| |exact U].
        now rewrite D.
    - destruct (load_effect_no_stack dataframe __init__ e E) as (U & D).
      destruct (_handle_cell_changed_undo_stack row column new_text
                  (load_effect dataframe __init__)) as [->| ->].
      + rewrite U. cbn. lia.
      + unfold push_state_effect. rewrite D, E. cbn [undo_stack set_stdout].
        rewrite U. cbn. lia. }
  unfold result, exec in *. rewrite undo_eq. cbn [fst snd].
  unfold undo_effect.
  rewrite <- length_rev in L.
  destruct (rev (undo_stack _)) as [|x [|y below]]; cbn in L; try lia; auto.
Qed.

End CellChanged.

Section TwoEdits.

Context {lib : Pandas}.

Lemma _handle_cell_changed_max row column new_text s :
  max_undo_steps (exec (_handle_cell_changed row column new_text) s)
  = max_undo_steps s.
Proof.
  unfold exec.
  destruct (nth_error (index (_current_view_df s)) row) as [label|] eqn:R.
  - destruct (nth_error (columns (df s)) column) as [name|] eqn:C.
    + rewrite (_handle_cell_changed_in_range _ _ _ _ label name R C).
      cbn. apply push_state_effect_max.
    + now rewrite _handle_cell_changed_out_of_range by auto.
  - now rewrite _handle_cell_changed_out_of_range by auto.
Qed.

Lemma push_state_effect_one s (t0 : token) :
  undo_stack s = [t0] -> (2 <= max_undo_steps s)%Z ->
  undo_stack (push_state_effect s) = [t0]
  \/ exists t, undo_stack (push_state_effect s) = [t0; t].
Proof.
  intros U M. unfold push_state_effect.
  destruct (to_json (df s)) as [t|e]; [|now left].
  destruct (push_appends (undo_stack s) t); [|now left].
  right. exists t. cbn. rewrite U. unfold pushed. cbn.
  destruct (2 >? max_undo_steps s)%Z eqn:G; [|reflexivity].
  rewrite Z.gtb_ltb in G. apply Z.ltb_lt in G. lia.
Qed.

Lemma _handle_cell_changed_one row column new_text s (t0 : token) :
  undo_stack s = [t0] -> (2 <= max_undo_steps s)%Z ->
  undo_stack (exec (_handle_cell_changed row column new_text) s) = [t0]
  \/ exists t,
       undo_stack (exec (_handle_cell_changed row column new_text) s)
       = [t0; t].
Proof.
  intros U M.
  destruct (_handle_cell_changed_undo_stack row column new_text s)
    as [->| ->]; [now left|].
  now apply push_state_effect_one.
Qed.

(** X16. After a dataset has been loaded and two cells have been edited,
    an [undo] that returns [True] leaves the dataset read back from the
    state that was loaded: the two edits are undone together. *)
Theorem second_edit_undo_discards_both (dataframe : DataFrame)
  (row1 column1 : nat) (text1 : string) (row2 column2 : nat)
  (text2 : string) (t0 : token) :
  to_json dataframe = Returned t0 ->
  let loaded := exec (load_new_sheet dataframe) __init__ in
  let edited1 := exec (_handle_cell_changed row1 column1 text1) loaded in
  let edited2 := exec (_handle_cell_changed row2 column2 text2) edited1 in
  result undo edited2 = Returned true ->
  df (exec undo edited2) = read_json t0
  /\ undo_stack (exec undo edited2) = [t0].
Proof.
  intros E. cbv zeta.
  set (loaded := exec (load_new_sheet dataframe) __init__).
  assert (undo_stack loaded = [t0] /\ df loaded = dataframe
          /\ max_undo_steps loaded = 50%Z) as (U0 & D0 & M0).
  { unfold loaded, exec. rewrite load_new_sheet_eq. cbn [snd].
    apply (load_effect_stack dataframe __init__ t0 E). cbn. lia. }
  set (edited1 := exec (_handle_cell_changed row1 column1 text1) loaded).
  assert (undo_stack edited1 = [t0]) as U1.
  { unfold edited1.
    destruct (_handle_cell_changed_undo_stack row1 column1 text1 loaded)
      as [->| ->]; [exact U0|].
    apply push_state_effect_same; [now rewrite D0|exact U0]. }
  assert (max_undo_steps edited1 = 50%Z) as M1
    by (unfold edited1; now rewrite _handle_cell_changed_max).
  destruct (_handle_cell_changed_one row2 column2 text2 edited1 t0 U1)
    as [U2|[t U2]]; [lia| |];
    unfold result, exec in *; rewrite undo_eq;
    unfold undo_effect; rewrite U2; cbn [rev app].
  - discriminate.
  - intros _. rewrite and_true_state, refreshed_df, refreshed_undo_stack.
    cbn. auto.
Qed.

End TwoEdits.

Lemma cell_edit_writes_labelled_row_witness :
  let s :=
    exec (lib := Ref.lib)
      (apply_filters_and_sort None None (Some "Preis") (Some "num_asc"))
      (exec (lib := Ref.lib) (load_new_sheet inventory) __init__) in
  let s' := exec (_handle_cell_changed 0 0 "Funkmaus") s in
  result (_handle_cell_changed 0 0 "Funkmaus") s = Returned tt
  /\ rows (df s') = overwrite 1 0 "Funkmaus" (rows (df s))
  /\ columns (df s') = columns (df s)
  /\ index (df s') = index (df s)
  /\ _current_view_df s' = _current_view_df s
  /\ criteria s' = criteria s
  /\ undo_stack s' = undo_stack (exec push_state s)
  /\ redo_stack s' = redo_stack (exec push_state s).
Proof.
  intros s.
  apply (cell_edit_writes_labelled_row (lib := Ref.lib) 0 0 "Funkmaus" s 1%Z).
  - vm_compute. repeat constructor; cbn; intuition discriminate.
  - reflexivity.
  - vm_compute. lia.
Defined.

Lemma cell_edit_out_of_range_witness :
  let s := exec (lib := Ref.lib) (load_new_sheet inventory) __init__ in
  let s' := exec (_handle_cell_changed 3 0 "Kabel") s in
  result (_handle_cell_changed 3 0 "Kabel") s = Returned tt
  /\ df s' = df s
  /\ _current_view_df s' = _current_view_df s
  /\ criteria s' = criteria s
  /\ undo_stack s' = undo_stack s
  /\ redo_stack s' = redo_stack s
  /\ stdout s'
     = stdout s ++ [("Warnung: Änderung in Zeile " ++ str_nat 3
                     ++ " konnte nicht zugeordnet werden.")%string].
Proof.
  intros s.
  apply (cell_edit_out_of_range (lib := Ref.lib) 3 0 "Kabel" s).
  left. vm_compute. lia.
Defined.

Lemma second_edit_undo_discards_both_witness :
  let loaded := exec (lib := Ref.lib) (load_new_sheet inventory) __init__ in
  let edited1 := exec (_handle_cell_changed 1 0 "Trackball") loaded in
  let edited2 := exec (_handle_cell_changed 1 1 "30") edited1 in
  df (exec undo edited2) = inventory
  /\ undo_stack (exec undo edited2) = [inventory].
Proof.
  apply (second_edit_undo_discards_both (lib := Ref.lib) inventory
           1 0 "Trackball" 1 1 "30" inventory); reflexivity.
Defined.

(** ** The window: searching the view (main_window.py) *)

(** [enumerate(l)] *)
Definition enumerate {A} (l : list A) : list (nat * A) :=
  combine (seq 0 (List.length l)) l.

Lemma lstrip_blank text :
  Str.forallb Str.is_space text = true -> Str.lstrip text = "".
Proof.
  induction text as [|c t IH]; [reflexivity|].
  cbn. intros B. apply andb_true_iff in B as [Bc Bt].
  rewrite Bc. now apply IH.
Qed.

Section Search.

Context {lib : Pandas}.

(** The hits of one row: the positions of the cells whose text holds
    [text]. *)
Definition row_hits (text : string) (r_idx : nat) (r : row)
  : list (nat * nat) :=
  flat_map
    (fun cv => if Str.contains text (Str.lower (py_str (snd cv)))
               then [(r_idx, fst cv)] else [])
    (enumerate (snd r)).

(** [MainWindow._handle_search]: the list [self.search_hits] it leaves,
    for the text of the search field and the view of [self.logic]. *)
Definition _handle_search (text : string) (df_view : DataFrame)
  : list (nat * nat) :=
  let text := Str.lower (Str.strip text) in
  if negb (Str.truthy text) then []
  else
    flat_map (fun ir => row_hits text (fst ir) (snd ir))
      (enumerate (rows df_view)).

Lemma in_enumerate {A} (l : list A) i x :
  In (i, x) (enumerate l) <-> nth_error l i = Some x.
Proof.
  unfold enumerate.
  assert (forall k, In (i, x) (combine (seq k (List.length l)) l)
                    <-> k <= i /\ nth_error l (i - k) = Some x) as G.
  { induction l as [|y l IH]; intros k; cbn.
    - split; [contradiction|]. intros [_ H]. now destruct (i - k).
    - rewrite IH. split.
      + intros [[= <- <-]|[L H]].
        * split; [lia|]. now rewrite Nat.sub_diag.
        * split; [lia|]. replace (i - k) with (S (i - S k)) by lia. exact H.
      + intros [L H]. destruct (i - k) as [|m] eqn:M.
        * left. cbn in H. injection H as ->. f_equal. lia.
        * right. split; [lia|]. cbn in H. now replace (i - S k) with m by lia. }
  rewrite G, Nat.sub_0_r. intuition lia.
Qed.

Lemma in_row_hits text r_idx r h :
  In h (row_hits text r_idx r)
  <-> exists c v, h = (r_idx, c) /\ nth_error (snd r) c = Some v
                  /\ Str.contains text (Str.lower (py_str v)) = true.
Proof.
  unfold row_hits. rewrite in_flat_map. split.
  - intros [[c v] [I H]]. apply in_enumerate in I. cbn in H.
    destruct (Str.contains _ _) eqn:C; [|contradiction].
    destruct H as [<-|[]]. now exists c, v.
  - intros (c & v & -> & N & C). exists (c, v).
    split; [now apply in_enumerate|]. cbn. rewrite C. now left.
Qed.

Lemma in_handle_search (text : string) (df_view : DataFrame)
  (r_idx c_idx : nat) :
  In (r_idx, c_idx) (_handle_search text df_view)
  <-> Str.truthy (Str.lower (Str.strip text)) = true
      /\ exists r v,
           nth_error (rows df_view) r_idx = Some r
           /\ nth_error (snd r) c_idx = Some v
           /\ Str.contains (Str.lower (Str.strip text))
                (Str.lower (py_str v)) = true.
Proof.
  unfold _handle_search.
  destruct (Str.truthy (Str.lower (Str.strip text))); cbn [negb].
  - rewrite in_flat_map. split.
    + intros [[i r] [I H]]. apply in_enumerate in I. cbn in H.
      apply in_row_hits in H as (c & v & [= -> ->] & N & C).
      split; [reflexivity|]. now exists r, v.
    + intros [_ (r & v & R & N & C)]. exists (r_idx, r).
      split; [now apply in_enumerate|]. cbn.
      apply in_row_hits. now exists c_idx, v.
  - split; [contradiction|]. now intros [? _].
Qed.

(** X17. The search leaves a hit for a cell of the view exactly when the
    text of the cell, in lower case, holds the text searched for, itself
    in lower case and without the blanks around it; every hit lies within
    the view, and a text of blanks alone leaves no hit. *)
Theorem search_hits_exact (text : string) (df_view : DataFrame)
  (r_idx c_idx : nat) :
  (In (r_idx, c_idx) (_handle_search text df_view)
   <-> Str.truthy (Str.lower (Str.strip text)) = true
       /\ exists r v,
            nth_error (rows df_view) r_idx = Some r
            /\ nth_error (snd r) c_idx = Some v
            /\ Str.contains (Str.lower (Str.strip text))
                 (Str.lower (py_str v)) = true)
  /\ (In (r_idx, c_idx) (_handle_search text df_view) ->
      r_idx < List.length (rows df_view)
      /\ exists r, nth_error (rows df_view) r_idx = Some r
                   /\ c_idx < List.length (snd r))
  /\ (Str.forallb Str.is_space text = true ->
      _handle_search text df_view = []).
Proof.
  split; [apply in_handle_search|]. split.
  - intros H. apply in_handle_search in H as [_ (r & v & R & N & _)].
    split; [apply nth_error_Some; congruence|].
    exists r. split; [exact R|]. apply nth_error_Some. congruence.
  - intros B. unfold _handle_search.
    unfold Str.strip. now rewrite (lstrip_blank text B).
Qed.

Lemma existsb_nth_error {A} (f : A -> bool) (l : list A) :
  List.existsb f l = true -> exists c v, nth_error l c = Some v /\ f v = true.
Proof.
  induction l as [|x l IH]; cbn; [discriminate|].
  destruct (f x) eqn:F.
  - intros _. now exists 0, x.
  - cbn. intros H. destruct (IH H) as (c & v & N & V). now exists (S c), v.
Qed.

(** X18. Search and filter agree.  When a filter text without special
    characters has been applied to all columns, and the sort is not a
    numeric one, a search for the same text finds a hit in every row of
    the view. *)
Theorem search_finds_filtered_rows (d : DataFrame)
  (filter_col : option string) (filter_text : string)
  (sort_col sort_type : option string) (r_idx : nat) :
  active_column filter_col d = None ->
  Str.truthy (Str.lower (Str.strip filter_text)) = true ->
  Str.plain (Str.lower (Str.strip filter_text)) = true ->
  PyList.mem sort_type ["num_asc"; "num_desc"] = false ->
  let view :=
    compute_view d (filter_col, filter_text, sort_col, sort_type) in
  r_idx < List.length (rows view) ->
  exists c_idx, In (r_idx, c_idx) (_handle_search filter_text view).
Proof.
  intros A T P N view L.
  destruct (nth_error (rows view) r_idx) as [r|] eqn:R;
    [|apply nth_error_None in R; lia].
  assert (In r (rows view)) as I by (eapply nth_error_In; eauto).
  unfold view, compute_view in I.
  destruct (empty d); [contradiction|].
  apply (Permutation_in _ (sort_step_text_rows _ _ _ N)) in I.
  assert (Str.truthy filter_text = true) as Tf.
  { destruct filter_text; [discriminate T|reflexivity]. }
  unfold filter_step in I. rewrite Tf, T in I. cbn [rows] in I.
  apply filter_In in I as [_ Mk].
  unfold filter_mask in Mk. rewrite A in Mk.
  apply existsb_nth_error in Mk as (c & v & Nc & C).
  cbn in C. rewrite (re_search_plain _ _ P) in C.
  exists c. apply in_handle_search. split; [exact T|]. now exists r, v.
Qed.

End Search.

Lemma search_finds_filtered_rows_witness :
  exists c_idx,
    In (1, c_idx)
      (_handle_search (lib := Ref.lib) " A "
         (compute_view (lib := Ref.lib) inventory
            (Some "", " A ", Some "Gegenstand", Some "za"))).
Proof.
  apply (search_finds_filtered_rows (lib := Ref.lib) inventory (Some "") " A "
           (Some "Gegenstand") (Some "za") 1); try reflexivity.
  vm_compute. lia.
Defined.

(** ** The window: the list of recent files (main_window.py) *)

(** The settings dictionary of the window, with the entries the program
    reads; an entry may be missing. *)
Record Settings : Type := mkSettings {
  recent_excel_files : option (list string);
  auto_save : option bool;
  last_excel_path : option string
}.

(** [l.remove(x)] for an [x] in [l]: the first [x] goes. *)
Fixpoint list_remove (x : string) (l : list string) : list string :=
  match l with
  | [] => []
  | y :: l' => if String.eqb y x then l' else y :: list_remove x l'
  end.

(** [x in l] *)
Definition list_contains (x : string) (l : list string) : bool :=
  List.existsb (String.eqb x) l.

(** [MainWindow._save_settings]: the dictionary it leaves in
    [self.settings], which is also what it writes to the settings file. *)
Definition _save_settings (excel_path : string) (settings : Settings)
  : Settings :=
  mkSettings (recent_excel_files settings) (auto_save settings)
    (Some excel_path).

(** [MainWindow._update_recent_files], on [self.settings] and
    [self.excel_path]. *)
Definition _update_recent_files (file_path : string) (excel_path : string)
  (settings : Settings) : Settings :=
  let recent :=
    match recent_excel_files settings with
    | Some l => l
    | None => []
    end in
  let recent :=
    if list_contains file_path recent then list_remove file_path recent
    else recent in
  let recent := file_path :: recent in
  _save_settings excel_path
    (mkSettings (Some (firstn 10 recent)) (auto_save settings)
       (last_excel_path settings)).

(** The list of recent files of a dictionary, empty when there is none. *)
Definition recent_files (settings : Settings) : list string :=
  match recent_excel_files settings with
  | Some l => l
  | None => []
  end.

Lemma list_remove_filter x l :
  NoDup l ->
  list_remove x l = filter (fun y => negb (String.eqb y x)) l.
Proof.
  induction l as [|y l IH]; intros N; cbn; [reflexivity|].
  inversion N as [|? ? Ny N']; subst.
  destruct (String.eqb y x) eqn:E; cbn.
  - apply String.eqb_eq in E. subst.
    symmetry. apply forallb_filter_id. apply forallb_forall.
    intros z Hz. apply negb_true_iff. apply String.eqb_neq.
    intros ->. contradiction.
  - now rewrite IH.
Qed.

Lemma list_contains_false x l :
  list_contains x l = false ->
  filter (fun y => negb (String.eqb y x)) l = l.
Proof.
  unfold list_contains. intros H.
  apply forallb_filter_id. apply forallb_forall. intros z Hz.
  apply negb_true_iff. apply String.eqb_neq. intros ->.
  assert (List.existsb (String.eqb x) l = true) as C
    by (apply existsb_exists; exists x; split;
        [exact Hz|apply String.eqb_refl]).
  congruence.
Qed.

Lemma NoDup_firstn {A} n (l : list A) : NoDup l -> NoDup (firstn n l).
Proof.
  intros N. rewrite <- (firstn_skipn n l) in N.
  now apply NoDup_app_remove_r in N.
Qed.

(** X19. After a file has been opened it is the first of the recent
    files; the files that were in the list follow in the order they had,
    the opened file not among them a second time, and the list is cut
    after ten entries.  A list without repetitions stays without. *)
Theorem recent_files_updated (file_path excel_path : string)
  (settings : Settings) :
  NoDup (recent_files settings) ->
  let settings' := _update_recent_files file_path excel_path settings in
  recent_files settings'
  = firstn 10
      (file_path
       :: filter (fun y => negb (String.eqb y file_path))
            (recent_files settings))
  /\ NoDup (recent_files settings')
  /\ List.length (recent_files settings') <= 10
  /\ last_excel_path settings' = Some excel_path
  /\ auto_save settings' = auto_save settings.
Proof.
  intros N. cbv zeta.
  unfold _update_recent_files, _save_settings, recent_files in *.
  cbn [recent_excel_files last_excel_path auto_save].
  set (recent := match recent_excel_files settings with
                 | Some l => l
                 | None => []
                 end) in *.
  assert ((if list_contains file_path recent
           then list_remove file_path recent else recent)
          = filter (fun y => negb (String.eqb y file_path)) recent) as ->.
  { destruct (list_contains file_path recent) eqn:C.
    - now apply list_remove_filter.
    - symmetry. now apply list_contains_false. }
  repeat split.
  - apply NoDup_firstn. constructor.
    + rewrite filter_In. intros [_ H].
      now rewrite String.eqb_refl in H.
    + now apply NoDup_filter.
  - apply firstn_le_length.
Qed.

Lemma recent_files_updated_witness :
  let settings :=
    mkSettings (Some ["a.xlsx"; "b.xlsx"; "c.xlsx"]) (Some false) None in
  let settings' := _update_recent_files "c.xlsx" "c.xlsx" settings in
  recent_files settings'
  = firstn 10
      ("c.xlsx"
       :: filter (fun y => negb (String.eqb y "c.xlsx"))
            (recent_files settings))
  /\ NoDup (recent_files settings')
  /\ List.length (recent_files settings') <= 10
  /\ last_excel_path settings' = Some "c.xlsx"
  /\ auto_save settings' = auto_save settings.
Proof.
  intros settings.
  apply (recent_files_updated "c.xlsx" "c.xlsx" settings).
  cbn. repeat constructor; cbn; intuition discriminate.
Defined.

(** ** The filter dialog (dialogs.py) and its use by the window *)

(** A combo box: its items, each a text with the data attached to it, if
    any, and the position of the current item. *)
Record QComboBox : Type := mkQComboBox {
  items : list (string * option string);
  currentIndex : nat
}.

Definition addItem (text : string) (data : option string) (cb : QComboBox)
  : QComboBox :=
  mkQComboBox (items cb ++ [(text, data)]) (currentIndex cb).

Definition addItems (texts : list string) (cb : QComboBox) : QComboBox :=
  mkQComboBox (items cb ++ map (fun t => (t, None)) texts) (currentIndex cb).

Definition currentText (cb : QComboBox) : string :=
  match nth_error (items cb) (currentIndex cb) with
  | Some (text, _) => text
  | None => ""
  end.

Definition currentData (cb : QComboBox) : option string :=
  match nth_error (items cb) (currentIndex cb) with
  | Some (_, data) => data
  | None => None
  end.

(** [a or b] for a string [a] that may be [None]. *)
Definition py_or (a : option string) (b : string) : string :=
  match a with
  | Some x => if Str.truthy x then x else b
  | None => b
  end.

(** [d.get(key)] for a dictionary given as its list of items. *)
Fixpoint dict_get (d : list (string * string)) (key : string)
  : option string :=
  match d with
  | [] => None
  | (k, v) :: d' => if String.eqb k key then Some v else dict_get d' key
  end.

Record FilterDialog : Type := mkFilterDialog {
  filter_column_name : option string;
  filter_text : string;
  sort_column_name : option string;
  sort_type : option string;
  filter_column_combo : QComboBox;
  filter_text_input : string;
  sort_column_combo : QComboBox;
  sort_type_combo : QComboBox
}.

(** [FilterDialog(column_names)] *)
Definition FilterDialog_init (column_names : list string) : FilterDialog :=
  mkFilterDialog None "" None None
    (addItems column_names
       (addItem "Alle Spalten" (Some "") (mkQComboBox [] 0)))
    ""
    (addItems column_names (addItem "Keine" (Some "") (mkQComboBox [] 0)))
    (addItems
       ["Aufsteigend (A-Z)"; "Absteigend (Z-A)";
        "Numerisch aufsteigend (0-9)"; "Numerisch absteigend (9-0)"]
       (mkQComboBox [] 0)).

Definition sort_map : list (string * string) :=
  [("Aufsteigend (A-Z)", "az"); ("Absteigend (Z-A)", "za");
   ("Numerisch aufsteigend (0-9)", "num_asc");
   ("Numerisch absteigend (9-0)", "num_desc")].

(** [FilterDialog.apply_and_accept] *)
Definition apply_and_accept (self : FilterDialog) : FilterDialog :=
  let filter_column_name :=
    py_or (currentData (filter_column_combo self))
      (currentText (filter_column_combo self)) in
  let filter_column_name :=
    if String.eqb filter_column_name "Alle Spalten" then ""
    else filter_column_name in
  let filter_text := Str.strip (filter_text_input self) in
  let sort_column_name :=
    py_or (currentData (sort_column_combo self))
      (currentText (sort_column_combo self)) in
  let sort_column_name :=
    if String.eqb sort_column_name "Keine" then "" else sort_column_name in
  let sort_type := dict_get sort_map (currentText (sort_type_combo self)) in
  mkFilterDialog (Some filter_column_name) filter_text
    (Some sort_column_name) sort_type
    (filter_column_combo self) (filter_text_input self)
    (sort_column_combo self) (sort_type_combo self).

(** What the user does with the dialog: the items picked in the three
    combo boxes, the text typed, and the button pressed at the end,
    "Anwenden" or "Abbrechen". *)
Record Choice : Type := mkChoice {
  picked_filter_column : nat;
  typed_text : string;
  picked_sort_column : nat;
  picked_sort_type : nat;
  pressed_apply : bool
}.

Definition pick (i : nat) (cb : QComboBox) : QComboBox :=
  if i <? List.length (items cb) then mkQComboBox (items cb) i else cb.

Definition user_input (c : Choice) (dialog : FilterDialog) : FilterDialog :=
  mkFilterDialog (filter_column_name dialog) (filter_text dialog)
    (sort_column_name dialog) (sort_type dialog)
    (pick (picked_filter_column c) (filter_column_combo dialog))
    (typed_text c)
    (pick (picked_sort_column c) (sort_column_combo dialog))
    (pick (picked_sort_type c) (sort_type_combo dialog)).

(** ** Filling the table (main_window.py) *)

(** main_window.py uses the name [pd] and has no import that binds it:
    evaluating [pd], in whatever expression, raises NameError. *)
Definition NameError_pd : exn := "NameError: name 'pd' is not defined".

(** [pd.DataFrame()] and [pd.isna(value)] as main_window.py has them. *)
Definition pd_DataFrame : outcome DataFrame := Raised NameError_pd.
Definition pd_isna (v : value) : outcome bool := Raised NameError_pd.

(** Whether a view has a cell: a row with a value in it. *)
Definition has_cell (view : DataFrame) : bool :=
  List.existsb (fun r => match snd r with [] => false | _ => true end)
    (rows view).

Section TableView.

Context {lib : Pandas}.

(** [for x in l: body(x)] *)
Fixpoint for_each {A} (l : list A) (body : A -> M unit) : M unit :=
  match l with
  | [] => ret tt
  | x :: l' => body x ;; for_each l' body
  end.

(** [MainWindow._update_table_view], on [self.logic]: the loop over the
    cells of the view, each of which is tested with [pd.isna] before its
    text is put into the table.  The table widget and the highlights of
    the search, which the method sets at its end, are no part of the
    state. *)
Definition _update_table_view : M unit :=
  df_view <- get_current_view ;;
  for_each (rows df_view)
    (fun r =>
       for_each (snd r)
         (fun value =>
            isna <- call (pd_isna value) ;;
            let item_text := if isna then "" else py_str value in
            ret tt)).

Lemma for_each_ret {A} (l : list A) s :
  for_each l (fun _ => ret tt) s = (Returned tt, s).
Proof. induction l as [|x l IH]; [reflexivity|]. cbn. unfold bind. exact IH. Qed.

Lemma _update_table_view_eq s :
  _update_table_view s
  = (if has_cell (_current_view_df s) then Raised NameError_pd
     else Returned tt, s).
Proof.
  unfold _update_table_view, get_current_view, has_cell, bind, get, ret.
  induction (rows (_current_view_df s)) as [|r rs IH]; [reflexivity|].
  cbn [for_each List.existsb]. unfold bind.
  destruct (snd r) as [|v vs]; [exact IH|reflexivity].
Qed.

End TableView.

Section ShowFilterDialog.

Context {lib : Pandas}.

(** [MainWindow._show_filter_dialog], on [self.logic]. *)
Definition _show_filter_dialog (c : Choice) : M unit :=
  self <- get ;;
  if empty (df self) then ret tt
  else
    let dialog := FilterDialog_init (columns (df self)) in
    let dialog := user_input c dialog in
    if pressed_apply c then
      let dialog := apply_and_accept dialog in
      apply_filters_and_sort (filter_column_name dialog)
        (Some (filter_text dialog)) (sort_column_name dialog)
        (sort_type dialog) ;;
      _update_table_view
    else ret tt.

(** The column that item [i] of a column combo box stands for: none for
    the first item, which is [first], and none for a column that has the
    name of the first item. *)
Definition column_picked (first : string) (column_names : list string)
  (i : nat) : string :=
  match i with
  | O => ""
  | S k =>
      let c := nth k column_names "" in
      if String.eqb c first then "" else c
  end.

Definition sort_type_picked (i : nat) : string :=
  nth i ["az"; "za"; "num_asc"; "num_desc"] "".

Lemma column_combo_picked first column_names i :
  i <= List.length column_names ->
  let cb :=
    pick i (addItems column_names (addItem first (Some "") (mkQComboBox [] 0)))
  in
  (if String.eqb (py_or (currentData cb) (currentText cb)) first then ""
   else py_or (currentData cb) (currentText cb))
  = column_picked first column_names i.
Proof.
  intros L. cbv zeta. unfold pick, addItems, addItem. cbn [items currentIndex].
  cbn [app List.length]. rewrite length_map.
  destruct (i <? S (List.length column_names)) eqn:B;
    [|apply Nat.ltb_ge in B; lia].
  unfold currentData, currentText. cbn [items currentIndex].
  destruct i as [|k]; cbn [nth_error py_or Str.truthy column_picked].
  - now rewrite String.eqb_refl.
  - rewrite nth_error_map.
    destruct (nth_error column_names k) as [c|] eqn:N.
    + cbn. now rewrite (nth_error_nth _ _ "" N).
    + apply nth_error_None in N. lia.
Qed.

Lemma sort_type_combo_picked i :
  i < 4 ->
  dict_get sort_map
    (currentText
       (pick i
          (addItems
             ["Aufsteigend (A-Z)"; "Absteigend (Z-A)";
              "Numerisch aufsteigend (0-9)"; "Numerisch absteigend (9-0)"]
             (mkQComboBox [] 0))))
  = Some (sort_type_picked i).
Proof. destruct i as [|[|[|[|k]]]]; try reflexivity. lia. Qed.

(** What the dialog hands to [apply_filters_and_sort]. *)
Lemma _show_filter_dialog_eq (c : Choice) (s : AppLogic) :
  empty (df s) = false ->
  pressed_apply c = true ->
  picked_filter_column c <= List.length (columns (df s)) ->
  picked_sort_column c <= List.length (columns (df s)) ->
  picked_sort_type c < 4 ->
  _show_filter_dialog c s
  = (apply_filters_and_sort
       (Some (column_picked "Alle Spalten" (columns (df s))
                (picked_filter_column c)))
       (Some (Str.strip (typed_text c)))
       (Some (column_picked "Keine" (columns (df s)) (picked_sort_column c)))
       (Some (sort_type_picked (picked_sort_type c))) ;;
     _update_table_view) s.
Proof.
  intros E A F S T.
  unfold _show_filter_dialog, bind at 1, get. rewrite E, A.
  unfold apply_and_accept, user_input, FilterDialog_init.
  cbn [filter_column_name filter_text sort_column_name sort_type
       filter_column_combo filter_text_input sort_column_combo
       sort_type_combo].
  now rewrite (column_combo_picked "Alle Spalten" _ _ F),
    (column_combo_picked "Keine" _ _ S), (sort_type_combo_picked _ T).
Qed.

(** X20. When the filter dialog is closed with "Anwenden" on a dataset
    that is not empty, all four criteria are replaced by what was picked,
    none keeps the value it had; the dataset and the stacks are not
    touched.  The first item of either column box stands for no column,
    and so does a column that has the name of that item, "Alle Spalten"
    or "Keine".  Where the text typed is no regular expression, the call
    raises the error of the pattern and the view stays as it was.
    Otherwise the view is computed under the new criteria, and the call
    goes on to fill the table: it returns where the view has no cell, and
    raises NameError where it has one, [pd] not being bound in
    main_window.py. *)
Theorem filter_dialog_replaces_criteria (c : Choice) (s : AppLogic) :
  empty (df s) = false ->
  pressed_apply c = true ->
  picked_filter_column c <= List.length (columns (df s)) ->
  picked_sort_column c <= List.length (columns (df s)) ->
  picked_sort_type c < 4 ->
  let s' := exec (_show_filter_dialog c) s in
  criteria s'
  = (Some (column_picked "Alle Spalten" (columns (df s))
             (picked_filter_column c)),
     Str.strip (typed_text c),
     Some (column_picked "Keine" (columns (df s)) (picked_sort_column c)),
     Some (sort_type_picked (picked_sort_type c)))
  /\ df s' = df s
  /\ undo_stack s' = undo_stack s
  /\ redo_stack s' = redo_stack s
  /\ match filter_error (Str.strip (typed_text c)) with
     | Some e =>
         result (_show_filter_dialog c) s = Raised e
         /\ _current_view_df s' = _current_view_df s
     | None =>
         _current_view_df s' = compute_view (df s) (criteria s')
         /\ result (_show_filter_dialog c) s
            = if has_cell (_current_view_df s') then Raised NameError_pd
              else Returned tt
     end.
Proof.
  intros E A F S T. cbv zeta. unfold exec, result.
  rewrite (_show_filter_dialog_eq c s E A F S T).
  unfold bind. rewrite apply_filters_and_sort_eq.
  unfold refreshed, view_error.
  cbn [df _active_filter_text update_criteria or_else]. rewrite E.
  destruct (filter_error (Str.strip (typed_text c))) as [e|].
  - cbn. repeat split.
  - rewrite _update_table_view_eq.
    unfold refresh, update_criteria, criteria; cbn -[compute_view has_cell].
    repeat split.
Qed.

End ShowFilterDialog.

(** A stock list with a column that has the name of the first item of the
    filter column box. *)
Definition all_columns_named : DataFrame :=
  mkDataFrame ["Gegenstand"; "Alle Spalten"]
    [(0%Z, [VStr "Laptop"; VStr "x"]); (1%Z, [VStr "Maus"; VStr "Laptop"])].

Lemma filter_dialog_replaces_criteria_witness :
  let s := exec (lib := Ref.lib) (load_new_sheet all_columns_named) __init__ in
  let c := mkChoice 2 " laptop " 0 1 true in
  let s' := exec (_show_filter_dialog c) s in
  criteria s' = (Some "", "laptop", Some "", Some "za")
  /\ df s' = df s
  /\ undo_stack s' = undo_stack s
  /\ redo_stack s' = redo_stack s
  /\ _current_view_df s' = compute_view (lib := Ref.lib) (df s) (criteria s')
  /\ result (_show_filter_dialog c) s = Raised NameError_pd.
Proof.
  intros s c.
  destruct (filter_dialog_replaces_criteria (lib := Ref.lib) c s)
    as (C & D & U & R & V); try reflexivity; try (vm_compute; lia).
  change (filter_error (lib := Ref.lib) (Str.strip (typed_text c)))
    with (@None exn) in V.
  destruct V as [V O].
  repeat split; assumption.
Defined.

(** ** Copying the selected cells (ui_helpers.py) *)

(** [sep.join(l)] *)
Fixpoint join (sep : string) (l : list string) : string :=
  match l with
  | [] => ""
  | [x] => x
  | x :: l' => x ++ sep ++ join sep l'
  end.

(** [s.split(sep)] for a separator of one character. *)
Fixpoint split (sep : ascii) (s : string) : list string :=
  match s with
  | EmptyString => [EmptyString]
  | String c s' =>
      if Ascii.eqb c sep then EmptyString :: split sep s'
      else
        match split sep s' with
        | [] => [String c EmptyString]
        | x :: xs => String c x :: xs
        end
  end.

Record QTableWidgetSelectionRange : Type := mkRange {
  topRow : nat;
  bottomRow : nat;
  leftColumn : nat;
  rightColumn : nat
}.

Record QTableWidgetItem : Type := mkItem {
  text : string;
  isSelected : bool
}.

(** A table: its items, where there are any, and the selected ranges. *)
Record QTableWidget : Type := mkTable {
  item : nat -> nat -> option QTableWidgetItem;
  selectedRanges : list QTableWidgetSelectionRange
}.

(** [min] and [max] over a list that is not empty. *)
Definition min_of (x : nat) (l : list nat) : nat := fold_left Nat.min l x.
Definition max_of (x : nat) (l : list nat) : nat := fold_left Nat.max l x.

(** [range(a, b + 1)] *)
Definition range_incl (a b : nat) : list nat := seq a (b + 1 - a).

(** The text that is copied for the cell in row [r] and column [c]. *)
Definition cell_text (table_widget : QTableWidget) (r c : nat) : string :=
  match item table_widget r c with
  | Some it => if isSelected it then text it else ""
  | None => ""
  end.

(** [kopiere_markierte_zellen]: the text it puts on the clipboard, [None]
    when it leaves the clipboard alone. *)
Definition kopiere_markierte_zellen (table_widget : QTableWidget)
  : option string :=
  match selectedRanges table_widget with
  | [] => None
  | r0 :: rs =>
      let top := min_of (topRow r0) (map topRow rs) in
      let bottom := max_of (bottomRow r0) (map bottomRow rs) in
      let left := min_of (leftColumn r0) (map leftColumn rs) in
      let right := max_of (rightColumn r0) (map rightColumn rs) in
      let output_rows :=
        map (fun r =>
               join (String "009"%char "")
                 (map (cell_text table_widget r) (range_incl left right)))
          (range_incl top bottom) in
      match output_rows with
      | [] => None
      | _ => Some (join (String "010"%char "") output_rows)
      end
  end.

(** A string without the character [sep]. *)
Definition free_of (sep : ascii) (s : string) : Prop :=
  Str.existsb (Ascii.eqb sep) s = false.

Lemma split_free sep s : free_of sep s -> split sep s = [s].
Proof.
  unfold free_of. induction s as [|c s IH]; cbn; [reflexivity|].
  intros H. apply orb_false_iff in H as [Hc Hs].
  rewrite Ascii.eqb_sym, Hc. now rewrite (IH Hs).
Qed.

Lemma split_app sep x rest :
  free_of sep x ->
  split sep (x ++ String sep rest)%string = x :: split sep rest.
Proof.
  unfold free_of. induction x as [|c x IH]; cbn.
  - intros _. now rewrite Ascii.eqb_refl.
  - intros H. apply orb_false_iff in H as [Hc Hx].
    rewrite Ascii.eqb_sym, Hc. now rewrite (IH Hx).
Qed.

Lemma split_join sep l :
  l <> [] -> Forall (free_of sep) l ->
  split sep (join (String sep "") l) = l.
Proof.
  induction l as [|x l IH]; [contradiction|]. intros _ F.
  inversion F as [|? ? Fx Fl]; subst.
  destruct l as [|y l].
  - now apply split_free.
  - change (join (String sep "") (x :: y :: l))
      with (x ++ String sep (join (String sep "") (y :: l)))%string.
    rewrite split_app by exact Fx. f_equal. now apply IH.
Qed.

Lemma free_of_join sep sep' l :
  sep <> sep' -> Forall (free_of sep) l ->
  free_of sep (join (String sep' "") l).
Proof.
  intros N. unfold free_of.
  assert (forall a b, Str.existsb (Ascii.eqb sep) (a ++ b)%string
                      = Str.existsb (Ascii.eqb sep) a
                        || Str.existsb (Ascii.eqb sep) b) as A.
  { induction a as [|c a IHa]; intros b; cbn; [reflexivity|].
    now rewrite IHa, orb_assoc. }
  induction l as [|x l IH]; intros F; [reflexivity|].
  inversion F as [|? ? Fx Fl]; subst.
  destruct l as [|y l]; [exact Fx|].
  change (join (String sep' "") (x :: y :: l))
    with (x ++ String sep' (join (String sep' "") (y :: l)))%string.
  rewrite A. cbn [Str.existsb]. unfold free_of in Fx. rewrite Fx, (IH Fl).
  apply Ascii.eqb_neq in N. now rewrite N.
Qed.

Lemma min_of_le x l : min_of x l <= x.
Proof.
  unfold min_of. revert x. induction l as [|y l IH]; intros x; cbn; [lia|].
  specialize (IH (Nat.min x y)). lia.
Qed.

Lemma max_of_ge x l : x <= max_of x l.
Proof.
  unfold max_of. revert x. induction l as [|y l IH]; intros x; cbn; [lia|].
  specialize (IH (Nat.max x y)). lia.
Qed.

(** The block of texts that is copied: one list for each row from [top]
    to [bottom], with one text for each column from [left] to [right]. *)
Definition copied_block (table_widget : QTableWidget)
  (top bottom left right : nat) : list (list string) :=
  map (fun r => map (cell_text table_widget r) (range_incl left right))
    (range_incl top bottom).

(** X21. With nothing selected the clipboard is left alone.  Otherwise
    the text copied holds the smallest block of rows and columns around
    all selected ranges: a line for each row, the lines parted by line
    feeds, and in each line, parted by tabs, a text for each column, empty
    for a cell that is not selected or has no item.  Unless a selected
    text itself holds a tab or a line feed, splitting the copied text at
    line feeds and tabs gives that block back. *)
Theorem copied_text_splits_into_block (table_widget : QTableWidget) :
  (selectedRanges table_widget = [] ->
   kopiere_markierte_zellen table_widget = None)
  /\ (forall r0 rs,
        selectedRanges table_widget = r0 :: rs ->
        topRow r0 <= bottomRow r0 -> leftColumn r0 <= rightColumn r0 ->
        let top := min_of (topRow r0) (map topRow rs) in
        let bottom := max_of (bottomRow r0) (map bottomRow rs) in
        let left := min_of (leftColumn r0) (map leftColumn rs) in
        let right := max_of (rightColumn r0) (map rightColumn rs) in
        let block := copied_block table_widget top bottom left right in
        let copied :=
          join (String "010"%char "")
            (map (join (String "009"%char "")) block) in
        kopiere_markierte_zellen table_widget = Some copied
        /\ List.length block = bottom - top + 1
        /\ Forall (fun line => List.length line = right - left + 1) block
        /\ ((forall r c, free_of "009"%char (cell_text table_widget r c)
                         /\ free_of "010"%char (cell_text table_widget r c)) ->
            map (split "009"%char) (split "010"%char copied) = block)).
Proof.
  split.
  { intros S. unfold kopiere_markierte_zellen. now rewrite S. }
  intros r0 rs S V H top bottom left right block copied.
  assert (top <= bottom) as TB.
  { pose proof (min_of_le (topRow r0) (map topRow rs)).
    pose proof (max_of_ge (bottomRow r0) (map bottomRow rs)).
    unfold top, bottom. lia. }
  assert (left <= right) as LR.
  { pose proof (min_of_le (leftColumn r0) (map leftColumn rs)).
    pose proof (max_of_ge (rightColumn r0) (map rightColumn rs)).
    unfold left, right. lia. }
  assert (range_incl top bottom <> []) as NR.
  { unfold range_incl. destruct (bottom + 1 - top) eqn:E; [lia|discriminate]. }
  assert (range_incl left right <> []) as NC.
  { unfold range_incl. destruct (right + 1 - left) eqn:E; [lia|discriminate]. }
  assert (map (join (String "009"%char "")) block <> []) as NO.
  { unfold block, copied_block.
    destruct (range_incl top bottom); [contradiction|discriminate]. }
  split; [|split; [|split]].
  - unfold kopiere_markierte_zellen. rewrite S.
    fold top bottom left right.
    assert (map (fun r =>
                   join (String "009"%char "")
                     (map (cell_text table_widget r) (range_incl left right)))
              (range_incl top bottom)
            = map (join (String "009"%char "")) block) as ->
      by (unfold block, copied_block; now rewrite map_map).
    fold copied.
    now destruct (map (join (String "009"%char "")) block).
  - unfold block, copied_block, range_incl.
    rewrite length_map, length_seq. lia.
  - unfold block, copied_block. apply Forall_forall. intros line Hl.
    apply in_map_iff in Hl. destruct Hl as [r [<- _]].
    unfold range_incl. rewrite length_map, length_seq. lia.
  - intros F. unfold copied. rewrite split_join; [|exact NO|].
    + rewrite map_map. unfold block, copied_block. rewrite !map_map.
      apply map_ext. intros r. apply split_join.
      * destruct (range_incl left right); [contradiction|discriminate].
      * apply Forall_forall. intros x Hx. apply in_map_iff in Hx.
        destruct Hx as [c [<- _]]. apply F.
    + apply Forall_forall. intros x Hx.
      apply in_map_iff in Hx. destruct Hx as [line [<- Hl]].
      apply free_of_join; [discriminate|].
      unfold block, copied_block in Hl. apply in_map_iff in Hl.
      destruct Hl as [r [<- _]].
      apply Forall_forall. intros y Hy. apply in_map_iff in Hy.
      destruct Hy as [c [<- _]]. apply F.
Qed.

(** A table of two rows and three columns, the two outer cells of the
    upper row and the middle cell of the lower row selected. *)
Definition some_table : QTableWidget :=
  mkTable
    (fun r c =>
       match r, c with
       | 0, 0 => Some (mkItem "Laptop" true)
       | 0, 1 => Some (mkItem "IT" false)
       | 0, 2 => Some (mkItem "1200.5" true)
       | 1, 0 => Some (mkItem "Maus" false)
       | 1, 1 => Some (mkItem "IT" true)
       | _, _ => None
       end)
    [mkRange 0 0 0 0; mkRange 0 0 2 2; mkRange 1 1 1 1].

Lemma copied_text_splits_into_block_witness :
  let block := copied_block some_table 0 1 0 2 in
  kopiere_markierte_zellen some_table
  = Some (join (String "010"%char "")
            (map (join (String "009"%char "")) block))
  /\ block = [["Laptop"; ""; "1200.5"]; [""; "IT"; ""]]
  /\ map (split "009"%char)
       (split "010"%char
          (join (String "010"%char "")
             (map (join (String "009"%char "")) block)))
     = block
  /\ kopiere_markierte_zellen (mkTable (item some_table) []) = None.
Proof.
  intros block.
  destruct (copied_text_splits_into_block some_table) as [_ C].
  destruct (C (mkRange 0 0 0 0) [mkRange 0 0 2 2; mkRange 1 1 1 1] eq_refl)
    as (K & _ & _ & B); [cbn; lia|cbn; lia|].
  destruct (copied_text_splits_into_block (mkTable (item some_table) []))
    as [N _].
  split; [exact K|]. split; [reflexivity|]. split; [|now apply N].
  apply B. intros [|[|r]] [|[|[|c]]]; split; reflexivity.
Defined.

(** ** What the filter keeps *)

Section FilterExact.

Context {lib : Pandas}.

(** Whether row [r] of [d] holds [term], in the filter column when one is
    set and exists, in any column otherwise; upper and lower case in the
    cells count as the same. *)
Definition row_holds (filter_col : option string) (term : string)
  (d : DataFrame) (r : row) : bool :=
  match active_column filter_col d with
  | Some j => Str.contains term (Str.lower (py_str (cell j r)))
  | None =>
      List.existsb (fun v => Str.contains term (Str.lower (py_str v))) (snd r)
  end.

(** X22. For a filter text without special characters, and a sort that
    is not numeric, the rows of the view are exactly the rows of the
    dataset whose text in the filter column, or in any column when none
    is set, holds the filter text; upper and lower case make no
    difference, and a cell without a value counts as the text "nan" (NaN)
    or "none" (None). *)
Theorem filter_keeps_exactly (d : DataFrame) (filter_col : option string)
  (filter_text : string) (sort_col sort_type : option string) (r : row) :
  empty d = false ->
  Str.truthy (Str.lower (Str.strip filter_text)) = true ->
  Str.plain (Str.lower (Str.strip filter_text)) = true ->
  PyList.mem sort_type ["num_asc"; "num_desc"] = false ->
  In r (rows (compute_view d (filter_col, filter_text, sort_col, sort_type)))
  <-> In r (rows d)
      /\ row_holds filter_col (Str.lower (Str.strip filter_text)) d r = true.
Proof.
  intros E T P N. unfold compute_view. rewrite E.
  assert (Str.truthy filter_text = true) as Tf.
  { destruct filter_text; [discriminate T|reflexivity]. }
  assert (forall x,
             In x (rows (sort_step sort_col sort_type
                           (filter_step filter_col filter_text d)))
             <-> In x (rows (filter_step filter_col filter_text d))) as S.
  { intros x. split; apply Permutation_in;
      [|symmetry]; now apply sort_step_text_rows. }
  rewrite S. unfold filter_step. rewrite Tf, T. cbn [rows].
  rewrite filter_In. unfold filter_mask, row_holds.
  destruct (active_column filter_col d) as [j|].
  - cbn. now rewrite (re_search_plain _ _ P).
  - assert (List.existsb
              (fun v =>
                 str_contains (Str.lower (Str.strip filter_text)) false
                   (str_lower (astype_str v))) (snd r)
            = List.existsb
                (fun v =>
                   Str.contains (Str.lower (Str.strip filter_text))
                     (Str.lower (py_str v))) (snd r)) as ->; [|reflexivity].
    induction (snd r) as [|v l IH]; cbn [List.existsb]; [reflexivity|].
    rewrite IH. f_equal. cbn. now apply re_search_plain.
Qed.

(** X23. [load_new_sheet] does away with the history: after it neither
    [undo] nor [redo] returns [True], whatever the stacks held before and
    whatever the bound is. *)
Theorem load_new_sheet_discards_history (s : AppLogic)
  (dataframe : DataFrame) :
  result undo (exec (load_new_sheet dataframe) s) = Returned false
  /\ result redo (exec (load_new_sheet dataframe) s) = Returned false.
Proof.
  unfold result, exec. rewrite load_new_sheet_eq, undo_eq, redo_eq.
  cbn [fst snd].
  assert (List.length (undo_stack (load_effect dataframe s)) <= 1
          /\ redo_stack (load_effect dataframe s) = []) as [L R].
  { unfold load_effect, push_state_effect. cbn -[pushed].
    destruct (to_json dataframe) as [t|e]; [|cbn; split; [lia|reflexivity]].
    change (push_appends [] t) with true. cbn -[pushed].
    split; [|reflexivity]. unfold pushed.
    destruct (_ >? _)%Z; cbn; lia. }
  unfold undo_effect, redo_effect. rewrite R.
  rewrite <- length_rev in L.
  destruct (rev (undo_stack _)) as [|x [|y below]]; cbn in L; try lia;
    now split.
Qed.

End FilterExact.

Lemma filter_keeps_exactly_witness :
  In (2%Z, [VStr "Tastatur"; VNum (7599 # 100)])
    (rows (compute_view (lib := Ref.lib) inventory
             (None, " Tasta", Some "Gegenstand", Some "za")))
  <-> In (2%Z, [VStr "Tastatur"; VNum (7599 # 100)]) (rows inventory)
      /\ row_holds (lib := Ref.lib) None (Str.lower (Str.strip " Tasta"))
           inventory (2%Z, [VStr "Tastatur"; VNum (7599 # 100)]) = true.
Proof.
  apply (filter_keeps_exactly (lib := Ref.lib)); reflexivity.
Defined.

(** ** Removing a recent file (dialogs.py) *)

(** [RecentFilesDialog.remove_selected]: the list [self.recent_files] it
    leaves, for the file of the current item of the list, if there is
    one. *)
Definition remove_selected (current_item : option string)
  (recent : list string) : list string :=
  match current_item with
  | Some file_to_remove =>
      if list_contains file_to_remove recent
      then list_remove file_to_remove recent
      else recent
  | None => recent
  end.

(** X24. Removing the selected file from a list of recent files without
    repetitions leaves the other files, in their order, and the file is
    no longer in the list; with nothing selected, or a file that is not
    in the list, the list stays as it is. *)
Theorem remove_selected_removes (current_item : option string)
  (recent : list string) :
  NoDup recent ->
  match current_item with
  | Some file_to_remove =>
      remove_selected current_item recent
      = filter (fun y => negb (String.eqb y file_to_remove)) recent
      /\ ~ In file_to_remove (remove_selected current_item recent)
      /\ (~ In file_to_remove recent ->
          remove_selected current_item recent = recent)
  | None => remove_selected current_item recent = recent
  end.
Proof.
  intros N. destruct current_item as [f|]; [|reflexivity].
  unfold remove_selected.
  assert ((if list_contains f recent then list_remove f recent else recent)
          = filter (fun y => negb (String.eqb y f)) recent) as ->.
  { destruct (list_contains f recent) eqn:C.
    - now apply list_remove_filter.
    - symmetry. now apply list_contains_false. }
  repeat split.
  - rewrite filter_In. intros [_ H]. now rewrite String.eqb_refl in H.
  - intros NI. apply forallb_filter_id. apply forallb_forall.
    intros z Hz. apply negb_true_iff. apply String.eqb_neq.
    intros ->. contradiction.
Qed.

Lemma remove_selected_removes_witness :
  remove_selected (Some "b.xlsx") ["a.xlsx"; "b.xlsx"; "c.xlsx"]
  = filter (fun y => negb (String.eqb y "b.xlsx"))
      ["a.xlsx"; "b.xlsx"; "c.xlsx"]
  /\ ~ In "b.xlsx"
         (remove_selected (Some "b.xlsx") ["a.xlsx"; "b.xlsx"; "c.xlsx"])
  /\ (~ In "b.xlsx" ["a.xlsx"; "b.xlsx"; "c.xlsx"] ->
      remove_selected (Some "b.xlsx") ["a.xlsx"; "b.xlsx"; "c.xlsx"]
      = ["a.xlsx"; "b.xlsx"; "c.xlsx"]).
Proof.
  apply (remove_selected_removes (Some "b.xlsx")
           ["a.xlsx"; "b.xlsx"; "c.xlsx"]).
  repeat constructor; cbn; intuition discriminate.
Defined.

(** ** The window and its table (main_window.py) *)

Section Window.

Context {lib : Pandas}.

(** [MainWindow._handle_save] on [self.logic]; [written] is the outcome
    of [excel_handler.save_sheet]. *)
Definition _handle_save (current_sheet : string) (written : outcome unit)
  : M bool :=
  self <- get ;;
  if empty (df self) || negb (Str.truthy current_sheet) then ret false
  else
    match written with
    | Returned _ => push_state ;; ret true
    | Raised _ => ret false
    end.

(** [MainWindow.clear_all_data] on [self.logic]; the dataset it means to
    load is [pd.DataFrame()]. *)
Definition clear_all_data : M unit :=
  dataframe <- call pd_DataFrame ;;
  load_new_sheet dataframe ;;
  _update_table_view.

(** [MainWindow._load_current_sheet_data] on [self.logic]; [read] is the
    outcome of [excel_handler.load_sheet].  The handler shows the error
    and calls [clear_all_data]. *)
Definition _load_current_sheet_data (current_sheet : string)
  (read : outcome DataFrame) : M unit :=
  if negb (Str.truthy current_sheet) then ret tt
  else
    try_except
      (dataframe <- call read ;;
       load_new_sheet dataframe ;;
       _update_table_view)
      (fun e => clear_all_data).

(** [MainWindow._handle_undo] and [MainWindow._handle_redo] on
    [self.logic]. *)
Definition _handle_undo : M unit :=
  done <- undo ;;
  if done : bool then _update_table_view else ret tt.

Definition _handle_redo : M unit :=
  done <- redo ;;
  if done : bool then _update_table_view else ret tt.

(** What the user does in the window, with what the files give back. *)
Inductive action : Type :=
| ALoadSheet (current_sheet : string) (read : outcome DataFrame)
| AClear
| ASave (current_sheet : string) (written : outcome unit)
| ACellChanged (row column : nat) (new_text : string)
| AUndo
| ARedo
| AFilterDialog (c : Choice).

Definition run_action (a : action) : M unit :=
  match a with
  | ALoadSheet current_sheet read => _load_current_sheet_data current_sheet read
  | AClear => clear_all_data
  | ASave current_sheet written => _handle_save current_sheet written ;; ret tt
  | ACellChanged row column new_text => _handle_cell_changed row column new_text
  | AUndo => _handle_undo
  | ARedo => _handle_redo
  | AFilterDialog c => _show_filter_dialog c
  end.

(** The actions one after the other, each of them run whatever the outcome
    of the one before. *)
Fixpoint run_actions (l : list action) : M unit :=
  match l with
  | [] => ret tt
  | a :: l' => and_then (run_action a) (run_actions l')
  end.

Lemma clear_all_data_eq s : clear_all_data s = (Raised NameError_pd, s).
Proof. reflexivity. Qed.

Lemma load_effect_view d s : _current_view_df (load_effect d s) = plain_view d.
Proof.
  unfold load_effect, refresh, criteria.
  cbn [_current_view_df set_current_view_df].
  destruct (push_state_effect_frame
              (mkAppLogic d (_current_view_df s) [] [] (max_undo_steps s)
                 None "" None None (stdout s))) as (D & _ & C).
  unfold criteria in C. rewrite D. cbn in C. injection C as -> -> -> ->.
  apply compute_view_no_criteria.
Qed.

Lemma _load_current_sheet_data_eq current_sheet read s :
  Str.truthy current_sheet = true ->
  _load_current_sheet_data current_sheet read s
  = match read with
    | Returned dataframe =>
        (if has_cell (plain_view dataframe) then Raised NameError_pd
         else Returned tt,
         load_effect dataframe s)
    | Raised _ => (Raised NameError_pd, s)
    end.
Proof.
  intros T. unfold _load_current_sheet_data. rewrite T. cbn [negb].
  unfold try_except, bind, call. destruct read as [d|e]; [|reflexivity].
  rewrite load_new_sheet_eq, _update_table_view_eq, load_effect_view.
  now destruct (has_cell (plain_view d)).
Qed.

Lemma _handle_undo_eq s :
  _handle_undo s
  = (match fst (undo_effect s) with
     | Returned true =>
         if has_cell (_current_view_df (snd (undo_effect s)))
         then Raised NameError_pd else Returned tt
     | Returned false => Returned tt
     | Raised e => Raised e
     end, snd (undo_effect s)).
Proof.
  unfold _handle_undo, bind. rewrite undo_eq.
  destruct (undo_effect s) as [[[]|e] s']; cbn [fst snd]; try reflexivity.
  apply _update_table_view_eq.
Qed.

Lemma _handle_redo_eq s :
  _handle_redo s
  = (match fst (redo_effect s) with
     | Returned true =>
         if has_cell (_current_view_df (snd (redo_effect s)))
         then Raised NameError_pd else Returned tt
     | Returned false => Returned tt
     | Raised e => Raised e
     end, snd (redo_effect s)).
Proof.
  unfold _handle_redo, bind. rewrite redo_eq.
  destruct (redo_effect s) as [[[]|e] s']; cbn [fst snd]; try reflexivity.
  apply _update_table_view_eq.
Qed.

(** X27. main_window.py uses the name [pd] and never imports pandas.  So
    [clear_all_data] raises NameError on every call, before it has
    touched the engine.  [_load_current_sheet_data] hands the sheet it
    has read to the engine, which loads it; filling the table then raises
    NameError at the first cell, the handler calls [clear_all_data], and
    the NameError of that call leaves the method: a sheet with a cell is
    loaded and the method raises, a sheet without one is loaded and the
    method returns.  When the sheet cannot be read the method raises the
    NameError too, and the engine is as it was.  [_handle_undo] and
    [_handle_redo] raise it after an [undo] or [redo] that returned
    [True] and left a view with a cell. *)
Theorem window_raises_NameError (s : AppLogic) (current_sheet : string)
  (dataframe : DataFrame) (e : exn) :
  Str.truthy current_sheet = true ->
  clear_all_data s = (Raised NameError_pd, s)
  /\ _load_current_sheet_data current_sheet (Returned dataframe) s
     = (if has_cell (plain_view dataframe) then Raised NameError_pd
        else Returned tt,
        exec (load_new_sheet dataframe) s)
  /\ _load_current_sheet_data current_sheet (Raised e) s
     = (Raised NameError_pd, s)
  /\ (result undo s = Returned true ->
      _handle_undo s
      = (if has_cell (_current_view_df (exec undo s)) then Raised NameError_pd
         else Returned tt,
         exec undo s))
  /\ (result redo s = Returned true ->
      _handle_redo s
      = (if has_cell (_current_view_df (exec redo s)) then Raised NameError_pd
         else Returned tt,
         exec redo s)).
Proof.
  intros T. split; [reflexivity|].
  rewrite !_load_current_sheet_data_eq by exact T.
  unfold exec, result. rewrite load_new_sheet_eq, undo_eq, redo_eq.
  split; [reflexivity|]. split; [reflexivity|].
  rewrite _handle_undo_eq, _handle_redo_eq.
  split; intros ->; reflexivity.
Qed.

(** The table can be traced back to the dataset: the view has the
    columns of the dataset, and each index label of the view is a label
    of the dataset. *)
Definition table_fits (s : AppLogic) : Prop :=
  columns (_current_view_df s) = columns (df s)
  /\ incl (index (_current_view_df s)) (index (df s)).

Lemma compute_view_fits d c :
  columns (compute_view d c) = columns d
  /\ incl (index (compute_view d c)) (index d).
Proof.
  destruct c as [[[fc ft] sc] st]. unfold compute_view.
  destruct (empty d); cbn [columns rows].
  - split; [reflexivity|]. intros x [].
  - rewrite sort_step_columns, filter_step_columns.
    split; [reflexivity|].
    destruct (filter_step_rows fc ft d) as [hidden P].
    intros x Hx.
    apply (Permutation_in _ (sort_step_index sc st _)) in Hx.
    unfold index in *. apply in_map_iff in Hx as [r [<- Hr]].
    apply in_map. apply (Permutation_in _ P). apply in_or_app. now left.
Qed.

Lemma refresh_fits s : table_fits (refresh s).
Proof.
  unfold table_fits, refresh.
  cbn [_current_view_df df set_current_view_df].
  apply compute_view_fits.
Qed.

Lemma loc_set_fits label name v d :
  columns (loc_set label name v d) = columns d
  /\ index (loc_set label name v d) = index d.
Proof.
  unfold loc_set. destruct (col_pos (columns d) name); [|now split].
  split; [reflexivity|]. unfold index. cbn. rewrite map_map.
  apply map_ext. intros r. now destruct (fst r =? label)%Z.
Qed.

Lemma push_state_effect_fits s :
  table_fits s -> table_fits (push_state_effect s).
Proof.
  unfold table_fits.
  destruct (push_state_effect_frame s) as (-> & -> & _). trivial.
Qed.

Lemma refreshed_fits s :
  table_fits s -> table_fits (snd (refreshed s)).
Proof.
  intros F. destruct (refreshed_cases s) as [[_ ->]|(e & _ & ->)];
    [apply refresh_fits|exact F].
Qed.

(** A text typed into the filter dialog that the filter compiles. *)
Definition typed_text_compiles (a : action) : Prop :=
  match a with
  | AFilterDialog c => filter_error (Str.strip (typed_text c)) = None
  | _ => True
  end.

Lemma push_state_effect_compiles s :
  filter_compiles s -> filter_compiles (push_state_effect s).
Proof. unfold filter_compiles. now rewrite push_state_effect_text. Qed.

Lemma run_action_fits a s :
  typed_text_compiles a ->
  table_fits s /\ filter_compiles s ->
  table_fits (exec (run_action a) s)
  /\ filter_compiles (exec (run_action a) s).
Proof.
  intros T [F K]. unfold exec.
  destruct a as [sheet read| |sheet written|r c new_text| | |ch];
    cbn [run_action].
  - destruct (Str.truthy sheet) eqn:Ts.
    + rewrite _load_current_sheet_data_eq by exact Ts.
      destruct read as [d|e]; cbn [snd]; [|now split].
      split; [apply refresh_fits|].
      unfold load_effect, filter_compiles, refresh.
      cbn [_active_filter_text set_current_view_df].
      now rewrite push_state_effect_text.
    + unfold _load_current_sheet_data. rewrite Ts. now split.
  - rewrite clear_all_data_eq. now split.
  - unfold _handle_save, bind, get, ret.
    destruct (empty (df s) || negb (Str.truthy sheet));
      [now split|].
    destruct written; [|now split].
    rewrite push_state_eq. cbn [fst snd].
    split; [now apply push_state_effect_fits
           |now apply push_state_effect_compiles].
  - destruct (nth_error (index (_current_view_df s)) r) as [label|] eqn:R.
    + destruct (nth_error (columns (df s)) c) as [name|] eqn:C.
      * rewrite (_handle_cell_changed_in_range _ _ _ _ label name R C).
        cbn [fst snd]. split.
        -- apply push_state_effect_fits in F. unfold table_fits in *. cbn.
           destruct (loc_set_fits label name (VStr new_text)
                       (df (push_state_effect s))) as [Lc Li].
           destruct (push_state_effect_frame s) as (D & _).
           rewrite <- D, Lc, Li. exact F.
        -- now apply push_state_effect_compiles.
      * rewrite _handle_cell_changed_out_of_range by auto. now split.
    + rewrite _handle_cell_changed_out_of_range by auto. now split.
  - rewrite _handle_undo_eq. cbn [snd]. unfold undo_effect.
    destruct (rev (undo_stack s)) as [|x [|y below]]; cbn [snd];
      try (now split).
    rewrite and_true_state, filter_compiles_refreshed by exact K.
    split; [apply refresh_fits|exact K].
  - rewrite _handle_redo_eq. cbn [snd]. unfold redo_effect.
    destruct (rev (redo_stack s)) as [|x below]; cbn [snd];
      try (now split).
    rewrite and_true_state, filter_compiles_refreshed by exact K.
    split; [apply refresh_fits|exact K].
  - unfold _show_filter_dialog, bind, get, ret.
    destruct (empty (df s)); [now split|].
    destruct (pressed_apply ch); [|now split].
    rewrite apply_filters_and_sort_eq.
    rewrite filter_compiles_refreshed by exact T.
    rewrite _update_table_view_eq. cbn [snd].
    split; [apply refresh_fits|exact T].
Qed.

(** X25. Whatever the user does in the window (load a sheet, edit cells,
    undo, redo, filter, sort, save, with files that can or cannot be read
    and written), and whether the calls return or raise, the table stays
    traceable to the dataset as long as every text typed into the filter
    dialog is a regular expression: the view has the columns of the
    dataset in their order, and every index label of a view row is the
    label of a dataset row. *)
Theorem table_always_fits (actions : list action) :
  Forall typed_text_compiles actions ->
  table_fits (exec (run_actions actions) __init__).
Proof.
  assert (forall l s, Forall typed_text_compiles l ->
                      table_fits s /\ filter_compiles s ->
                      table_fits (exec (run_actions l) s)) as G.
  { induction l as [|a l IH]; intros s T F; [apply F|].
    inversion T as [|? ? Ta Tl]; subst.
    cbn [run_actions]. unfold and_then.
    change (table_fits (exec (run_actions l) (exec (run_action a) s))).
    apply IH; [exact Tl|]. now apply run_action_fits. }
  intros T. apply G; [exact T|].
  split; [|reflexivity]. split; [reflexivity|]. intros x [].
Qed.

End Window.

Lemma window_raises_NameError_witness :
  let s := exec (lib := Ref.lib) (run_ops two_edits_saved) __init__ in
  clear_all_data s = (Raised NameError_pd, s)
  /\ _load_current_sheet_data "Inventar" (Returned inventory) s
     = (Raised NameError_pd, exec (load_new_sheet inventory) s)
  /\ _load_current_sheet_data "Inventar" (Raised "FileNotFoundError") s
     = (Raised NameError_pd, s)
  /\ _handle_undo s = (Raised NameError_pd, exec undo s)
  /\ _handle_redo (exec undo s)
     = (Raised NameError_pd, exec redo (exec undo s)).
Proof.
  intros s.
  destruct (window_raises_NameError (lib := Ref.lib) s "Inventar" inventory
              "FileNotFoundError" eq_refl) as (A & B & C & D & _).
  destruct (window_raises_NameError (lib := Ref.lib) (exec undo s) "Inventar"
              inventory "FileNotFoundError" eq_refl) as (_ & _ & _ & _ & E).
  split; [exact A|]. split; [exact B|]. split; [exact C|].
  split; [exact (D eq_refl)|exact (E eq_refl)].
Defined.

Lemma table_always_fits_witness :
  table_fits
    (exec (lib := Ref.lib)
       (run_actions
          [ALoadSheet "Inventar" (Returned inventory);
           ACellChanged 1 0 "Trackball";
           AFilterDialog (mkChoice 1 " a" 2 2 true);
           ACellChanged 0 1 "30";
           AUndo; ARedo;
           ASave "Inventar" (Returned tt);
           AClear;
           ALoadSheet "Preise" (Raised "FileNotFoundError")])
       __init__).
Proof.
  apply (table_always_fits (lib := Ref.lib)).
  repeat constructor.
Defined.
